(** * Verification of tools/validation_checks.py

    A shallow embedding of the two validators of the annotation portfolio
    (the COCO bounding-box validator and the text-annotation validator),
    followed by the properties of their specification.

    Layout:
    - [Binary64]: Python's [float] (IEEE-754 binary64, round to nearest even),
      as exact rationals together with the two infinities and NaN;
    - [Py]: the Python values produced by [json.load], the exceptions and
      the operators the script applies to them;
    - [Pandas]: the data frame of [pd.read_csv] and the pandas and numpy
      operations the script calls;
    - [Out]: the lines the validators print;
    - [Visual]: [validate_visual_annotations];
    - [Text]: [validate_text_annotations];
    - [Spec]: the data model and the notions the properties are stated with;
    - [Examples]: datasets and record sets;
    - [Script]: the block run under [__main__], which calls both validators;
    - [Report]: readers of the printed lines, and what the issues, the
      lookup of an image, the thresholds and the distributions are in
      terms of the data;
    - [Samples]: further datasets and record sets;
    - the properties: rounding, Python values, each validator, and the
      examples; then the order of doubles, the loops, what each validator
      prints and returns on any input, the issues of check 1, the two
      thresholds in exact arithmetic, the distributions, and the script. *)

From Stdlib Require Import ZArith QArith Qabs Qpower Qreduction Lia Lqa.
From Stdlib Require Import List String Ascii Bool.
Import ListNotations.

Set Implicit Arguments.
Set Warnings "-register-all".

(* ================================================================== *)
(** * Binary64: Python floats *)
(* ================================================================== *)

Module Binary64.

Local Open Scope Z_scope.

(** A float is a rational (the exact value of a finite double; the sign of
    zero is not represented, no operation of the script observes it), an
    infinity, or NaN. *)
Inductive float : Type :=
| Fin (q : Q)
| Inf (neg : bool)
| NaN.

(** Exponent of the least subnormal, and the overflow exponent. *)
Definition emin : Z := -1074.
Definition emax : Z := 1024.

(** [N / D] rounded to the nearest integer, ties to even ([0 <= N], [0 < D]). *)
Definition rne_div (N D : Z) : Z :=
  let q := N / D in
  let r := N mod D in
  match 2 * r ?= D with
  | Lt => q
  | Gt => q + 1
  | Eq => if Z.even q then q else q + 1
  end.

(** The fraction [n / (d * 2^e)], as numerator and denominator. *)
Definition scaled (n d e : Z) : Z * Z :=
  if 0 <=? e then (n, d * 2 ^ e) else (n * 2 ^ (- e), d).

(** The exponent [e] of the unit in the last place of [n/d]:
    [2^52 <= n / (d * 2^e) < 2^53], unless [n/d] is subnormal, where [e = emin]. *)
Definition ulp_exponent (n d : Z) : Z :=
  let e0 := Z.log2 n - Z.log2 d - 53 in
  let '(N, D) := scaled n d e0 in
  let e1 := if 2 ^ 53 * D <=? N then e0 + 1 else e0 in
  Z.max e1 emin.

(** Mantissa and exponent of the double nearest to [n/d] ([0 < n], [0 < d]). *)
Definition round_pos (n d : Z) : Z * Z :=
  let e := ulp_exponent n d in
  let '(N, D) := scaled n d e in
  (rne_div N D, e).

(** The rational [m * 2^e], in lowest terms. *)
Definition of_mant_exp (m e : Z) : Q :=
  Qred (if 0 <=? e then inject_Z (m * 2 ^ e) else Qmake m (Z.to_pos (2 ^ (- e)))).

Definition overflows (q : Q) : bool := Qle_bool (inject_Z (2 ^ emax)) q.

(** Rounding of an exact rational to binary64; a magnitude that rounds to
    [2^1024] or more becomes an infinity. *)
Definition round (q : Q) : float :=
  let q' := Qred q in
  match Qnum q' with
  | Z0 => Fin 0
  | Zpos n =>
      let '(m, e) := round_pos (Zpos n) (Zpos (Qden q')) in
      let v := of_mant_exp m e in
      if overflows v then Inf false else Fin v
  | Zneg n =>
      let '(m, e) := round_pos (Zpos n) (Zpos (Qden q')) in
      let v := of_mant_exp m e in
      if overflows v then Inf true else Fin (Qred (- v))
  end.

(** [2^e] as a rational, the unit roundoff, and two mantissa bounds. *)
Definition p2 (e : Z) : Q := (2 ^ e)%Q.
Definition u : Q := 1 # (2 ^ 53).
Definition c52 : Q := inject_Z (2 ^ 52).
Definition c53 : Q := inject_Z (2 ^ 53).

(** The double of mantissa [m] and exponent [e], or the infinity it
    overflows to. *)
Definition finite_value (m e : Z) : float :=
  if overflows (of_mant_exp m e) then Inf false else Fin (of_mant_exp m e).

(** Negation. *)
Definition fopp (f : float) : float :=
  match f with
  | Fin v => Fin (Qred (- v))
  | Inf s => Inf (negb s)
  | NaN => NaN
  end.

End Binary64.

(* ================================================================== *)
(** * Py: values of [json.load], exceptions, operators *)
(* ================================================================== *)

Module Py.

Import Binary64.
Local Open Scope string_scope.
Local Open Scope list_scope.
Local Open Scope Z_scope.

(** The exceptions the script can raise on loaded data; [LoadError] stands
    for whatever else [open] or the parser raises (PermissionError, ...). *)
Inductive exn : Type :=
| TypeError
| KeyError (key : string)
| AttributeError
| ZeroDivisionError
| OverflowError
| ValueError
| LoadError (name : string).

(** Outcome of evaluating an expression: a value, a raised exception, or
    [Unmodelled] for the one operation whose outcome depends on the machine
    (the repetition of a sequence, [seq * n], past the length that every
    build of the interpreter can index). *)
Inductive res (A : Type) : Type :=
| Ok (a : A)
| Raise (e : exn)
| Unmodelled.

Arguments Ok {A} a.
Arguments Raise {A} e.
Arguments Unmodelled {A}.

Definition bind {A B} (r : res A) (k : A -> res B) : res B :=
  match r with
  | Ok a => k a
  | Raise e => Raise e
  | Unmodelled => Unmodelled
  end.

Declare Scope py_scope.
Delimit Scope py_scope with py.
Notation "x <- e ;; k" := (bind e (fun x => k))
  (at level 61, e at next level, right associativity) : py_scope.
Notation "' p <- e ;; k" := (bind e (fun x => match x with p => k end))
  (at level 61, p pattern, e at next level, right associativity) : py_scope.
Local Open Scope py_scope.

(** A Python object as [json.load] builds it.  A string is a sequence of
    code points below 256; a dict is an association list in insertion order
    with distinct keys. *)
Inductive value : Type :=
| VNone
| VBool (b : bool)
| VInt (z : Z)
| VFloat (f : float)
| VStr (s : string)
| VList (l : list value)
| VDict (d : list (string * value)).

Fixpoint lookup (k : string) (d : list (string * value)) : option value :=
  match d with
  | [] => None
  | (k', v) :: d' => if String.eqb k k' then Some v else lookup k d'
  end.

(** ** Numbers *)

Inductive num : Type :=
| NInt (z : Z)
| NFloat (f : float).

(** [bool] is a subclass of [int]. *)
Definition as_num (v : value) : option num :=
  match v with
  | VBool b => Some (NInt (if b then 1 else 0))
  | VInt z => Some (NInt z)
  | VFloat f => Some (NFloat f)
  | _ => None
  end.

Definition of_num (n : num) : value :=
  match n with
  | NInt z => VInt z
  | NFloat f => VFloat f
  end.

(** [float(z)]: OverflowError when the integer is too large. *)
Definition int_to_float (z : Z) : res float :=
  match round (inject_Z z) with
  | Inf _ => Raise OverflowError
  | f => Ok f
  end.

Definition to_float (n : num) : res float :=
  match n with
  | NInt z => int_to_float z
  | NFloat f => Ok f
  end.

Definition qsign (q : Q) : bool := Qnum q <? 0.
Definition qzero (q : Q) : bool := Qnum q =? 0.

(** IEEE-754 addition, multiplication and division on doubles. *)
Definition fadd (a b : float) : float :=
  match a, b with
  | NaN, _ | _, NaN => NaN
  | Inf s, Inf t => if Bool.eqb s t then Inf s else NaN
  | Inf s, Fin _ => Inf s
  | Fin _, Inf t => Inf t
  | Fin x, Fin y => round (x + y)
  end.

Definition fmul (a b : float) : float :=
  match a, b with
  | NaN, _ | _, NaN => NaN
  | Inf s, Inf t => Inf (xorb s t)
  | Inf s, Fin y => if qzero y then NaN else Inf (xorb s (qsign y))
  | Fin x, Inf t => if qzero x then NaN else Inf (xorb (qsign x) t)
  | Fin x, Fin y => round (x * y)
  end.

(** Division by a divisor that is not zero. *)
Definition fdiv (a b : float) : float :=
  match a, b with
  | NaN, _ | _, NaN => NaN
  | Inf _, Inf _ => NaN
  | Inf s, Fin y => Inf (xorb s (qsign y))
  | Fin _, Inf _ => Fin 0
  | Fin x, Fin y => round (x / y)
  end.

Definition fzero (f : float) : bool :=
  match f with
  | Fin q => qzero q
  | _ => false
  end.

Definition num_add (a b : num) : res num :=
  match a, b with
  | NInt x, NInt y => Ok (NInt (x + y))
  | _, _ => fa <- to_float a ;; fb <- to_float b ;; Ok (NFloat (fadd fa fb))
  end.

Definition num_mul (a b : num) : res num :=
  match a, b with
  | NInt x, NInt y => Ok (NInt (x * y))
  | _, _ => fa <- to_float a ;; fb <- to_float b ;; Ok (NFloat (fmul fa fb))
  end.

(** True division.  [int / int] is the correctly rounded quotient. *)
Definition num_truediv (a b : num) : res float :=
  match a, b with
  | NInt x, NInt y =>
      if y =? 0 then Raise ZeroDivisionError
      else match round (Qmake x 1 / Qmake y 1) with
           | Inf _ => Raise OverflowError
           | f => Ok f
           end
  | _, _ =>
      fa <- to_float a ;; fb <- to_float b ;;
      if fzero fb then Raise ZeroDivisionError else Ok (fdiv fa fb)
  end.

(** Exact comparison of numbers; every comparison with NaN is false. *)
Definition num_float (n : num) : float :=
  match n with
  | NInt z => Fin (inject_Z z)
  | NFloat f => f
  end.

Definition float_lt (a b : float) : bool :=
  match a, b with
  | NaN, _ | _, NaN => false
  | Inf s, Inf t => s && negb t
  | Inf s, Fin _ => s
  | Fin _, Inf t => negb t
  | Fin x, Fin y => negb (Qle_bool y x)
  end.

Definition float_le (a b : float) : bool :=
  match a, b with
  | NaN, _ | _, NaN => false
  | Inf s, Inf t => s || negb t
  | Inf s, Fin _ => s
  | Fin _, Inf t => negb t
  | Fin x, Fin y => Qle_bool x y
  end.

Definition float_eq (a b : float) : bool :=
  match a, b with
  | Inf s, Inf t => Bool.eqb s t
  | Fin x, Fin y => Qeq_bool x y
  | _, _ => false
  end.

Definition num_lt (a b : num) : bool := float_lt (num_float a) (num_float b).
Definition num_le (a b : num) : bool := float_le (num_float a) (num_float b).
Definition num_eq (a b : num) : bool := float_eq (num_float a) (num_float b).

(** ** Truth value, length, iteration, subscripts *)

(** [bool(v)], as tested by [if v:]. *)
Definition truthy (v : value) : bool :=
  match v with
  | VNone => false
  | VBool b => b
  | VInt z => negb (z =? 0)
  | VFloat f => negb (fzero f)
  | VStr s => negb (String.eqb s "")
  | VList l => match l with [] => false | _ => true end
  | VDict d => match d with [] => false | _ => true end
  end.

(** [len(v)]. *)
Definition py_len (v : value) : res Z :=
  match v with
  | VStr s => Ok (Z.of_nat (String.length s))
  | VList l => Ok (Z.of_nat (List.length l))
  | VDict d => Ok (Z.of_nat (List.length d))
  | _ => Raise TypeError
  end.

Fixpoint chars (s : string) : list value :=
  match s with
  | EmptyString => []
  | String c s' => VStr (String c EmptyString) :: chars s'
  end.

(** The elements [for x in v] runs over: the items of a list, the keys of
    a dict, the characters of a string. *)
Definition py_iter (v : value) : res (list value) :=
  match v with
  | VList l => Ok l
  | VStr s => Ok (chars s)
  | VDict d => Ok (map (fun kv => VStr (fst kv)) d)
  | _ => Raise TypeError
  end.

(** [v[k]] for a string key [k]. *)
Definition getitem (v : value) (k : string) : res value :=
  match v with
  | VDict d => match lookup k d with
               | Some x => Ok x
               | None => Raise (KeyError k)
               end
  | _ => Raise TypeError
  end.

(** [v.get(k, default)]. *)
Definition dict_get (v : value) (k : string) (default : value) : res value :=
  match v with
  | VDict d => match lookup k d with
               | Some x => Ok x
               | None => Ok default
               end
  | _ => Raise AttributeError
  end.

(** ** Equality *)

Definition is_nan (v : value) : bool :=
  match v with
  | VFloat NaN => true
  | _ => false
  end.

(** [a == b].  Numbers compare by value across [bool], [int] and [float];
    containers compare their items by identity first and by [==] next, and
    the one object of [json.load] that differs from itself, NaN, is shared
    by all its occurrences. *)
Fixpoint py_eq (a b : value) {struct a} : bool :=
  match a, b with
  | VNone, VNone => true
  | VStr s, VStr t => String.eqb s t
  | VList la, VList lb =>
      (fix items (la lb : list value) {struct la} : bool :=
         match la, lb with
         | [], [] => true
         | x :: la', y :: lb' =>
             ((is_nan x && is_nan y) || py_eq x y) && items la' lb'
         | _, _ => false
         end) la lb
  | VDict da, VDict db =>
      Nat.eqb (List.length da) (List.length db) &&
      forallb (fun kv =>
                 match lookup (fst kv) db with
                 | Some y => (is_nan (snd kv) && is_nan y) || py_eq (snd kv) y
                 | None => false
                 end) da
  | _, _ =>
      match as_num a, as_num b with
      | Some x, Some y => num_eq x y
      | _, _ => false
      end
  end.

(** Equality of two items of a container. *)
Definition item_eq (x y : value) : bool := (is_nan x && is_nan y) || py_eq x y.

(** ** Ordering *)

Inductive cmpop : Type := OpLt | OpLe | OpGt.

Definition num_cmp (op : cmpop) (a b : num) : bool :=
  match op with
  | OpLt => num_lt a b
  | OpLe => num_le a b
  | OpGt => num_lt b a
  end.

Definition ord_cmp (op : cmpop) (c : comparison) : bool :=
  match op, c with
  | OpLt, Lt | OpLe, Lt | OpLe, Eq | OpGt, Gt => true
  | _, _ => false
  end.

(** [a < b], [a <= b], [a > b]: numbers by value, strings by code point,
    lists by their first differing items; TypeError otherwise. *)
Fixpoint py_cmp (op : cmpop) (a b : value) {struct a} : res bool :=
  match a, b with
  | VStr s, VStr t => Ok (ord_cmp op (String.compare s t))
  | VList la, VList lb =>
      (fix items (la lb : list value) {struct la} : res bool :=
         match la, lb with
         | x :: la', y :: lb' =>
             if item_eq x y then items la' lb' else py_cmp op x y
         | _, _ =>
             Ok (ord_cmp op (Nat.compare (List.length la) (List.length lb)))
         end) la lb
  | _, _ =>
      match as_num a, as_num b with
      | Some x, Some y => Ok (num_cmp op x y)
      | _, _ => Raise TypeError
      end
  end.

Definition py_lt := py_cmp OpLt.
Definition py_le := py_cmp OpLe.
Definition py_gt := py_cmp OpGt.

(** [a or b] on two conditions: [b] is evaluated only when [a] is false. *)
Definition py_or (a : res bool) (b : res bool) : res bool :=
  x <- a ;; if x then Ok true else b.

(** ** Arithmetic *)

(** [a + b]: numbers, or the concatenation of two strings or two lists. *)
Definition py_add (a b : value) : res value :=
  match a, b with
  | VStr s, VStr t => Ok (VStr (s ++ t)%string)
  | VList la, VList lb => Ok (VList (la ++ lb))
  | _, _ =>
      match as_num a, as_num b with
      | Some x, Some y => n <- num_add x y ;; Ok (of_num n)
      | _, _ => Raise TypeError
      end
  end.

(** [n] copies of a list, and of a string, one after another. *)
Fixpoint copies {A : Type} (n : nat) (l : list A) : list A :=
  match n with
  | O => []
  | S n' => l ++ copies n' l
  end.

Fixpoint copies_str (n : nat) (s : string) : string :=
  match n with
  | O => EmptyString
  | S n' => (s ++ copies_str n' s)%string
  end.

(** The largest index of a sequence on every build of the interpreter. *)
Definition index_max : Z := 2 ^ 31 - 1.

(** The count [n] and the length of [n] copies of a sequence of [len] items
    are within [index_max]. *)
Definition indexable (len : nat) (n : Z) : bool :=
  (Z.abs n <=? index_max) && (Z.of_nat len * n <=? index_max).

(** [seq * n]: [n] copies of the sequence, none when [n <= 0]; TypeError
    when [seq] is no sequence.  Past [index_max] Python answers with the
    longer sequence, MemoryError or OverflowError, as the machine allows. *)
Definition py_repeat (seq : value) (n : Z) : res value :=
  match seq with
  | VStr s =>
      if indexable (String.length s) n
      then Ok (VStr (copies_str (Z.to_nat n) s)) else Unmodelled
  | VList l =>
      if indexable (List.length l) n
      then Ok (VList (copies (Z.to_nat n) l)) else Unmodelled
  | _ => Raise TypeError
  end.

(** [a * b]: the product of two numbers, or the repetition of a sequence
    by an integer (a [bool] is one), on either side. *)
Definition py_mul (a b : value) : res value :=
  match as_num a, as_num b with
  | Some x, Some y => n <- num_mul x y ;; Ok (of_num n)
  | None, Some (NInt n) => py_repeat a n
  | Some (NInt n), None => py_repeat b n
  | _, _ => Raise TypeError
  end.

(** [a / b]. *)
Definition py_truediv (a b : value) : res value :=
  match as_num a, as_num b with
  | Some x, Some y => f <- num_truediv x y ;; Ok (VFloat f)
  | _, _ => Raise TypeError
  end.

(** ** Strings *)

(** [str.lower] on code points below 256: A-Z, and the capital letters of
    Latin-1 (192-222 except the multiplication sign 215), move up by 32. *)
Definition lower_char (c : ascii) : ascii :=
  let n := nat_of_ascii c in
  if ((65 <=? n) && (n <=? 90))%nat ||
     ((192 <=? n) && (n <=? 222) && negb (n =? 215))%nat
  then ascii_of_nat (n + 32) else c.

Fixpoint lower (s : string) : string :=
  match s with
  | EmptyString => EmptyString
  | String c s' => String (lower_char c) (lower s')
  end.

(** [v.lower()]. *)
Definition str_lower (v : value) : res string :=
  match v with
  | VStr s => Ok (lower s)
  | _ => Raise AttributeError
  end.

(** [needle in hay], for strings. *)
Fixpoint contains (needle hay : string) : bool :=
  String.prefix needle hay ||
  match hay with
  | EmptyString => false
  | String _ hay' => contains needle hay'
  end.

End Py.

(* ================================================================== *)
(** * Pandas: the data frame of [pd.read_csv] and its operations *)
(* ================================================================== *)

Module Pandas.

Import Binary64 Py.
Local Open Scope string_scope.
Local Open Scope list_scope.
Local Open Scope Z_scope.

(** pandas and numpy are libraries the script imports; what follows is the
    behaviour of the operations it calls on a frame that [pd.read_csv] has
    loaded: column lookup, [isnull().sum()], [value_counts()] with its
    defaults, [max()], [min()], comparison with a string, and numpy's
    division. *)

(** A parsed field: text, a number, or a boolean.  The values of one column
    are of one kind. *)
Inductive scalar : Type :=
| SStr (s : string)
| SNum (q : Q)
| SBool (b : bool).

(** A cell: a parsed field, or [None] for a missing one (NaN). *)
Definition cell : Type := option scalar.

Definition scalar_eqb (a b : scalar) : bool :=
  match a, b with
  | SStr s, SStr t => String.eqb s t
  | SNum x, SNum y => Qeq_bool x y
  | SBool x, SBool y => Bool.eqb x y
  | _, _ => false
  end.

(** A frame: the header, and the rows in order.  A row shorter than the
    header is missing its last fields. *)
Record frame : Type := {
  columns : list string;
  rows : list (list cell)
}.

(** [len(df)]. *)
Definition nrows (df : frame) : Z := Z.of_nat (List.length (rows df)).

Fixpoint index_of (name : string) (cols : list string) : option nat :=
  match cols with
  | [] => None
  | c :: cols' =>
      if String.eqb name c then Some O
      else option_map S (index_of name cols')
  end.

Definition field (i : nat) (row : list cell) : cell := nth i row None.

(** [df[name]]: KeyError when there is no such column. *)
Definition column (df : frame) (name : string) : res (list cell) :=
  match index_of name (columns df) with
  | Some i => Ok (map (field i) (rows df))
  | None => Raise (KeyError name)
  end.

(** [name in df.columns]. *)
Definition has_column (df : frame) (name : string) : bool :=
  existsb (String.eqb name) (columns df).

Definition is_null (c : cell) : bool :=
  match c with
  | None => true
  | Some _ => false
  end.

Definition count_if {A} (p : A -> bool) (l : list A) : Z :=
  Z.of_nat (List.length (filter p l)).

(** [df.isnull().sum()]: the number of missing cells of each column. *)
Fixpoint null_counts_from (i : nat) (cols : list string) (rs : list (list cell))
  : list (string * Z) :=
  match cols with
  | [] => []
  | c :: cols' =>
      (c, count_if is_null (map (field i) rs)) :: null_counts_from (S i) cols' rs
  end.

Definition isnull_sum (df : frame) : list (string * Z) :=
  null_counts_from O (columns df) (rows df).

(** [Series.sum()] of integer counts. *)
Definition series_sum (l : list Z) : Z := fold_right Z.add 0 l.

(** One more occurrence of [v] in a tally kept in order of first occurrence. *)
Fixpoint tally_add (v : scalar) (t : list (scalar * Z)) : list (scalar * Z) :=
  match t with
  | [] => [(v, 1)]
  | (u, n) :: t' =>
      if scalar_eqb u v then (u, n + 1) :: t' else (u, n) :: tally_add v t'
  end.

(** The occurrences of each value; missing cells are dropped. *)
Definition tally (col : list cell) : list (scalar * Z) :=
  fold_left (fun t c => match c with
                        | Some v => tally_add v t
                        | None => t
                        end) col [].

(** Insertion into a list sorted by decreasing count, after equal counts. *)
Fixpoint insert_desc (x : scalar * Z) (l : list (scalar * Z))
  : list (scalar * Z) :=
  match l with
  | [] => [x]
  | y :: l' => if snd y <? snd x then x :: y :: l' else y :: insert_desc x l'
  end.

Definition sort_desc (l : list (scalar * Z)) : list (scalar * Z) :=
  fold_left (fun acc x => insert_desc x acc) l [].

(** [Series.value_counts()]: the count of each value that occurs, missing
    cells dropped, by decreasing count (equal counts in order of first
    occurrence). *)
Definition value_counts (col : list cell) : list (scalar * Z) :=
  sort_desc (tally col).

(** [Series.max()] and [Series.min()] of the counts: NaN on no counts. *)
Definition series_max (l : list Z) : num :=
  match l with
  | [] => NFloat NaN
  | x :: l' => NInt (fold_left Z.max l' x)
  end.

Definition series_min (l : list Z) : num :=
  match l with
  | [] => NFloat NaN
  | x :: l' => NInt (fold_left Z.min l' x)
  end.

(** The double nearest to a 64-bit integer. *)
Definition to_float64 (n : num) : float :=
  match n with
  | NInt z => round (inject_Z z)
  | NFloat f => f
  end.

(** numpy's [a / b]: both operands become doubles; a zero divisor gives an
    infinity or NaN, never an exception. *)
Definition np_truediv (a b : num) : float :=
  let fa := to_float64 a in
  let fb := to_float64 b in
  if fzero fb then
    match fa with
    | Fin q => if qzero q then NaN else Inf (qsign q)
    | Inf s => Inf s
    | NaN => NaN
    end
  else fdiv fa fb.

(** [series == text], element by element. *)
Definition equals_text (text : string) (c : cell) : bool :=
  match c with
  | Some (SStr s) => String.eqb s text
  | _ => false
  end.

End Pandas.

(* ================================================================== *)
(** * Output: what the validators print *)
(* ================================================================== *)

Module Out.

Import Binary64 Py.
Local Open Scope string_scope.
Local Open Scope list_scope.
Local Open Scope Z_scope.

(** The f-strings of the bbox check, with the values they interpolate. *)
Inductive issue : Type :=
| InvalidBboxFormat (ann_id : value)
| InvalidBboxDimensions (ann_id w h : value)
| NegativeCoordinates (ann_id x y : value)
| BboxExceedsBounds (ann_id : value).

(** One printed line.  [Text] is a fixed line; [Heading] is the blank line
    and title a check starts with (a pictogram in front of the title is left
    out); every other constructor is the f-string of one [print], with the
    values it interpolates (number formatting is not modelled). *)
Inductive line : Type :=
| Text (s : string)
| Heading (title : string)
| ErrFileNotFound (path : string)
| Count (label : string) (n : Z)
| FoundSmall (n : Z)
| FoundLarge (n : Z)
| Example (ann_id area_percent : value)
| ImagesNoAnnotations (n : Z)
| FoundIssues (n : Z)
| IssueLine (i : issue)
| MoreIssues (n : Z)
| MissingColumns (cols : list string)
| EmptyColumn (col : string) (n : Z)
| GroupLine (v : Pandas.scalar) (n : Z) (percentage : value)
| ClassImbalance (ratio : float)
| HighLowConfidence (n : Z).

Definition rule : line := Text "----------------------------------------".

(** A computation that prints: the lines printed, and the outcome.  The
    lines printed before an exception stay printed. *)
Definition M (A : Type) : Type := (list line * res A)%type.

Definition ret {A} (a : A) : M A := ([], Ok a).

Definition mbind {A B} (m : M A) (k : A -> M B) : M B :=
  match m with
  | (o, Ok a) => let (o', r) := k a in (o ++ o', r)
  | (o, Raise e) => (o, Raise e)
  | (o, Unmodelled) => (o, Unmodelled)
  end.

Definition print (ls : list line) : M unit := (ls, Ok tt).
Definition lift {A} (r : res A) : M A := ([], r).

Definition output {A} (m : M A) : list line := fst m.
Definition outcome {A} (m : M A) : res A := snd m.

Declare Scope out_scope.
Delimit Scope out_scope with out.
Notation "x <~ e ;; k" := (mbind e (fun x => k))
  (at level 61, e at next level, right associativity) : out_scope.
Notation "'say' ls ;; k" := (mbind (print ls) (fun _ => k))
  (at level 61, ls at next level, right associativity) : out_scope.

End Out.

(* ================================================================== *)
(** * Visual: validate_visual_annotations *)
(* ================================================================== *)

Module Visual.

Import Binary64 Py Out.
Local Open Scope string_scope.
Local Open Scope list_scope.
Local Open Scope Z_scope.
Local Open Scope py_scope.
Local Open Scope out_scope.

(** What [open] and [json.load] did with the path. *)
Inductive load_result : Type :=
| NotFound
| Malformed
| LoadFails (name : string)
| Loaded (data : value).

(** The dicts appended to [small_objects] and [large_boxes]. *)
Record entry : Type := {
  entry_id : value;
  entry_image_id : value;
  area_percent : value
}.

(** The dict the validator returns. *)
Record summary : Type := {
  total_images : Z;
  total_annotations : Z;
  critical_issues : Z;
  small_objects : Z;
  large_backgrounds : Z;
  images_without_annotations : Z
}.

(** A [for] loop whose body updates the lists built so far. *)
Fixpoint for_each {A S : Type} (body : A -> S -> res S) (l : list A) (s : S)
  : res S :=
  match l with
  | [] => Ok s
  | x :: l' => s' <- body x s ;; for_each body l' s'
  end.

(** [next((img for img in images if img['id'] == image_id), None)]. *)
Fixpoint first_with_id (imgs : list value) (image_id : value)
  : res (option value) :=
  match imgs with
  | [] => Ok None
  | img :: rest =>
      i <- getitem img "id" ;;
      if py_eq i image_id then Ok (Some img) else first_with_id rest image_id
  end.

Definition find_image (images image_id : value) : res (option value) :=
  imgs <- py_iter images ;; first_with_id imgs image_id.

(** [if img:] on the result of the lookup. *)
Definition resolved (img : option value) : option value :=
  match img with
  | Some i => if truthy i then Some i else None
  | None => None
  end.

(** [x, y, w, h = bbox]; the script unpacks only after [len(bbox) == 4],
    so that the ValueError of another length is never raised. *)
Definition unpack4 (bbox : value) : res (value * value * value * value) :=
  items <- py_iter bbox ;;
  match items with
  | [x; y; w; h] => Ok (x, y, w, h)
  | _ => Raise ValueError
  end.

(** ** Check 1: the body of the bbox loop *)

Definition check_bbox (images ann : value) (issues : list issue)
  : res (list issue) :=
  bbox <- dict_get ann "bbox" (VList []) ;;
  image_id <- dict_get ann "image_id" VNone ;;
  ann_id <- dict_get ann "id" VNone ;;
  n <- py_len bbox ;;
  if negb (n =? 4) then Ok (issues ++ [InvalidBboxFormat ann_id])
  else
    ' (x, y, w, h) <- unpack4 bbox ;;
    bad_dims <- py_or (py_le w (VInt 0)) (py_le h (VInt 0)) ;;
    let issues :=
      if bad_dims then issues ++ [InvalidBboxDimensions ann_id w h]
      else issues in
    img <- find_image images image_id ;;
    match resolved img with
    | Some img =>
        negative <- py_or (py_lt x (VInt 0)) (py_lt y (VInt 0)) ;;
        let issues :=
          if negative then issues ++ [NegativeCoordinates ann_id x y]
          else issues in
        outside <- py_or
          (r <- py_add x w ;; wd <- getitem img "width" ;; py_gt r wd)
          (b <- py_add y h ;; ht <- getitem img "height" ;; py_gt b ht) ;;
        Ok (if outside then issues ++ [BboxExceedsBounds ann_id] else issues)
    | None => Ok issues
    end.

(** [img_area = img['width'] * img['height']]. *)
Definition image_area (img : value) : res value :=
  wd <- getitem img "width" ;;
  ht <- getitem img "height" ;;
  py_mul wd ht.

(** [(area / img_area) * 100]. *)
Definition percent_of (area img_area : value) : res value :=
  ratio <- py_truediv area img_area ;;
  py_mul ratio (VInt 100).

(** The relative area of an annotation of area [area] on [img]: the two
    steps above. *)
Definition relative_area (area img : value) : res value :=
  img_area <- image_area img ;;
  percent_of area img_area.

(** ** Check 2: the body of the small-object loop *)

Definition check_small (images ann : value) (small : list entry)
  : res (list entry) :=
  area <- dict_get ann "area" (VInt 0) ;;
  img_id <- dict_get ann "image_id" VNone ;;
  img <- find_image images img_id ;;
  match resolved img with
  | Some img =>
      img_area <- image_area img ;;
      rel <- percent_of area img_area ;;
      is_small <- py_lt rel (VInt 1) ;;
      if is_small then
        i <- getitem ann "id" ;;
        Ok (small ++ [{| entry_id := i; entry_image_id := img_id;
                         area_percent := rel |}])
      else Ok small
  | None => Ok small
  end.

(** ** Check 3: the background category and the body of its loop *)

(** The loop over [categories], left at the first match by [break];
    [background_cat_id] starts as [None]. *)
Fixpoint find_background (cats : list value) : res value :=
  match cats with
  | [] => Ok VNone
  | cat :: rest =>
      name <- getitem cat "name" ;;
      low <- str_lower name ;;
      if contains "background" low then getitem cat "id"
      else find_background rest
  end.

Definition check_large (images background_cat_id ann : value)
  (large : list entry) : res (list entry) :=
  cat_id <- getitem ann "category_id" ;;
  if py_eq cat_id background_cat_id then
    img_id <- getitem ann "image_id" ;;
    img <- find_image images img_id ;;
    match resolved img with
    | Some img =>
        img_area <- image_area img ;;
        area <- getitem ann "area" ;;
        rel <- percent_of area img_area ;;
        is_large <- py_gt rel (VInt 50) ;;
        if is_large then
          i <- getitem ann "id" ;;
          Ok (large ++ [{| entry_id := i; entry_image_id := img_id;
                           area_percent := rel |}])
        else Ok large
    | None => Ok large
    end
  else Ok large.

(** ** Check 4: the body of the coverage loop *)

(** [[ann for ann in annotations if ann['image_id'] == img['id']]]. *)
Fixpoint img_anns (anns : list value) (img : value) : res (list value) :=
  match anns with
  | [] => Ok []
  | ann :: rest =>
      a <- getitem ann "image_id" ;;
      i <- getitem img "id" ;;
      more <- img_anns rest img ;;
      Ok (if py_eq a i then ann :: more else more)
  end.

Definition check_coverage (annotations img : value) (without : list value)
  : res (list value) :=
  anns <- py_iter annotations ;;
  matching <- img_anns anns img ;;
  if Z.of_nat (List.length matching) =? 0 then
    i <- getitem img "id" ;;
    Ok (without ++ [i])
  else Ok without.

(** ** The validator *)

Definition len {A} (l : list A) : Z := Z.of_nat (List.length l).

Definition examples (l : list entry) : list line :=
  map (fun e => Example (entry_id e) (area_percent e)) (firstn 3 l).

Definition validate_loaded (data : value) : M (option summary) :=
  images <~ lift (dict_get data "images" (VList [])) ;;
  annotations <~ lift (dict_get data "annotations" (VList [])) ;;
  categories <~ lift (dict_get data "categories" (VList [])) ;;
  say [Text ""; Text "Dataset Overview:"] ;;
  n_images <~ lift (py_len images) ;;
  say [Count "Images" n_images] ;;
  n_annotations <~ lift (py_len annotations) ;;
  say [Count "Annotations" n_annotations] ;;
  n_categories <~ lift (py_len categories) ;;
  say [Count "Categories" n_categories] ;;
  (* Check 1 *)
  say [Heading "Check 1: Bounding Box Validation"; rule] ;;
  anns <~ lift (py_iter annotations) ;;
  issues <~ lift (for_each (check_bbox images) anns []) ;;
  (* Check 2 *)
  say [Heading "Check 2: Small Object Detection"; rule] ;;
  small <~ lift (for_each (check_small images) anns []) ;;
  say (match small with
       | [] => [Text "No unusually small objects found"]
       | _ => FoundSmall (len small) :: Text "Examples:" :: examples small
       end) ;;
  (* Check 3 *)
  say [Heading "Check 3: Large Background Boxes"; rule] ;;
  cats <~ lift (py_iter categories) ;;
  background_cat_id <~ lift (find_background cats) ;;
  large <~ (if truthy background_cat_id then
              large <~ lift (for_each (check_large images background_cat_id)
                                      anns []) ;;
              say (match large with
                   | [] => [Text "No oversized background boxes found"]
                   | _ => FoundLarge (len large) :: examples large
                   end) ;;
              ret large
            else ret []) ;;
  (* Check 4 *)
  say [Heading "Check 4: Annotation Coverage"; rule] ;;
  imgs <~ lift (py_iter images) ;;
  without <~ lift (for_each (check_coverage annotations) imgs []) ;;
  say (match without with
       | [] => [Text "All images have at least one annotation"]
       | _ => [ImagesNoAnnotations (len without)]
       end) ;;
  (* Summary *)
  say [Text ""; rule; Text "VALIDATION SUMMARY"; rule] ;;
  say (if len issues =? 0 then [Text "No critical issues found!"]
       else FoundIssues (len issues) :: map IssueLine (firstn 5 issues) ++
            (if len issues >? 5 then [MoreIssues (len issues - 5)] else [])) ;;
  ret (Some {| total_images := n_images;
               total_annotations := n_annotations;
               critical_issues := len issues;
               small_objects := len small;
               large_backgrounds := len large;
               images_without_annotations := len without |}).

Definition validate_visual_annotations (json_file : string)
  (src : load_result) : M (option summary) :=
  say [rule; Text "VISUAL ANNOTATION VALIDATION"; rule] ;;
  match src with
  | NotFound => say [ErrFileNotFound json_file] ;; ret None
  | Malformed => say [Text "Error: Invalid JSON format"] ;; ret None
  | LoadFails name => lift (Raise (LoadError name))
  | Loaded data => validate_loaded data
  end.

End Visual.

(* ================================================================== *)
(** * Text: validate_text_annotations *)
(* ================================================================== *)

Module Text.

Import Binary64 Py Pandas Out.
Local Open Scope string_scope.
Local Open Scope list_scope.
Local Open Scope Z_scope.
Local Open Scope py_scope.
Local Open Scope out_scope.

(** What the [try] block, [import pandas] and [pd.read_csv], did with the
    path: it raised ImportError ([NoPandas], whichever of the two raised
    it), FileNotFoundError, another exception, or it loaded a frame. *)
Inductive load_result : Type :=
| NoPandas
| NotFound
| LoadFails (name : string)
| Loaded (df : frame).

(** The dict the validator returns. *)
Record summary : Type := {
  total_annotations : Z;
  unique_intents : Z;
  empty_values : Z;
  low_confidence_count : Z
}.

Definition required_cols : list string := ["id"; "text"; "intent"; "confidence"].

(** [[col for col in required_cols if col not in df.columns]]. *)
Definition missing_cols (df : frame) : list string :=
  filter (fun col => negb (has_column df col)) required_cols.

(** [(count / len(df)) * 100]: the counts a Series yields when iterated
    are Python integers, as is [len(df)]. *)
Definition percentage (count total : Z) : res value :=
  ratio <- py_truediv (VInt count) (VInt total) ;;
  py_mul ratio (VInt 100).

(** The loop that prints a distribution, one line per group. *)
Fixpoint print_groups (counts : list (scalar * Z)) (total : Z) : M unit :=
  match counts with
  | [] => ret tt
  | g :: rest =>
      p <~ lift (percentage (snd g) total) ;;
      say [GroupLine (fst g) (snd g) p] ;;
      print_groups rest total
  end.

(** [max_count / min_count]. *)
Definition imbalance_ratio (counts : list (scalar * Z)) : float :=
  np_truediv (series_max (map snd counts)) (series_min (map snd counts)).

(** [max_count / min_count > 3]. *)
Definition imbalanced (counts : list (scalar * Z)) : bool :=
  float_lt (Fin 3) (imbalance_ratio counts).

Definition tenth : float := round (1 # 10).

(** [low_confidence > len(df) * 0.1]. *)
Definition too_many_low (low total : Z) : res bool :=
  bound <- py_mul (VInt total) (VFloat tenth) ;;
  py_gt (VInt low) bound.

Definition validate_loaded (df : frame) : M (option summary) :=
  say [Text ""; Text "Dataset Overview:"; Count "Total annotations" (nrows df)] ;;
  (* Check 1 *)
  say [Heading "Check 1: Required Columns"; rule] ;;
  say (match missing_cols df with
       | [] => [Text "All required columns present"]
       | missing => [MissingColumns missing]
       end) ;;
  (* Check 2 *)
  say [Heading "Check 2: Empty Values"; rule] ;;
  let empty_counts := isnull_sum df in
  say (if series_sum (map snd empty_counts) >? 0 then
         Text "Found empty values:" ::
         map (fun cn => EmptyColumn (fst cn) (snd cn))
             (filter (fun cn => snd cn >? 0) empty_counts)
       else [Text "No empty values found"]) ;;
  (* Check 3 *)
  say [Heading "Check 3: Intent Distribution"; rule] ;;
  intents <~ lift (column df "intent") ;;
  let intent_counts := value_counts intents in
  say [Count "Intents found" (Z.of_nat (List.length intent_counts))] ;;
  _ <~ print_groups intent_counts (nrows df) ;;
  say (if imbalanced intent_counts
       then [ClassImbalance (imbalance_ratio intent_counts)]
       else [Text "Balanced distribution"]) ;;
  (* Check 4 *)
  say [Heading "Check 4: Confidence Levels"; rule] ;;
  confidences <~ lift (column df "confidence") ;;
  let confidence_counts := value_counts confidences in
  _ <~ print_groups confidence_counts (nrows df) ;;
  let low_confidence := count_if (equals_text "low") confidences in
  flag <~ lift (too_many_low low_confidence (nrows df)) ;;
  say (if flag then [HighLowConfidence low_confidence] else []) ;;
  ret (Some {| total_annotations := nrows df;
               unique_intents := Z.of_nat (List.length intent_counts);
               empty_values := series_sum (map snd empty_counts);
               low_confidence_count := low_confidence |}).

Definition validate_text_annotations (csv_file : string) (src : load_result)
  : M (option summary) :=
  say [Text ""; rule; Text "TEXT ANNOTATION VALIDATION"; rule] ;;
  match src with
  | NoPandas =>
      say [Text "Error: pandas not installed. Run: pip install pandas"] ;;
      ret None
  | NotFound => say [ErrFileNotFound csv_file] ;; ret None
  | LoadFails name => lift (Raise (LoadError name))
  | Loaded df => validate_loaded df
  end.

End Text.

(* ================================================================== *)
(** * Spec: the notions the properties are stated with *)
(* ================================================================== *)

Module Spec.

Import Binary64 Py Pandas Out.
Local Open Scope string_scope.
Local Open Scope list_scope.
Local Open Scope Z_scope.

(** ** The data model of the visual validator *)

(** An integer small enough that sums and products of two stay doubles. *)
Definition int_ok (z : Z) : bool := Z.abs z <? 2 ^ 511.

(** A number: an integer within [int_ok], or any float. *)
Definition number_ok (v : value) : bool :=
  match v with
  | VInt z => int_ok z
  | VFloat _ => true
  | _ => false
  end.

(** A positive integer, for a width or a height. *)
Definition dimension_ok (v : value) : bool :=
  match v with
  | VInt z => (0 <? z) && int_ok z
  | _ => false
  end.

Definition is_str (v : value) : bool :=
  match v with
  | VStr _ => true
  | _ => false
  end.

Definition anything (v : value) : bool := true.

(** The dict [v] has key [k], with a value that satisfies [p]. *)
Definition field_ok (p : value -> bool) (k : string) (v : value) : bool :=
  match v with
  | VDict d => match lookup k d with
               | Some x => p x
               | None => false
               end
  | _ => false
  end.

(** The dict [v] has no key [k], or one with a value that satisfies [p]. *)
Definition optional_ok (p : value -> bool) (k : string) (v : value) : bool :=
  match v with
  | VDict d => match lookup k d with
               | Some x => p x
               | None => true
               end
  | _ => false
  end.

(** Image: [{id, width: integer > 0, height: integer > 0}]. *)
Definition image_ok (img : value) : bool :=
  field_ok anything "id" img &&
  field_ok dimension_ok "width" img &&
  field_ok dimension_ok "height" img.

(** A bbox: four numbers; or a list of another length, of any items, which
    the validator reports (an absent bbox is the empty list). *)
Definition bbox_ok (bbox : value) : bool :=
  match bbox with
  | VList l => if Nat.eqb (List.length l) 4 then forallb number_ok l else true
  | _ => false
  end.

(** Annotation: [{id, image_id, category_id, bbox, area: number}]. *)
Definition annotation_ok (ann : value) : bool :=
  field_ok anything "id" ann &&
  field_ok anything "image_id" ann &&
  field_ok anything "category_id" ann &&
  optional_ok bbox_ok "bbox" ann &&
  field_ok number_ok "area" ann.

(** Category: [{id, name: string}]. *)
Definition category_ok (cat : value) : bool :=
  field_ok anything "id" cat && field_ok is_str "name" cat.

Definition list_of (p : value -> bool) (v : value) : bool :=
  match v with
  | VList l => forallb p l
  | _ => false
  end.

(** A dataset: a dict whose [images], [annotations] and [categories], where
    present, are lists of such entities. *)
Definition dataset_ok (data : value) : bool :=
  optional_ok (list_of image_ok) "images" data &&
  optional_ok (list_of annotation_ok) "annotations" data &&
  optional_ok (list_of category_ok) "categories" data.

(** [ann['image_id'] == img['id']]. *)
Definition references (ann img : value) : bool :=
  match getitem ann "image_id", getitem img "id" with
  | Ok a, Ok i => py_eq a i
  | _, _ => false
  end.

(** No annotation of [anns] references [img]. *)
Definition unreferenced (anns : list value) (img : value) : bool :=
  forallb (fun ann => negb (references ann img)) anns.

(** The small-object check collects [ann]. *)
Definition collects_small (images ann : value) : bool :=
  match Visual.check_small images ann [] with
  | Ok (_ :: _) => true
  | _ => false
  end.

(** The field [k] of an annotation, [default] when absent. *)
Definition field_or (default : value) (k : string) (d : list (string * value))
  : value :=
  match lookup k d with
  | Some x => x
  | None => default
  end.

(** The sum of two numbers of the data model: a float, or an integer
    below [2^512]. *)
Definition sum_ok (v : value) : bool :=
  match v with
  | VInt z => Z.abs z <? 2 ^ 512
  | VFloat _ => true
  | _ => false
  end.

(** The issues one annotation adds in the bbox check. *)
Definition dims_issue (bad : bool) (ann_id w h : value) : list issue :=
  if bad then [InvalidBboxDimensions ann_id w h] else [].

Definition negative_issue (neg : bool) (ann_id x y : value) : list issue :=
  if neg then [NegativeCoordinates ann_id x y] else [].

Definition bounds_issue (out : bool) (ann_id : value) : list issue :=
  if out then [BboxExceedsBounds ann_id] else [].

Definition mk_entry (i img_id rel : value) : Visual.entry :=
  {| Visual.entry_id := i; Visual.entry_image_id := img_id;
     Visual.area_percent := rel |}.

(** A loop body appends to the list what it would append to the empty list. *)
Definition appends {A B} (body : A -> list B -> res (list B)) : Prop :=
  forall x s, body x s = bind (body x []) (fun new => Ok (s ++ new)).

(** ['background' in cat['name'].lower()]. *)
Definition names_background (cat : value) : res bool :=
  bind (getitem cat "name") (fun name =>
  bind (str_lower name) (fun low => Ok (contains "background" low))).

(** The background check, which runs when [background_cat_id] is true. *)
Definition large_boxes (images : value) (anns : list value)
  (background_cat_id : value) : res (list Visual.entry) :=
  if truthy background_cat_id
  then Visual.for_each (Visual.check_large images background_cat_id) anns []
  else Ok [].

(** The checks of the visual validator in order, without what they print. *)
Definition checks (data : value) : res (option Visual.summary) :=
  bind (dict_get data "images" (VList [])) (fun images =>
  bind (dict_get data "annotations" (VList [])) (fun annotations =>
  bind (dict_get data "categories" (VList [])) (fun categories =>
  bind (py_len images) (fun n_images =>
  bind (py_len annotations) (fun n_annotations =>
  bind (py_len categories) (fun n_categories =>
  bind (py_iter annotations) (fun anns =>
  bind (Visual.for_each (Visual.check_bbox images) anns []) (fun issues =>
  bind (Visual.for_each (Visual.check_small images) anns []) (fun small =>
  bind (py_iter categories) (fun cats =>
  bind (Visual.find_background cats) (fun background_cat_id =>
  bind (large_boxes images anns background_cat_id) (fun large =>
  bind (py_iter images) (fun imgs =>
  bind (Visual.for_each (Visual.check_coverage annotations) imgs [])
       (fun without =>
  Ok (Some {| Visual.total_images := n_images;
              Visual.total_annotations := n_annotations;
              Visual.critical_issues := Visual.len issues;
              Visual.small_objects := Visual.len small;
              Visual.large_backgrounds := Visual.len large;
              Visual.images_without_annotations := Visual.len without |}
  ))))))))))))))).

(** ** Percentages of a distribution *)

Definition qsum (l : list Q) : Q := fold_right Qplus 0%Q l.

Definition tolerance : Q := 1 # (10 ^ 13).

(** The double [(count / total) * 100]. *)
Definition pct (count total : Z) : float :=
  fmul (round (Qmake count 1 / Qmake total 1)) (Fin 100).

(** The lines of a distribution, one per group. *)
Definition group_lines (counts : list (scalar * Z)) (total : Z) : list line :=
  map (fun g => GroupLine (fst g) (snd g) (VFloat (pct (snd g) total))) counts.

(** The percentages of the group lines of an output. *)
Definition printed_percentages (out : list line) : list value :=
  flat_map (fun l => match l with
                     | GroupLine _ _ p => [p]
                     | _ => []
                     end) out.

(** The percentages computed for [counts] are finite and add up to 100
    within [tolerance]. *)
Definition sums_to_100 (counts : list (scalar * Z)) (total : Z) : Prop :=
  exists qs : list Q,
    map (fun g => Text.percentage (snd g) total) counts =
    map (fun q => Ok (VFloat (Fin q))) qs /\
    (Qabs (qsum qs - 100) <= tolerance)%Q.

(** The bbox of an annotation is a sequence of a length other than 4. *)
Definition wrong_length (ann : value) : bool :=
  match ann with
  | VDict d =>
      match py_len (field_or (VList []) "bbox" d) with
      | Ok n => negb (n =? 4)
      | _ => false
      end
  | _ => false
  end.

(** The sum of the counts of a distribution, counts that are all positive,
    and the number of cells of a column that are not missing. *)
Definition counts_sum (t : list (scalar * Z)) : Z := series_sum (map snd t).

Definition positive_counts (t : list (scalar * Z)) : Prop :=
  Forall (fun g => 1 <= snd g) t.

Definition non_null (col : list cell) : Z :=
  count_if (fun c => negb (is_null c)) col.

(** The relative error of a percentage: two roundings. *)
Definition pct_error : Q := (2 * u + u * u)%Q.

End Spec.

(* ================================================================== *)
(** * Examples: the datasets and record sets the properties are tried on *)
(* ================================================================== *)

Module Examples.

Import Py Pandas.
Local Open Scope string_scope.
Local Open Scope list_scope.
Local Open Scope Z_scope.

Definition image (i wd ht : Z) : value :=
  VDict [("id", VInt i); ("width", VInt wd); ("height", VInt ht)].

Definition annotation (i image_id category_id : Z) (bbox : list value)
  (area : Z) : value :=
  VDict [("id", VInt i); ("image_id", VInt image_id);
         ("category_id", VInt category_id); ("bbox", VList bbox);
         ("area", VInt area)].

Definition category (i : Z) (name : string) : value :=
  VDict [("id", VInt i); ("name", VStr name)].

Definition dataset (images annotations categories : list value) : value :=
  VDict [("images", VList images); ("annotations", VList annotations);
         ("categories", VList categories)].

Definition box (x y w h : Z) : list value := [VInt x; VInt y; VInt w; VInt h].

(** The image and the two annotations of the examples of the
    specification. *)
Definition img_100 : value := image 1 100 100.
Definition ann_one_percent : value := annotation 1 1 1 (box 0 0 10 10) 100.
Definition ann_outside : value := annotation 2 1 1 (box 95 95 10 10) 100.

(** A background box of 64% of its image, in a category of id 0 and in
    one of id 1. *)
Definition ann_background (category_id : Z) : value :=
  annotation 1 1 category_id (box 0 0 80 80) 6400.

Definition data_background (category_id : Z) : value :=
  dataset [img_100] [ann_background category_id]
          [category category_id "Background"].

(** An object of half a percent of its image next to a background box of
    64%, the background category having the id [background_id]. *)
Definition ann_half_percent : value := annotation 2 1 7 (box 0 0 5 10) 50.

Definition data_thresholds (background_id : Z) : value :=
  dataset [img_100]
          [ann_background background_id; ann_half_percent]
          [category 7 "object"; category background_id "Background"].

(** Bboxes that are not four numbers. *)
Definition ann_text_in_bbox : value :=
  annotation 3 1 1 [VInt 0; VInt 0; VStr "ten"; VInt 10] 100.
Definition ann_short_bbox : value := annotation 4 1 1 [VInt 0; VInt 0; VInt 10] 100.

Definition data_text_in_bbox : value :=
  dataset [img_100] [ann_text_in_bbox] [category 1 "object"].
Definition data_short_bbox : value :=
  dataset [img_100] [ann_short_bbox; ann_one_percent] [category 1 "object"].

(** A bbox left of its image, on a known image and on an unknown one. *)
Definition fields_negative (image_id : Z) : list (string * value) :=
  [("id", VInt 5); ("image_id", VInt image_id); ("category_id", VInt 1);
   ("bbox", VList (box (-5) 0 10 10)); ("area", VInt 100)].

(** An annotation without an area. *)
Definition fields_no_area : list (string * value) :=
  [("id", VInt 6); ("image_id", VInt 1); ("category_id", VInt 1);
   ("bbox", VList (box 0 0 10 10))].

Definition data_no_area : value :=
  dataset [img_100] [VDict fields_no_area] [category 1 "object"].

(** An image that no annotation references, next to one that has one. *)
Definition data_coverage : value :=
  dataset [img_100; image 2 50 50] [ann_outside] [category 1 "object"].

(** Record sets. *)
Definition text (s : string) : cell := Some (SStr s).

Definition record (i intent confidence : string) : list cell :=
  [text i; text "hello"; text intent; text confidence].

Definition header : list string := ["id"; "text"; "intent"; "confidence"].

(** Intents [a, a, a, a, b], the example of the specification. *)
Definition df_skewed : frame :=
  {| columns := header;
     rows := [record "1" "a" "high"; record "2" "a" "high";
              record "3" "a" "low"; record "4" "a" "high";
              record "5" "b" "high"] |}.

(** Intents [a, a, a, b]: a ratio of exactly 3. *)
Definition df_three_to_one : frame :=
  {| columns := header;
     rows := [record "1" "a" "high"; record "2" "a" "high";
              record "3" "a" "low"; record "4" "b" "high"] |}.

(** A record set without the intent column, and one without the text
    column. *)
Definition df_no_intent : frame :=
  {| columns := ["id"; "text"; "confidence"];
     rows := [[text "1"; text "hello"; text "high"]] |}.

Definition df_no_text : frame :=
  {| columns := ["id"; "intent"; "confidence"];
     rows := [[text "1"; text "a"; text "high"]] |}.

(** A record set whose second row has no intent. *)
Definition df_null_intent : frame :=
  {| columns := header;
     rows := [record "1" "a" "high";
              [text "2"; text "hello"; None; text "high"]] |}.

End Examples.

(* ================================================================== *)
(** * Script: the entry point of the file *)
(* ================================================================== *)

Module Script.

Import Py Out.
Local Open Scope string_scope.
Local Open Scope list_scope.
Local Open Scope Z_scope.

(** The two paths the script is run on. *)
Definition visual_file : string :=
  "/Users/irinakapla/Documents/Learning/projects/data-annotation-portfolio/1_visual_annotation/_annotations.coco.json".
Definition text_file : string :=
  "/Users/irinakapla/Documents/Learning/projects/data-annotation-portfolio/2_text_annotation/data/annotated_texts.csv".

(** A line of the script's output: one of the lines of the validators
    (the script prints its own titles and counts in the same forms), the
    heading of the two paths, a path, or the message of a caught
    exception. *)
Inductive script_line : Type :=
| Line (l : Out.line)
| FilesHeading
| Path (label path : string)
| VisualFailed (e : exn)
| TextFailed (e : exn).

(** The script as a computation that prints: its lines, and how it ends. *)
Definition Run (A : Type) : Type := (list script_line * res A)%type.

Definition and_then {A B} (m : Run A) (k : A -> Run B) : Run B :=
  match m with
  | (o, Ok a) => let (o', r) := k a in (o ++ o', r)
  | (o, Raise e) => (o, Raise e)
  | (o, Unmodelled) => (o, Unmodelled)
  end.

Definition emit (ls : list script_line) : Run unit := (ls, Ok tt).

Definition printed {A} (m : Run A) : list script_line := fst m.
Definition result {A} (m : Run A) : res A := snd m.

(** [results = None; try: results = validator(path); except Exception as e:
    print(...)].  Every exception of [Py.exn] is an [Exception], so that it
    is caught and the results stay [None]; what the validator printed
    before it raised stays printed. *)
Definition attempt {A} (failed : exn -> script_line) (m : Out.M (option A))
  : Run (option A) :=
  match m with
  | (o, Ok results) => (map Line o, Ok results)
  | (o, Raise e) => (map Line o ++ [failed e], Ok None)
  | (o, Unmodelled) => (map Line o, Unmodelled)
  end.

(** [if visual_results:] and what it prints: the dict of a summary has
    keys, so that it is true; [None] is false. *)
Definition visual_report (results : option Visual.summary)
  : list script_line :=
  match results with
  | Some s =>
      map Line [Heading "Visual Annotations:";
                Count "Critical issues" (Visual.critical_issues s);
                Count "Small objects" (Visual.small_objects s);
                Count "Large backgrounds" (Visual.large_backgrounds s)]
  | None => []
  end.

Definition text_report (results : option Text.summary)
  : list script_line :=
  match results with
  | Some s =>
      map Line [Heading "Text Annotations:";
                Count "Total" (Text.total_annotations s);
                Count "Unique intents" (Text.unique_intents s);
                Count "Low confidence" (Text.low_confidence_count s)]
  | None => []
  end.

Definition opening : list script_line :=
  map Line [Text ""; rule; Text "DATA ANNOTATION VALIDATION TOOL"; rule] ++
  [FilesHeading; Path "Visual" visual_file; Path "Text" text_file].

Definition closing : list script_line :=
  map Line [Text ""; rule; Text "OVERALL VALIDATION COMPLETE"; rule].

Definition farewell : list script_line :=
  map Line [Heading "Validation complete!"].

(** The block under [if __name__ == "__main__":], given what loading each
    of the two files does. *)
Definition main (visual_src : Visual.load_result) (text_src : Text.load_result)
  : Run unit :=
  and_then (emit opening) (fun _ =>
  and_then (attempt VisualFailed
           (Visual.validate_visual_annotations visual_file visual_src))
        (fun visual_results =>
  and_then (attempt TextFailed
           (Text.validate_text_annotations text_file text_src))
        (fun text_results =>
  and_then (emit closing) (fun _ =>
  and_then (emit (visual_report visual_results)) (fun _ =>
  and_then (emit (text_report text_results)) (fun _ =>
  emit farewell)))))).

End Script.

(* ================================================================== *)
(** * Report: reading what was printed *)
(* ================================================================== *)

Module Report.

Import Binary64 Py Pandas Out.
Local Open Scope string_scope.
Local Open Scope list_scope.
Local Open Scope Z_scope.

(** The issues listed under the validation summary. *)
Definition printed_issues (out : list line) : list issue :=
  flat_map (fun l => match l with
                     | IssueLine i => [i]
                     | _ => []
                     end) out.

(** The example lines of checks 2 and 3. *)
Definition is_example (l : line) : bool :=
  match l with
  | Example _ _ => true
  | _ => false
  end.

(** The columns listed with their number of empty values. *)
Definition printed_empty (out : list line) : list (string * Z) :=
  flat_map (fun l => match l with
                     | EmptyColumn c n => [(c, n)]
                     | _ => []
                     end) out.

(** The issue on the dimensions of a bbox. *)
Definition is_dimensions (i : issue) : bool :=
  match i with
  | InvalidBboxDimensions _ _ _ => true
  | _ => false
  end.

(** The issues that compare a bbox with its image. *)
Definition image_bound (i : issue) : bool :=
  match i with
  | NegativeCoordinates _ _ _ | BboxExceedsBounds _ => true
  | _ => false
  end.

(** [ann.get('image_id')]. *)
Definition image_id_of (ann : value) : res value := dict_get ann "image_id" VNone.

(** Two areas of one kind in order: two integers, or two finite floats. *)
Definition area_le (a b : value) : Prop :=
  match a, b with
  | VInt x, VInt y => x <= y
  | VFloat (Fin x), VFloat (Fin y) => (x <= y)%Q
  | _, _ => False
  end.

(** The lines of the final report of the script. *)
Definition in_report (l : line) : bool :=
  match l with
  | Heading title =>
      existsb (String.eqb title) ["Visual Annotations:"; "Text Annotations:"]
  | Count label _ =>
      existsb (String.eqb label)
              ["Critical issues"; "Small objects"; "Large backgrounds";
               "Total"; "Unique intents"; "Low confidence"]
  | _ => false
  end.

Definition is_report (l : Script.script_line) : bool :=
  match l with
  | Script.Line l => in_report l
  | _ => false
  end.

(** What a validator returned to the script: [None] when it raised. *)
Definition returned {A} (m : M (option A)) : option A :=
  match outcome m with
  | Ok results => results
  | _ => None
  end.

(** The cell holds the value [v]. *)
Definition holds (v : scalar) (c : cell) : bool :=
  match c with
  | Some u => scalar_eqb u v
  | None => false
  end.

(** The groups of a distribution with the value [v]. *)
Definition groups_of (v : scalar) (counts : list (scalar * Z))
  : list (scalar * Z) :=
  filter (fun g => scalar_eqb (fst g) v) counts.

(** No two groups have the same value. *)
Definition distinct_groups (counts : list (scalar * Z)) : Prop :=
  forall v, (List.length (groups_of v counts) <= 1)%nat.

(** The counts do not increase along the list. *)
Fixpoint descending (counts : list (scalar * Z)) : bool :=
  match counts with
  | [] => true
  | g :: rest =>
      match rest with
      | [] => true
      | h :: _ => (snd h <=? snd g) && descending rest
      end
  end.

(** The groups printed, each with its count. *)
Definition printed_groups (out : list line) : list (scalar * Z) :=
  flat_map (fun l => match l with
                     | GroupLine v n _ => [(v, n)]
                     | _ => []
                     end) out.

(** The groups count the values of the column: no two groups have the
    same value, the count of a group is the number of cells that hold its
    value, at least one, and every value of the column has a group. *)
Definition counts_of (col : list cell) (counts : list (scalar * Z)) : Prop :=
  distinct_groups counts /\
  (forall g, In g counts ->
             1 <= snd g /\ snd g = count_if (holds (fst g)) col) /\
  (forall u, In (Some u) col ->
             exists g, In g counts /\ scalar_eqb (fst g) u = true).

(** The distribution of a column: its counts, the largest first. *)
Definition distribution_of (col : list cell) (counts : list (scalar * Z))
  : Prop :=
  descending counts = true /\ counts_of col counts.

(** The issue on the format of a bbox, and the one on its coordinates. *)
Definition is_format (i : issue) : bool :=
  match i with
  | InvalidBboxFormat _ => true
  | _ => false
  end.

Definition is_negative (i : issue) : bool :=
  match i with
  | NegativeCoordinates _ _ _ => true
  | _ => false
  end.

(** The id of the annotation an issue names. *)
Definition issue_id (i : issue) : value :=
  match i with
  | InvalidBboxFormat a | InvalidBboxDimensions a _ _
  | NegativeCoordinates a _ _ | BboxExceedsBounds a => a
  end.

(** The format issue of an annotation: one when its bbox is a sequence of
    a length other than 4. *)
Definition format_issues (ann : value) : list issue :=
  match ann with
  | VDict d =>
      if Spec.wrong_length ann
      then [InvalidBboxFormat (Spec.field_or VNone "id" d)]
      else []
  | _ => []
  end.

(** A number below zero, and one that is zero or below: the sign of an
    integer, of the numerator of a finite float, and of an infinity. *)
Definition below_zero (v : value) : bool :=
  match v with
  | VInt z => z <? 0
  | VFloat (Fin q) => Qnum q <? 0
  | VFloat (Inf neg) => neg
  | _ => false
  end.

Definition at_most_zero (v : value) : bool :=
  match v with
  | VInt z => z <=? 0
  | VFloat (Fin q) => Qnum q <=? 0
  | VFloat (Inf neg) => neg
  | _ => false
  end.

(** The image has the id [image_id]: [img['id'] == image_id]. *)
Definition has_id (image_id img : value) : bool :=
  match img with
  | VDict d =>
      match lookup "id" d with
      | Some i => py_eq i image_id
      | None => false
      end
  | _ => false
  end.

(** The image_id is that of some image of the sequence. *)
Definition known_image (imgs : list value) (image_id : value) : bool :=
  existsb (has_id image_id) imgs.

(** The negative-coordinates issue of an annotation: one when its bbox has
    four components of which x or y is below zero and its image is known. *)
Definition negative_issues (imgs : list value) (ann : value) : list issue :=
  match ann with
  | VDict d =>
      match Spec.field_or (VList []) "bbox" d with
      | VList [x; y; _; _] =>
          if (below_zero x || below_zero y) &&
             known_image imgs (Spec.field_or VNone "image_id" d)
          then [NegativeCoordinates (Spec.field_or VNone "id" d) x y]
          else []
      | _ => []
      end
  | _ => []
  end.

(** The number of pixels of an image of integer width and height. *)
Definition pixels (img : value) : option Z :=
  match img with
  | VDict d =>
      match lookup "width" d, lookup "height" d with
      | Some (VInt wd), Some (VInt ht) => Some (wd * ht)
      | _, _ => None
      end
  | _ => None
  end.

(** The integer area of an annotation. *)
Definition area_of (ann : value) : option Z :=
  match ann with
  | VDict d =>
      match lookup "area" d with
      | Some (VInt a) => Some a
      | _ => None
      end
  | _ => None
  end.

(** The image of an annotation: the first that has its image_id. *)
Definition image_of (imgs : list value) (ann : value) : option value :=
  match ann with
  | VDict d => find (has_id (Spec.field_or VNone "image_id" d)) imgs
  | _ => None
  end.

(** The area and the pixels of the image of an annotation. *)
Definition area_and_pixels (imgs : list value) (ann : value)
  : option (Z * Z) :=
  match area_of ann, image_of imgs ann with
  | Some a, Some img =>
      match pixels img with
      | Some p => Some (a, p)
      | None => None
      end
  | _, _ => None
  end.

(** Less than 1% of the image: [100 * area < pixels]. *)
Definition small_exact (imgs : list value) (ann : value) : bool :=
  match area_and_pixels imgs ann with
  | Some (a, p) => 100 * a <? p
  | None => false
  end.

(** [ann['category_id'] == background_cat_id]. *)
Definition in_category (background_cat_id ann : value) : bool :=
  match ann with
  | VDict d =>
      match lookup "category_id" d with
      | Some c => py_eq c background_cat_id
      | None => false
      end
  | _ => false
  end.

(** Of the category, and more than 50% of the image:
    [2 * area > pixels]. *)
Definition large_exact (imgs : list value) (background_cat_id ann : value)
  : bool :=
  in_category background_cat_id ann &&
  match area_and_pixels imgs ann with
  | Some (a, p) => p <? 2 * a
  | None => false
  end.

(** The largest ratio below 1% and the least above 50% on an image of at
    most [2^52] pixels. *)
Definition below_one_percent : Q := (2 ^ 52 - 1) # (100 * 2 ^ 52).
Definition above_half : Q := (2 ^ 52 + 1) # (2 * 2 ^ 52).

End Report.

(* ================================================================== *)
(** * Samples: further datasets and record sets *)
(* ================================================================== *)

Module Samples.

Import Py Pandas Examples.
Local Open Scope string_scope.
Local Open Scope list_scope.
Local Open Scope Z_scope.

(** The fields of an annotation. *)
Definition fields (i image_id category_id : Z) (bbox : list value) (area : Z)
  : list (string * value) :=
  [("id", VInt i); ("image_id", VInt image_id);
   ("category_id", VInt category_id); ("bbox", VList bbox);
   ("area", VInt area)].

(** A box that ends 5 pixels outside its image; a box without width; a box
    with three issues. *)
Definition fields_outside : list (string * value) :=
  fields 2 1 1 (box 95 95 10 10) 100.
Definition fields_flat : list (string * value) :=
  fields 7 1 1 (box 10 10 0 5) 0.
Definition fields_three_issues (i : Z) : list (string * value) :=
  fields i 1 1 (box (-5) (-5) 0 200) 0.

(** Six issues: two annotations of three issues each. *)
Definition data_six_issues : value :=
  dataset [img_100]
          [VDict (fields_three_issues 1); VDict (fields_three_issues 2)]
          [category 1 "object"].

(** An annotation of an image that is not in the dataset. *)
Definition fields_unresolved : list (string * value) :=
  fields 8 99 1 (box 0 0 10 10) 1.
Definition data_unresolved : value :=
  dataset [img_100] [VDict fields_unresolved] [category 1 "object"].

(** An annotation without an image_id. *)
Definition fields_no_image_id : list (string * value) :=
  [("id", VInt 9); ("category_id", VInt 1); ("bbox", VList (box 0 0 10 10));
   ("area", VInt 100)].
Definition data_no_image_id : value :=
  dataset [img_100] [VDict fields_no_image_id] [category 1 "object"].

(** An image without width. *)
Definition img_no_width : value := image 1 0 100.
Definition fields_one_percent : list (string * value) :=
  fields 1 1 1 (box 0 0 10 10) 100.
Definition data_no_width : value :=
  dataset [img_no_width] [VDict fields_one_percent] [].

(** A record set in which no row has an intent. *)
Definition df_no_intents : frame :=
  {| columns := header;
     rows := [[text "1"; text "hello"; None; text "high"];
              [text "2"; text "hello"; None; text "low"]] |}.

(** A bbox of four components that are not all numbers, on an image that
    is not in the dataset. *)
Definition fields_odd_bbox : list (string * value) :=
  [("id", VInt 10); ("image_id", VInt 99); ("category_id", VInt 1);
   ("bbox", VList [VNone; VStr "a"; VInt 5; VInt 5]); ("area", VInt 100)].
Definition data_odd_bbox : value :=
  dataset [img_100] [VDict fields_odd_bbox] [category 1 "object"].

(** Two boxes above or left of their image: the first on the second image
    of the dataset, the second on an image that is not in it. *)
Definition data_negative : value :=
  dataset [img_100; image 2 50 50]
          [VDict (fields 5 2 1 (box 3 (-4) 10 10) 100);
           VDict (fields 6 9 1 (box (-1) (-1) 10 10) 100)]
          [category 1 "object"].

(** Areas at and next to the two thresholds, on the second image of the
    dataset, with the background category second and named in capitals. *)
Definition data_boundaries : value :=
  dataset [image 1 100 100; image 2 200 50]
          [annotation 1 2 3 (box 0 0 10 10) 100;
           annotation 2 2 3 (box 0 0 9 11) 99;
           annotation 3 1 3 (box 0 0 50 100) 5000;
           annotation 4 2 3 (box 0 0 50 101) 5001;
           annotation 5 2 4 (box 0 0 90 90) 8100]
          [category 4 "object"; category 3 "Sky (BACKGROUND)"].

(** An image whose width is text. *)
Definition img_text_width : value :=
  VDict [("id", VInt 1); ("width", VStr "ab"); ("height", VInt 3)].
Definition data_text_width : value :=
  dataset [img_text_width] [VDict fields_one_percent] [].

End Samples.

(* ================================================================== *)
(** * Properties *)
(* ================================================================== *)

(** ** Rounding to binary64 *)

Module Binary64Facts.

Import Binary64.
Local Open Scope Q_scope.


Lemma p2_pos e : 0 < p2 e.
Proof. apply Qpower_0_lt. reflexivity. Qed.

Lemma p2_nonzero e : ~ p2 e == 0.
Proof. apply Qnot_eq_sym, Qlt_not_eq, p2_pos. Qed.

Lemma p2_add a b : p2 (a + b) == p2 a * p2 b.
Proof. apply Qpower_plus. discriminate. Qed.

Lemma p2_opp a : p2 (- a) == / p2 a.
Proof. apply Qpower_opp. Qed.

Lemma p2_inject k : (0 <= k)%Z -> inject_Z (2 ^ k) == p2 k.
Proof. intros. apply Zpower_Qpower. assumption. Qed.

Lemma p2_le a b : (a <= b)%Z -> p2 a <= p2 b.
Proof. intros. apply Qpower_le_compat_l; [assumption | discriminate]. Qed.

Lemma p2_lt a b : (a < b)%Z -> p2 a < p2 b.
Proof. intros. apply Qpower_lt_compat_l; [assumption | reflexivity]. Qed.

Lemma p2_succ a : p2 (a + 1) == 2 * p2 a.
Proof. rewrite p2_add. change (p2 1) with 2. ring. Qed.

(** ** Rounding a fraction to the nearest integer *)

Lemma rne_div_nearest N D :
  (0 <= N)%Z -> (0 < D)%Z ->
  (0 <= rne_div N D /\ - D <= 2 * (rne_div N D * D - N) <= D)%Z.
Proof.
  intros HN HD. unfold rne_div.
  pose proof (Z.div_mod N D ltac:(lia)) as E.
  pose proof (Z.mod_pos_bound N D HD) as B.
  pose proof (Z.div_pos N D HN HD) as P.
  destruct (Z.compare_spec (2 * (N mod D)) D) as [C|C|C];
    [destruct (Z.even (N / D))| |]; nia.
Qed.


(** ** Scaling by a power of two *)

Lemma scaled_spec n d e :
  (0 < n)%Z -> (0 < d)%Z ->
  (0 <= fst (scaled n d e))%Z /\ (0 < snd (scaled n d e))%Z /\
  inject_Z (fst (scaled n d e)) ==
  (inject_Z n / inject_Z d) / p2 e * inject_Z (snd (scaled n d e)).
Proof.
  intros Hn Hd. unfold scaled.
  assert (Dn : ~ inject_Z d == 0).
  { intro H. apply (inject_Z_injective d 0) in H. lia. }
  pose proof (p2_nonzero e) as Pn.
  destruct (Z.leb_spec 0 e) as [He|He]; cbn [fst snd].
  - split; [lia | split].
    + apply Z.mul_pos_pos; [assumption|]. apply Z.pow_pos_nonneg; lia.
    + rewrite inject_Z_mult, (p2_inject He). field. split; assumption.
  - split; [|split; [assumption|]].
    + apply Z.mul_nonneg_nonneg; [lia|]. apply Z.pow_nonneg; lia.
    + rewrite inject_Z_mult, (@p2_inject (- e)) by lia. rewrite p2_opp.
      field. split; assumption.
Qed.

Lemma of_mant_exp_spec m e : of_mant_exp m e == inject_Z m * p2 e.
Proof.
  unfold of_mant_exp. rewrite Qred_correct.
  destruct (Z.leb_spec 0 e) as [He|He].
  - rewrite inject_Z_mult, (p2_inject He). reflexivity.
  - rewrite Qmake_Qdiv.
    pose proof (Z.pow_pos_nonneg 2 (- e) ltac:(lia) ltac:(lia)) as P.
    rewrite Z2Pos.id by assumption.
    rewrite (@p2_inject (- e)) by lia. rewrite p2_opp.
    field. apply p2_nonzero.
Qed.

Lemma of_mant_exp_red m e : Qred (of_mant_exp m e) = of_mant_exp m e.
Proof.
  unfold of_mant_exp. apply Qred_complete. apply Qred_correct.
Qed.

(** ** The exponent of the unit in the last place *)

Lemma log2_bounds n :
  (0 < n)%Z -> p2 (Z.log2 n) <= inject_Z n /\ inject_Z n < 2 * p2 (Z.log2 n).
Proof.
  intros Hn. pose proof (Z.log2_spec n Hn) as [L U].
  pose proof (Z.log2_nonneg n) as P.
  rewrite <- p2_succ, <- !p2_inject by lia.
  rewrite <- Zle_Qle, <- Zlt_Qlt. split; [assumption|].
  replace (Z.log2 n + 1)%Z with (Z.succ (Z.log2 n)) by lia. assumption.
Qed.


Lemma p2_53 : p2 53 == c53. Proof. reflexivity. Qed.

Lemma ulp_exponent_spec n d :
  (0 < n)%Z -> (0 < d)%Z ->
  let q := inject_Z n / inject_Z d in
  let e := ulp_exponent n d in
  (emin <= e)%Z /\ q < c53 * p2 e /\ ((emin < e)%Z -> c52 * p2 e <= q).
Proof.
  intros Hn Hd q e.
  assert (Hq : q * inject_Z d == inject_Z n).
  { unfold q. field. intro H. apply (inject_Z_injective d 0) in H. lia. }
  destruct (log2_bounds Hn) as [An An'], (log2_bounds Hd) as [Ad Ad'].
  set (a := Z.log2 n) in *. set (b := Z.log2 d) in *.
  set (e0 := (a - b - 53)%Z).
  assert (Ea : p2 a == p2 e0 * c53 * p2 b).
  { rewrite <- p2_53, <- !p2_add. unfold e0.
    replace (a - b - 53 + 53 + b)%Z with a by lia. reflexivity. }
  pose proof (p2_pos e0) as P0. pose proof (p2_pos b) as Pb.
  assert (Dpos : 0 < inject_Z d) by (rewrite <- (Zlt_Qlt 0); assumption).
  assert (Qpos : 0 < q).
  { unfold q. apply Qlt_shift_div_l; [assumption|].
    rewrite Qmult_0_l. rewrite <- (Zlt_Qlt 0). assumption. }
  (* bounds at e0 *)
  assert (L0 : c52 * p2 e0 < q).
  { apply Qnot_le_lt. intro C.
    assert (q * inject_Z d < c52 * p2 e0 * (2 * p2 b)).
    { apply Qlt_le_trans with (q * (2 * p2 b)).
      - apply Qmult_lt_l; assumption.
      - apply Qmult_le_compat_r; [assumption | lra]. }
    assert (c52 * p2 e0 * (2 * p2 b) == p2 a).
    { rewrite Ea. unfold c52, c53. change (inject_Z (2 ^ 53)) with (2 * inject_Z (2 ^ 52)). ring. }
    lra. }
  assert (U0 : q < 2 * c53 * p2 e0).
  { apply Qnot_le_lt. intro C.
    assert (2 * c53 * p2 e0 * p2 b <= q * inject_Z d).
    { apply Qle_trans with (q * p2 b).
      - apply Qmult_le_compat_r; [assumption | lra].
      - apply Qmult_le_l; assumption. }
    assert (2 * c53 * p2 e0 * p2 b == 2 * p2 a) by (rewrite Ea; ring).
    lra. }
  (* the adjustment *)
  unfold e, ulp_exponent. fold a b e0.
  destruct (scaled_spec e0 Hn Hd) as (SN & SD & SE). fold q in SE.
  destruct (scaled n d e0) as [N0 D0]. cbn [fst snd] in *.
  assert (SDq : 0 < inject_Z D0) by (rewrite <- (Zlt_Qlt 0); assumption).
  set (e1 := if (2 ^ 53 * D0 <=? N0)%Z then (e0 + 1)%Z else e0).
  assert (B1 : c52 * p2 e1 <= q /\ q < c53 * p2 e1).
  { unfold e1. destruct (Z.leb_spec (2 ^ 53 * D0) N0) as [T|T].
    - rewrite Zle_Qle, inject_Z_mult, SE in T. fold c53 in T.
      assert (c53 * p2 e0 <= q).
      { apply Qnot_lt_le. intro C.
        assert (q / p2 e0 < c53).
        { apply Qlt_shift_div_r; assumption. }
        assert (q / p2 e0 * inject_Z D0 < c53 * inject_Z D0).
        { apply Qmult_lt_compat_r; assumption. }
        lra. }
      rewrite p2_succ. unfold c52, c53 in *.
      change (inject_Z (2 ^ 53)) with (2 * inject_Z (2 ^ 52)) in *. split; lra.
    - rewrite Zlt_Qlt, inject_Z_mult, SE in T. fold c53 in T.
      assert (q < c53 * p2 e0).
      { apply Qnot_le_lt. intro C.
        assert (c53 <= q / p2 e0).
        { apply Qle_shift_div_l; assumption. }
        assert (c53 * inject_Z D0 <= q / p2 e0 * inject_Z D0).
        { apply Qmult_le_compat_r; [assumption | lra]. }
        lra. }
      split; lra. }
  destruct B1 as [L1 U1].
  destruct (Z.max_spec e1 emin) as [[C E]|[C E]]; rewrite E.
  - split; [lia|]. split; [|lia].
    pose proof (@p2_le e1 emin ltac:(lia)).
    unfold c53 in *. apply Qlt_le_trans with (inject_Z (2 ^ 53) * p2 e1); [assumption|].
    apply Qmult_le_l; [reflexivity | assumption].
  - split; [lia|]. split; [assumption | intros; assumption].
Qed.


(** ** The nearest double of a positive fraction *)

Lemma round_pos_spec n d :
  (0 < n)%Z -> (0 < d)%Z ->
  let q := inject_Z n / inject_Z d in
  let m := fst (round_pos n d) in
  let e := snd (round_pos n d) in
  (emin <= e)%Z /\ (0 <= m <= 2 ^ 53)%Z /\
  Qabs (inject_Z m * p2 e - q) <= p2 e / 2 /\
  q < c53 * p2 e /\ ((emin < e)%Z -> c52 * p2 e <= q).
Proof.
  intros Hn Hd q m e.
  destruct (ulp_exponent_spec Hn Hd) as (E1 & E2 & E3). fold q in E2, E3.
  unfold m, e, round_pos.
  destruct (scaled_spec (ulp_exponent n d) Hn Hd) as (SN & SD & SE). fold q in SE.
  destruct (scaled n d (ulp_exponent n d)) as [N D]. cbn [fst snd] in *.
  set (P := p2 (ulp_exponent n d)) in *.
  pose proof (p2_pos (ulp_exponent n d)) as PP. fold P in PP.
  destruct (rne_div_nearest SN SD) as (M0 & M1 & M2).
  set (r := rne_div N D) in *.
  assert (Dq : 0 < inject_Z D) by (rewrite <- (Zlt_Qlt 0); assumption).
  assert (SP : q / P * P == q) by (field; lra).
  assert (SU : q / P < c53).
  { apply Qlt_shift_div_r; assumption. }
  assert (NU : (N < 2 ^ 53 * D)%Z).
  { rewrite Zlt_Qlt, inject_Z_mult, SE. fold c53.
    apply Qmult_lt_compat_r; assumption. }
  split; [assumption|]. split; [nia|]. split; [|split; assumption].
  unfold Z.sub in M1, M2. rewrite Zle_Qle in M1, M2.
  rewrite inject_Z_opp in M1.
  rewrite !inject_Z_mult, inject_Z_plus, inject_Z_opp, inject_Z_mult, SE
    in M1, M2.
  change (inject_Z 2) with 2 in *.
  set (S := q / P) in *. clearbody S P.
  assert (A1 : - (1 # 2) <= inject_Z r - S).
  { apply Qnot_lt_le. intro C.
    assert ((inject_Z r - S) * inject_Z D < - (1 # 2) * inject_Z D)
      by (apply Qmult_lt_compat_r; assumption).
    lra. }
  assert (A2 : inject_Z r - S <= 1 # 2).
  { apply Qnot_lt_le. intro C.
    assert ((1 # 2) * inject_Z D < (inject_Z r - S) * inject_Z D)
      by (apply Qmult_lt_compat_r; assumption).
    lra. }
  apply Qabs_Qle_condition. clearbody q.
  assert (B1 : - (1 # 2) * P <= (inject_Z r - S) * P).
  { apply Qmult_le_compat_r; [exact A1 | apply Qlt_le_weak; exact PP]. }
  assert (B2 : (inject_Z r - S) * P <= (1 # 2) * P).
  { apply Qmult_le_compat_r; [exact A2 | apply Qlt_le_weak; exact PP]. }
  unfold Qdiv. change (/ 2) with (1 # 2). split; lra.
Qed.

Lemma round_compat q q' : q == q' -> round q = round q'.
Proof. intros H. unfold round. rewrite (Qred_complete _ _ H). reflexivity. Qed.

Lemma Qred_pos_num q : 0 < q -> exists n, Qnum (Qred q) = Zpos n.
Proof.
  intros H. assert (H' : 0 < Qred q) by (rewrite Qred_correct; assumption).
  unfold Qlt in H'. cbn in H'. rewrite Z.mul_1_r in H'.
  destruct (Qnum (Qred q)) as [|n|n]; try lia. exists n. reflexivity.
Qed.


(** What [round] does to a positive rational. *)
Lemma round_positive q :
  0 < q ->
  exists m e,
    round q = finite_value m e /\
    (emin <= e)%Z /\ (0 <= m <= 2 ^ 53)%Z /\
    Qabs (inject_Z m * p2 e - q) <= p2 e / 2 /\
    q < c53 * p2 e /\ ((emin < e)%Z -> c52 * p2 e <= q).
Proof.
  intros Hq. destruct (Qred_pos_num Hq) as [n En].
  unfold round. rewrite En.
  assert (Eq : inject_Z (Zpos n) / inject_Z (Zpos (Qden (Qred q))) == q).
  { rewrite <- Qmake_Qdiv, <- En.
    transitivity (Qred q); [|apply Qred_correct].
    destruct (Qred q); reflexivity. }
  pose proof (@round_pos_spec (Zpos n) (Zpos (Qden (Qred q))) eq_refl eq_refl) as S.
  cbv zeta in S. rewrite Eq in S.
  destruct (round_pos (Z.pos n) (Z.pos (Qden (Qred q)))) as [m e].
  exists m, e. split; [reflexivity | exact S].
Qed.


Lemma c53_double : c53 == 2 * c52.
Proof. reflexivity. Qed.

Lemma overflows_false v : v < p2 emax -> overflows v = false.
Proof.
  intros H. unfold overflows. destruct (Qle_bool _ v) eqn:E; [|reflexivity].
  apply Qle_bool_iff in E. rewrite (@p2_inject emax) in E by discriminate.
  exfalso. apply (Qlt_irrefl v). apply Qlt_le_trans with (p2 emax); assumption.
Qed.


(** No overflow below [2^1023]. *)
Lemma round_positive_bounded q :
  0 < q -> q < p2 1023 ->
  exists m e,
    round q = Fin (of_mant_exp m e) /\
    (emin <= e)%Z /\ (0 <= m <= 2 ^ 53)%Z /\
    Qabs (inject_Z m * p2 e - q) <= p2 e / 2 /\
    q < c53 * p2 e /\ ((emin < e)%Z -> c52 * p2 e <= q).
Proof.
  intros Hq Hb.
  destruct (round_positive Hq) as (m & e & R & E1 & M & A & U & L).
  pose proof (p2_pos e) as PP.
  pose proof (of_mant_exp_spec m e) as V.
  assert (Mq : inject_Z m <= c53).
  { unfold c53. rewrite <- Zle_Qle. lia. }
  assert (VU : inject_Z m * p2 e <= c53 * p2 e).
  { apply Qmult_le_compat_r; [assumption | apply Qlt_le_weak; assumption]. }
  assert (NO : of_mant_exp m e < p2 emax).
  { rewrite V. destruct (Z.eq_dec e emin) as [Ee|Ee].
    - rewrite Ee in *. apply Qle_lt_trans with (c53 * p2 emin); [assumption|].
      rewrite <- p2_53, <- p2_add. apply p2_lt. reflexivity.
    - specialize (L ltac:(lia)).
      apply Qle_lt_trans with (2 * q).
      + rewrite c53_double in VU. lra.
      + change emax with (1023 + 1)%Z. rewrite p2_succ. lra. }
  exists m, e. split; [|repeat split; solve [assumption | lia | apply L; assumption]].
  rewrite R. unfold finite_value. rewrite (overflows_false NO). reflexivity.
Qed.

(** Relative error at most [u] from [2^-1021] upwards. *)
Lemma round_positive_finite q :
  0 < q -> q < p2 1023 ->
  exists v, round q = Fin v /\ 0 <= v /\ Qred v = v /\
            (p2 (-1021) <= q -> Qabs (v - q) <= q * u).
Proof.
  intros Hq Hb.
  destruct (round_positive_bounded Hq Hb) as (m & e & R & E1 & M & A & U & L).
  pose proof (p2_pos e) as PP.
  pose proof (of_mant_exp_spec m e) as V.
  assert (M0 : 0 <= inject_Z m).
  { rewrite <- (Zle_Qle 0). lia. }
  exists (of_mant_exp m e). split; [assumption|].
  split.
  { rewrite V. apply Qmult_le_0_compat; [assumption | apply Qlt_le_weak; assumption]. }
  split; [apply of_mant_exp_red|].
  intros Hn.
  assert (Ee : (emin < e)%Z).
  { destruct (Z.eq_dec e emin) as [Ee|Ee]; [|lia]. exfalso.
    rewrite Ee in U.
    assert (c53 * p2 emin == p2 (-1021)).
    { rewrite <- p2_53, <- p2_add. reflexivity. }
    lra. }
  specialize (L Ee). rewrite V.
  apply Qle_trans with (p2 e / 2); [assumption|].
  unfold Qdiv. change (/ 2) with (1 # 2).
  assert (q * u == q * (1 # 2) * / c52).
  { unfold u, c52. change (inject_Z (2 ^ 52)) with (4503599627370496 # 1).
    change (/ (4503599627370496 # 1)) with (1 # 4503599627370496).
    change (1 # 2 ^ 53) with ((1 # 2) * (1 # 4503599627370496)). ring. }
  rewrite H.
  apply Qle_shift_div_l; [reflexivity|].
  lra.
Qed.

Lemma Qred_inject_Z z : Qred (inject_Z z) = inject_Z z.
Proof.
  unfold Qred, inject_Z.
  pose proof (Z.ggcd_gcd z 1) as G.
  pose proof (Z.ggcd_correct_divisors z 1) as D.
  destruct (Z.ggcd z 1) as [g [a b]]. simpl in *.
  rewrite Z.gcd_1_r in G. subst g. destruct D as [Da Db].
  destruct a, b; try lia; simpl; f_equal; lia.
Qed.

(** Integers below [2^53] are doubles. *)
Lemma round_int_exact_pos z :
  (0 < z < 2 ^ 53)%Z -> round (inject_Z z) = Fin (inject_Z z).
Proof.
  intros [Z0 Z1].
  assert (Hq : 0 < inject_Z z) by (rewrite <- (Zlt_Qlt 0); assumption).
  assert (Hc : inject_Z z < c53) by (unfold c53; rewrite <- Zlt_Qlt; assumption).
  assert (Hb : inject_Z z < p2 1023).
  { apply Qlt_trans with c53; [assumption|].
    rewrite <- p2_53. apply p2_lt. reflexivity. }
  destruct (round_positive_bounded Hq Hb) as (m & e & R & E1 & M & A & U & L).
  pose proof (p2_pos e) as PP.
  assert (Ee : (e <= 0)%Z).
  { destruct (Z_le_gt_dec e 0) as [|G]; [assumption|exfalso].
    specialize (L ltac:(unfold emin; lia)).
    pose proof (@p2_le 1 e ltac:(lia)) as P1. change (p2 1) with 2 in P1.
    rewrite c53_double in Hc.
    assert (c52 * 2 <= c52 * p2 e) by (apply Qmult_le_l; [reflexivity|assumption]).
    lra. }
  set (k := (z * 2 ^ (- e))%Z).
  assert (K : inject_Z k * p2 e == inject_Z z).
  { unfold k. rewrite inject_Z_mult, (@p2_inject (- e)) by lia.
    rewrite p2_opp. field. apply p2_nonzero. }
  apply Qabs_Qle_condition in A. destruct A as [A1 A2].
  unfold Qdiv in A1, A2. change (/ 2) with (1 # 2) in A1, A2.
  rewrite <- K in A1, A2.
  assert (T1 : inject_Z (2 * m - 2 * k) <= inject_Z 1).
  { unfold Z.sub. rewrite inject_Z_plus, inject_Z_opp, !inject_Z_mult.
    change (inject_Z 2) with 2. change (inject_Z 1) with 1.
    apply Qnot_lt_le. intro C.
    assert (1 * p2 e < (2 * inject_Z m + - (2 * inject_Z k)) * p2 e)
      by (apply Qmult_lt_compat_r; assumption).
    lra. }
  assert (T2 : inject_Z (-1) <= inject_Z (2 * m - 2 * k)).
  { unfold Z.sub. rewrite inject_Z_plus, inject_Z_opp, !inject_Z_mult.
    change (inject_Z 2) with 2. change (inject_Z (-1)) with (-1).
    apply Qnot_lt_le. intro C.
    assert ((2 * inject_Z m + - (2 * inject_Z k)) * p2 e < -1 * p2 e)
      by (apply Qmult_lt_compat_r; assumption).
    lra. }
  rewrite <- Zle_Qle in T1, T2.
  assert (m = k) by lia. subst m.
  rewrite R. f_equal.
  rewrite <- of_mant_exp_red.
  transitivity (Qred (inject_Z z)).
  - apply Qred_complete. rewrite of_mant_exp_spec. assumption.
  - apply Qred_inject_Z.
Qed.

Lemma round_opp q : 0 < q -> round (- q) = fopp (round q).
Proof.
  intros Hq. destruct (Qred_pos_num Hq) as [n En].
  unfold round. rewrite Qred_opp.
  destruct (Qred q) as [a b]. simpl in En. subst a. simpl.
  destruct (round_pos (Z.pos n) (Z.pos b)) as [m e].
  destruct (overflows (of_mant_exp m e)); reflexivity.
Qed.

Lemma round_finite q :
  Qabs q < p2 1023 -> exists v, round q = Fin v /\ Qred v = v.
Proof.
  intros H. destruct (Q_dec q 0) as [[N|P]|Z].
  - assert (P : 0 < - q) by lra.
    assert (B : - q < p2 1023).
    { rewrite <- (Qabs_neg q); [assumption | lra]. }
    destruct (round_positive_finite P B) as (v & R & _ & C & _).
    assert (E : q == - - q) by ring.
    rewrite (round_compat E), (round_opp P), R. cbn [fopp].
    eexists. split; [reflexivity|].
    apply Qred_complete, Qred_correct.
  - assert (B : q < p2 1023).
    { rewrite <- (Qabs_pos q); [assumption | lra]. }
    destruct (round_positive_finite P B) as (v & R & _ & C & _).
    exists v. split; assumption.
  - rewrite (round_compat Z). exists 0. split; reflexivity.
Qed.


Lemma round_int_exact z :
  (Z.abs z < 2 ^ 53)%Z -> round (inject_Z z) = Fin (inject_Z z).
Proof.
  intros H. destruct (Z.lt_trichotomy z 0) as [N|[E|P]].
  - assert (Hz : (0 < - z < 2 ^ 53)%Z) by lia.
    assert (Hq : 0 < inject_Z (- z)) by (rewrite <- (Zlt_Qlt 0); lia).
    assert (E : inject_Z z == - inject_Z (- z)).
    { rewrite inject_Z_opp. ring. }
    rewrite (round_compat E), (round_opp Hq), (round_int_exact_pos Hz).
    cbn [fopp]. f_equal. rewrite <- inject_Z_opp, Z.opp_involutive.
    apply Qred_inject_Z.
  - subst z. reflexivity.
  - apply round_int_exact_pos. lia.
Qed.

(** Above [2^-1021] the nearest double of a positive rational is positive. *)
Lemma round_positive_nonzero q :
  p2 (-1021) <= q -> q < p2 1023 ->
  exists v, round q = Fin v /\ 0 < v /\ Qred v = v /\ Qabs (v - q) <= q * u.
Proof.
  intros L U. pose proof (p2_pos (-1021)) as P.
  assert (Hq : 0 < q) by lra.
  destruct (round_positive_finite Hq U) as (v & R & V0 & Vr & A).
  specialize (A L). exists v. repeat split; try assumption.
  apply Qabs_Qle_condition in A. destruct A as [A1 A2].
  assert (q * u <= q * (1 # 2)).
  { apply Qmult_le_l; [assumption|]. unfold u. discriminate. }
  lra.
Qed.

(** An integer of magnitude below [2^1023] converts to a finite double,
    which is zero only for zero. *)
Lemma round_int_finite z :
  (Z.abs z < 2 ^ 1023)%Z ->
  exists v, round (inject_Z z) = Fin v /\ Qred v = v /\ (z <> 0%Z -> ~ v == 0).
Proof.
  intros H.
  assert (B : forall k, (0 < k < 2 ^ 1023)%Z ->
     exists v, round (inject_Z k) = Fin v /\ 0 < v /\ Qred v = v).
  { intros k [K0 K1].
    assert (L : p2 (-1021) <= inject_Z k).
    { apply Qle_trans with (p2 0); [apply p2_le; lia|].
      change (p2 0) with (inject_Z 1). rewrite <- Zle_Qle. lia. }
    assert (U : inject_Z k < p2 1023).
    { rewrite <- (@p2_inject 1023) by lia. rewrite <- Zlt_Qlt. assumption. }
    destruct (round_positive_nonzero L U) as (v & R & V & Vr & _).
    exists v. repeat split; assumption. }
  destruct (Z.lt_trichotomy z 0) as [N|[E|P]].
  - destruct (B (- z)%Z ltac:(lia)) as (v & R & V & Vr).
    assert (Hq : 0 < inject_Z (- z)) by (rewrite <- (Zlt_Qlt 0); lia).
    assert (E : inject_Z z == - inject_Z (- z)).
    { rewrite inject_Z_opp. ring. }
    rewrite (round_compat E), (round_opp Hq), R. cbn [fopp].
    eexists. split; [reflexivity|]. split.
    + apply Qred_complete, Qred_correct.
    + intros _. rewrite Qred_correct. lra.
  - subst z. exists 0. repeat split. intros C. congruence.
  - destruct (B z ltac:(lia)) as (v & R & V & Vr).
    exists v. repeat split; try assumption. intros _. lra.
Qed.

End Binary64Facts.

Unset Implicit Arguments.

(** ** Python values and the loop bodies of the visual validator *)

Module PyFacts.

Import Binary64 Binary64Facts.
Import Py Out Visual Spec.
Local Open Scope string_scope.
Local Open Scope list_scope.
Local Open Scope Z_scope.
Local Open Scope py_scope.

Arguments round : simpl never.
Arguments int_to_float : simpl never.

(** ** The monad *)

Lemma bind_ok {A B} (r : res A) (k : A -> res B) b :
  bind r k = Ok b -> exists a, r = Ok a /\ k a = Ok b.
Proof. destruct r; simpl; intros H; try discriminate. eauto. Qed.

Ltac inv_bind H :=
  let a := fresh "a" in
  let Ha := fresh "H" a in
  apply bind_ok in H; destruct H as (a & Ha & H).

(** ** Dicts *)

Lemma field_ok_inv p k v :
  field_ok p k v = true ->
  exists d x, v = VDict d /\ lookup k d = Some x /\ p x = true.
Proof.
  unfold field_ok. destruct v; try discriminate.
  destruct (lookup k d) eqn:E; try discriminate. eauto.
Qed.

Lemma field_ok_getitem p k v :
  field_ok p k v = true -> exists x, getitem v k = Ok x /\ p x = true.
Proof.
  intros H. destruct (field_ok_inv _ _ _ H) as (d & x & -> & L & P).
  exists x. simpl. rewrite L. auto.
Qed.

Lemma getitem_inv v k x :
  getitem v k = Ok x -> exists d, v = VDict d /\ lookup k d = Some x.
Proof.
  destruct v; simpl; try discriminate.
  destruct (lookup k d) eqn:E; intros H; inversion H; subst. eauto.
Qed.

Lemma getitem_truthy v k x : getitem v k = Ok x -> truthy v = true.
Proof.
  intros H. destruct (getitem_inv _ _ _ H) as (d & -> & L).
  destruct d; [discriminate | reflexivity].
Qed.

(** ** The lookup of an image *)

Lemma first_with_id_some imgs image_id img :
  first_with_id imgs image_id = Ok (Some img) ->
  exists pre post i,
    imgs = pre ++ img :: post /\
    getitem img "id" = Ok i /\ py_eq i image_id = true /\
    forall p, In p pre ->
      exists j, getitem p "id" = Ok j /\ py_eq j image_id = false.
Proof.
  induction imgs as [|x rest IH]; simpl; intros H; [discriminate|].
  inv_bind H. destruct (py_eq a image_id) eqn:E.
  - inversion H; subst. exists [], rest, a. repeat split; auto.
    intros p [].
  - destruct (IH H) as (pre & post & i & -> & G & Ei & F).
    exists (x :: pre), post, i. repeat split; auto.
    intros p [<-|Hp]; eauto.
Qed.

Lemma first_with_id_total imgs image_id :
  (forall p, In p imgs -> exists j, getitem p "id" = Ok j) ->
  exists r, first_with_id imgs image_id = Ok r.
Proof.
  induction imgs as [|x rest IH]; simpl; intros H; [eauto|].
  destruct (H x (or_introl eq_refl)) as (j & ->). simpl.
  destruct (py_eq j image_id); [eauto|].
  apply IH. intros p Hp. apply H. right. assumption.
Qed.

Lemma find_image_some images image_id img :
  find_image images image_id = Ok (Some img) ->
  exists imgs, py_iter images = Ok imgs /\ In img imgs /\
               truthy img = true /\
               exists i, getitem img "id" = Ok i /\ py_eq i image_id = true.
Proof.
  unfold find_image. intros H. inv_bind H.
  destruct (first_with_id_some _ _ _ H) as (pre & post & i & -> & G & E & _).
  exists (pre ++ img :: post). repeat split; auto.
  - apply in_or_app. right. left. reflexivity.
  - eapply getitem_truthy; eassumption.
  - eauto.
Qed.

Lemma resolved_find images image_id r :
  find_image images image_id = Ok r -> resolved r = r.
Proof.
  destruct r as [img|]; [|reflexivity]. intros H.
  destruct (find_image_some _ _ _ H) as (_ & _ & _ & T & _).
  simpl. rewrite T. reflexivity.
Qed.


(** ** Numbers *)

Lemma number_ok_inv v :
  number_ok v = true ->
  (exists z, v = VInt z /\ Z.abs z < 2 ^ 511) \/ (exists f, v = VFloat f).
Proof.
  destruct v; simpl; try discriminate; intros H; [left|right]; eauto.
  exists z. split; [reflexivity|]. unfold int_ok in H.
  apply Z.ltb_lt in H. assumption.
Qed.

Lemma number_ok_num v :
  number_ok v = true -> exists n, as_num v = Some n /\ of_num n = v.
Proof.
  intros H. destruct (number_ok_inv _ H) as [(z & -> & _)|(f & ->)];
    eexists; split; reflexivity.
Qed.

Lemma int_to_float_ok z :
  Z.abs z < 2 ^ 1023 ->
  exists v, int_to_float z = Ok (Fin v) /\ (z <> 0 -> ~ (v == 0)%Q).
Proof.
  intros H. destruct (round_int_finite z H) as (v & R & _ & N).
  exists v. unfold int_to_float. rewrite R. auto.
Qed.

Lemma py_cmp_num op a b x y :
  as_num a = Some x -> as_num b = Some y ->
  py_cmp op a b = Ok (num_cmp op x y).
Proof.
  destruct a, b; simpl; intros Ha Hb; try discriminate;
    inversion Ha; inversion Hb; reflexivity.
Qed.

Lemma py_cmp_number op a b :
  number_ok a = true -> number_ok b = true -> exists c, py_cmp op a b = Ok c.
Proof.
  intros Ha Hb. destruct (number_ok_num _ Ha) as (x & X & _).
  destruct (number_ok_num _ Hb) as (y & Y & _).
  rewrite (py_cmp_num op _ _ _ _ X Y). eauto.
Qed.


Lemma py_add_number a b :
  number_ok a = true -> number_ok b = true ->
  exists v, py_add a b = Ok v /\ sum_ok v = true.
Proof.
  intros Ha Hb.
  destruct (number_ok_inv _ Ha) as [(x & -> & Bx)|(f & ->)];
  destruct (number_ok_inv _ Hb) as [(y & -> & By)|(g & ->)]; simpl.
  - eexists. split; [reflexivity|]. simpl. apply Z.ltb_lt.
    change (2 ^ 512) with (2 * 2 ^ 511). lia.
  - destruct (int_to_float_ok x) as (v & -> & _); [|simpl; eauto].
    assert (2 ^ 511 < 2 ^ 1023) by (apply Z.pow_lt_mono_r; lia). lia.
  - destruct (int_to_float_ok y) as (v & -> & _); [|simpl; eauto].
    assert (2 ^ 511 < 2 ^ 1023) by (apply Z.pow_lt_mono_r; lia). lia.
  - eauto.
Qed.

Lemma sum_ok_num v : sum_ok v = true -> exists n, as_num v = Some n.
Proof. destruct v; simpl; try discriminate; eauto. Qed.

Lemma dimension_ok_inv v :
  dimension_ok v = true -> exists z, v = VInt z /\ 0 < z < 2 ^ 511.
Proof.
  destruct v; simpl; try discriminate. intros H.
  apply andb_true_iff in H. destruct H as [P B].
  apply Z.ltb_lt in P. unfold int_ok in B. apply Z.ltb_lt in B.
  exists z. split; [reflexivity | lia].
Qed.

Lemma image_ok_inv img :
  image_ok img = true ->
  exists i wd ht,
    getitem img "id" = Ok i /\
    getitem img "width" = Ok (VInt wd) /\ getitem img "height" = Ok (VInt ht) /\
    0 < wd < 2 ^ 511 /\ 0 < ht < 2 ^ 511.
Proof.
  unfold image_ok. intros H.
  apply andb_true_iff in H. destruct H as [H Hh].
  apply andb_true_iff in H. destruct H as [Hi Hw].
  destruct (field_ok_getitem _ _ _ Hi) as (i & Gi & _).
  destruct (field_ok_getitem _ _ _ Hw) as (w & Gw & Dw).
  destruct (field_ok_getitem _ _ _ Hh) as (h & Gh & Dh).
  destruct (dimension_ok_inv _ Dw) as (wd & -> & Bw).
  destruct (dimension_ok_inv _ Dh) as (ht & -> & Bh).
  exists i, wd, ht. auto.
Qed.

Lemma find_image_total images image_id :
  list_of image_ok images = true ->
  exists imgs r, images = VList imgs /\ forallb image_ok imgs = true /\
                 find_image images image_id = Ok r /\
                 forall img, r = Some img -> image_ok img = true.
Proof.
  destruct images; simpl; try discriminate. intros H.
  assert (T : forall p, In p l -> exists j, getitem p "id" = Ok j).
  { intros p Hp. rewrite forallb_forall in H.
    destruct (image_ok_inv _ (H p Hp)) as (i & _ & _ & G & _). eauto. }
  destruct (first_with_id_total l image_id T) as (r & R).
  exists l, r. unfold find_image. simpl. repeat split; auto.
  intros img ->. destruct (first_with_id_some _ _ _ R) as (pre & post & _ & E & _).
  rewrite forallb_forall in H. apply H. rewrite E.
  apply in_or_app. right. left. reflexivity.
Qed.


(** ** Check 1 *)

Arguments py_cmp : simpl never.
Arguments py_lt : simpl never.
Arguments py_le : simpl never.
Arguments py_gt : simpl never.
Arguments py_add : simpl never.
Arguments py_mul : simpl never.
Arguments py_truediv : simpl never.
Arguments find_image : simpl never.
Arguments resolved : simpl never.
Arguments relative_area : simpl never.
Arguments image_area : simpl never.
Arguments percent_of : simpl never.
Arguments getitem : simpl never.
Arguments py_or : simpl never.

Lemma dict_get_field_or d k default :
  dict_get (VDict d) k default = Ok (field_or default k d).
Proof. unfold dict_get, field_or. destruct (lookup k d); reflexivity. Qed.

Lemma py_or_total a b :
  (exists c, a = Ok c) -> (exists c, b = Ok c) -> exists c, py_or a b = Ok c.
Proof.
  intros (c & ->) (c' & ->). unfold py_or. simpl. destruct c; eauto.
Qed.

Lemma check_bbox_wrong_length images d issues n :
  py_len (field_or (VList []) "bbox" d) = Ok n -> n <> 4 ->
  check_bbox images (VDict d) issues =
  Ok (issues ++ [InvalidBboxFormat (field_or VNone "id" d)]).
Proof.
  intros L N. unfold check_bbox. rewrite !dict_get_field_or. simpl.
  rewrite L. simpl. destruct (Z.eqb_spec n 4); [contradiction | reflexivity].
Qed.


Lemma outside_arm_total a b img k :
  number_ok a = true -> number_ok b = true ->
  field_ok dimension_ok k img = true ->
  exists c, (r <- py_add a b ;; wd <- getitem img k ;; py_gt r wd) = Ok c.
Proof.
  intros Ha Hb Hk. destruct (py_add_number a b Ha Hb) as (v & -> & Sv).
  destruct (field_ok_getitem _ _ _ Hk) as (wd & -> & D). simpl.
  destruct (dimension_ok_inv _ D) as (z & -> & _).
  destruct (sum_ok_num _ Sv) as (n & Nv).
  unfold py_gt. rewrite (py_cmp_num OpGt v (VInt z) n (NInt z) Nv eq_refl).
  eauto.
Qed.

(** The bbox check on a bbox of four numbers. *)
Lemma check_bbox_four images d x y w h issues :
  list_of image_ok images = true ->
  lookup "bbox" d = Some (VList [x; y; w; h]) ->
  number_ok x = true -> number_ok y = true ->
  number_ok w = true -> number_ok h = true ->
  let ann_id := field_or VNone "id" d in
  exists bad r,
    py_or (py_le w (VInt 0)) (py_le h (VInt 0)) = Ok bad /\
    find_image images (field_or VNone "image_id" d) = Ok r /\
    match r with
    | None =>
        check_bbox images (VDict d) issues =
        Ok (issues ++ dims_issue bad ann_id w h)
    | Some img =>
        exists neg out,
          py_or (py_lt x (VInt 0)) (py_lt y (VInt 0)) = Ok neg /\
          check_bbox images (VDict d) issues =
          Ok (issues ++ dims_issue bad ann_id w h ++
              negative_issue neg ann_id x y ++ bounds_issue out ann_id)
    end.
Proof.
  intros Hi Hb Hx Hy Hw Hh ann_id.
  assert (Z0 : number_ok (VInt 0) = true) by reflexivity.
  destruct (py_or_total (py_le w (VInt 0)) (py_le h (VInt 0))
              (py_cmp_number OpLe w _ Hw Z0) (py_cmp_number OpLe h _ Hh Z0))
    as (bad & Eb).
  destruct (find_image_total images (field_or VNone "image_id" d) Hi)
    as (imgs & r & -> & Fi & Er & Ok_r).
  exists bad, r. split; [assumption|]. split; [assumption|].
  assert (E : check_bbox (VList imgs) (VDict d) issues =
    (let issues1 := if bad then issues ++ [InvalidBboxDimensions ann_id w h]
                    else issues in
     match r with
     | Some img =>
         negative <- py_or (py_lt x (VInt 0)) (py_lt y (VInt 0)) ;;
         let issues2 := if negative
                        then issues1 ++ [NegativeCoordinates ann_id x y]
                        else issues1 in
         outside <- py_or
           (r <- py_add x w ;; wd <- getitem img "width" ;; py_gt r wd)
           (b <- py_add y h ;; ht <- getitem img "height" ;; py_gt b ht) ;;
         Ok (if outside then issues2 ++ [BboxExceedsBounds ann_id] else issues2)
     | None => Ok issues1
     end)).
  { unfold check_bbox. rewrite !dict_get_field_or. simpl.
    assert (Hf : field_or (VList []) "bbox" d = VList [x; y; w; h])
      by (unfold field_or; rewrite Hb; reflexivity).
    rewrite !Hf. simpl.
    rewrite Eb. simpl. rewrite Er. simpl.
    rewrite (resolved_find _ _ _ Er). reflexivity. }
  rewrite E. clear E. cbv zeta.
  destruct r as [img|].
  - specialize (Ok_r img eq_refl).
    destruct (py_or_total (py_lt x (VInt 0)) (py_lt y (VInt 0))
                (py_cmp_number OpLt x _ Hx Z0) (py_cmp_number OpLt y _ Hy Z0))
      as (neg & En).
    unfold image_ok in Ok_r.
    apply andb_true_iff in Ok_r. destruct Ok_r as [Ok_r Kh].
    apply andb_true_iff in Ok_r. destruct Ok_r as [_ Kw].
    destruct (py_or_total _ _ (outside_arm_total x w img "width" Hx Hw Kw)
                (outside_arm_total y h img "height" Hy Hh Kh)) as (out & Eo).
    exists neg, out. split; [assumption|].
    rewrite En. simpl. rewrite Eo. simpl.
    unfold dims_issue, negative_issue, bounds_issue.
    destruct bad, neg, out; simpl; rewrite <- ?app_assoc, ?app_nil_r; reflexivity.
  - unfold dims_issue. destruct bad; rewrite ?app_nil_r; reflexivity.
Qed.


(** ** Relative area *)

Lemma hundred : int_to_float 100 = Ok (Fin 100).
Proof. vm_compute. reflexivity. Qed.

Lemma mul_100 f :
  py_mul (VFloat f) (VInt 100) = Ok (VFloat (fmul f (Fin 100))).
Proof.
  unfold py_mul, num_mul. cbn [as_num to_float bind]. rewrite hundred.
  reflexivity.
Qed.

Lemma py_truediv_float a b v :
  py_truediv a b = Ok v -> exists f, v = VFloat f.
Proof.
  unfold py_truediv. destruct (as_num a), (as_num b); try discriminate.
  intros H. apply bind_ok in H. destruct H as (f & _ & H).
  inversion H. eauto.
Qed.

Lemma relative_area_float area img v :
  relative_area area img = Ok v -> exists f, v = VFloat f.
Proof.
  unfold relative_area, percent_of. intros H.
  apply bind_ok in H. destruct H as (ar & _ & H).
  apply bind_ok in H. destruct H as (ratio & R & H).
  destruct (py_truediv_float _ _ _ R) as (f & ->).
  rewrite mul_100 in H. inversion H. eauto.
Qed.

Lemma relative_area_ints a wd ht img :
  getitem img "width" = Ok (VInt wd) -> getitem img "height" = Ok (VInt ht) ->
  wd * ht <> 0 ->
  relative_area (VInt a) img =
  match round (Qmake a 1 / Qmake (wd * ht) 1) with
  | Inf _ => Raise OverflowError
  | f => Ok (VFloat (fmul f (Fin 100)))
  end.
Proof.
  intros Hw Hh N. unfold relative_area, image_area, percent_of.
  rewrite Hw, Hh. cbn [bind].
  change (py_mul (VInt wd) (VInt ht)) with (Ok (VInt (wd * ht))). cbn [bind].
  unfold py_truediv. cbn [as_num]. unfold num_truediv.
  destruct (Z.eqb_spec (wd * ht) 0); [contradiction|].
  destruct (round _); cbn [bind]; first [apply mul_100 | reflexivity].
Qed.

Lemma relative_area_float_area f wd ht img :
  getitem img "width" = Ok (VInt wd) -> getitem img "height" = Ok (VInt ht) ->
  relative_area (VFloat f) img =
  (fb <- int_to_float (wd * ht) ;;
   if fzero fb then Raise ZeroDivisionError
   else Ok (VFloat (fmul (fdiv f fb) (Fin 100)))).
Proof.
  intros Hw Hh. unfold relative_area, image_area, percent_of.
  rewrite Hw, Hh. cbn [bind].
  change (py_mul (VInt wd) (VInt ht)) with (Ok (VInt (wd * ht))). cbn [bind].
  unfold py_truediv. cbn [as_num]. unfold num_truediv. cbn [to_float bind].
  destruct (int_to_float (wd * ht)); cbn [bind]; try reflexivity.
  destruct (fzero a); cbn [bind]; first [apply mul_100 | reflexivity].
Qed.

Lemma Qabs_quotient_le a b :
  0 < b -> (Qabs (Qmake a 1 / Qmake b 1) <= inject_Z (Z.abs a))%Q.
Proof.
  intros Hb.
  assert (Bq : (0 < inject_Z b)%Q) by (rewrite <- (Zlt_Qlt 0); assumption).
  change (Qmake a 1) with (inject_Z a). change (Qmake b 1) with (inject_Z b).
  apply Qabs_Qle_condition. split.
  - apply Qle_shift_div_l; [assumption|].
    rewrite <- inject_Z_opp, <- inject_Z_mult, <- Zle_Qle. nia.
  - apply Qle_shift_div_r; [assumption|].
    rewrite <- inject_Z_mult, <- Zle_Qle. nia.
Qed.

Lemma inject_lt_p2 z k : 0 <= k -> z < 2 ^ k -> (inject_Z z < p2 k)%Q.
Proof.
  intros K H. rewrite <- (p2_inject K). rewrite <- Zlt_Qlt. assumption.
Qed.

Lemma relative_area_total area img :
  number_ok area = true -> image_ok img = true ->
  exists f, relative_area area img = Ok (VFloat f).
Proof.
  intros Ha Hi.
  destruct (image_ok_inv _ Hi) as (i & wd & ht & _ & Gw & Gh & Bw & Bh).
  assert (P : 0 < wd * ht) by nia.
  assert (B : wd * ht < 2 ^ 1022).
  { change (2 ^ 1022) with (2 ^ 511 * 2 ^ 511). nia. }
  destruct (number_ok_inv _ Ha) as [(a & -> & Ba)|(f & ->)].
  - rewrite (relative_area_ints a wd ht img Gw Gh) by lia.
    destruct (round_finite (Qmake a 1 / Qmake (wd * ht) 1)) as (v & -> & _);
      [|eauto].
    apply Qle_lt_trans with (inject_Z (Z.abs a)).
    + apply Qabs_quotient_le. assumption.
    + apply inject_lt_p2; [lia|].
      assert (2 ^ 511 < 2 ^ 1023) by (apply Z.pow_lt_mono_r; lia). lia.
  - rewrite (relative_area_float_area f wd ht img Gw Gh).
    destruct (int_to_float_ok (wd * ht)) as (v & -> & N).
    { assert (2 ^ 1022 < 2 ^ 1023) by (apply Z.pow_lt_mono_r; lia). lia. }
    simpl. unfold qzero.
    destruct (Z.eqb_spec (Qnum v) 0) as [E|E]; [|eauto].
    exfalso. apply N; [lia|]. unfold Qeq. simpl. rewrite E. reflexivity.
Qed.


(** ** Checks 2 and 3 *)


Lemma py_lt_float f z :
  py_lt (VFloat f) (VInt z) = Ok (float_lt f (Fin (inject_Z z))).
Proof. reflexivity. Qed.

Lemma py_gt_float f z :
  py_gt (VFloat f) (VInt z) = Ok (float_lt (Fin (inject_Z z)) f).
Proof. reflexivity. Qed.

Lemma check_small_eq images ann small area img_id img f :
  dict_get ann "area" (VInt 0) = Ok area ->
  dict_get ann "image_id" VNone = Ok img_id ->
  find_image images img_id = Ok (Some img) ->
  relative_area area img = Ok (VFloat f) ->
  check_small images ann small =
  if float_lt f (Fin 1)
  then i <- getitem ann "id" ;; Ok (small ++ [mk_entry i img_id (VFloat f)])
  else Ok small.
Proof.
  intros Ha Hi Hf Hr. unfold check_small.
  rewrite Ha. cbn [bind]. rewrite Hi. cbn [bind]. rewrite Hf. cbn [bind].
  rewrite (resolved_find _ _ _ Hf).
  unfold relative_area in Hr. apply bind_ok in Hr. destruct Hr as (ia & -> & Hp).
  cbn [bind]. rewrite Hp. cbn [bind]. rewrite py_lt_float. cbn [bind].
  reflexivity.
Qed.

Lemma check_small_unresolved images ann small area img_id :
  dict_get ann "area" (VInt 0) = Ok area ->
  dict_get ann "image_id" VNone = Ok img_id ->
  find_image images img_id = Ok None ->
  check_small images ann small = Ok small.
Proof.
  intros Ha Hi Hf. unfold check_small.
  rewrite Ha. cbn [bind]. rewrite Hi. cbn [bind]. rewrite Hf. cbn [bind].
  rewrite (resolved_find _ _ _ Hf). reflexivity.
Qed.

Lemma check_large_eq images bg ann large cat_id area img_id img f :
  getitem ann "category_id" = Ok cat_id -> py_eq cat_id bg = true ->
  getitem ann "image_id" = Ok img_id ->
  find_image images img_id = Ok (Some img) ->
  getitem ann "area" = Ok area ->
  relative_area area img = Ok (VFloat f) ->
  check_large images bg ann large =
  if float_lt (Fin 50) f
  then i <- getitem ann "id" ;; Ok (large ++ [mk_entry i img_id (VFloat f)])
  else Ok large.
Proof.
  intros Hc He Hi Hf Ha Hr. unfold check_large.
  rewrite Hc. cbn [bind]. rewrite He, Hi. cbn [bind]. rewrite Hf. cbn [bind].
  rewrite (resolved_find _ _ _ Hf).
  unfold relative_area in Hr. apply bind_ok in Hr. destruct Hr as (ia & -> & Hp).
  cbn [bind]. rewrite Ha. cbn [bind]. rewrite Hp. cbn [bind].
  rewrite py_gt_float. cbn [bind]. reflexivity.
Qed.


Ltac branch :=
  repeat match goal with
  | |- context [bind ?r _] =>
      lazymatch r with
      | dict_get _ _ _ => idtac
      | getitem _ _ => idtac
      | find_image _ _ => idtac
      | image_area _ => idtac
      | percent_of _ _ => idtac
      | py_lt _ _ => idtac
      | py_le _ _ => idtac
      | py_gt _ _ => idtac
      | py_add _ _ => idtac
      | py_len _ => idtac
      | py_iter _ => idtac
      | unpack4 _ => idtac
      | img_anns _ _ => idtac
      end;
      destruct r as [?| |]; cbn [bind]; try reflexivity
  | |- context [match resolved ?b with Some _ => _ | None => _ end] =>
      destruct (resolved b); cbn [bind]; try reflexivity
  | |- context [if ?b then _ else _] =>
      is_var b; destruct b; cbn [bind]; try reflexivity
  | |- context [if negb (?n =? 4) then _ else _] =>
      destruct (negb (n =? 4)); cbn [bind]; try reflexivity
  | |- context [if Z.of_nat ?n =? 0 then _ else _] =>
      destruct (Z.of_nat n =? 0); cbn [bind]; try reflexivity
  | |- context [if py_eq ?a ?b then _ else _] =>
      destruct (py_eq a b); cbn [bind]; try reflexivity
  | |- context [let '(_, _) := ?p in _] => is_var p; destruct p
  end.

Lemma check_small_appends images : appends (check_small images).
Proof.
  intros ann s. unfold check_small. branch;
    cbn [bind app]; rewrite ?app_nil_r; reflexivity.
Qed.

Lemma check_coverage_appends annotations : appends (check_coverage annotations).
Proof.
  intros img s. unfold check_coverage. branch;
    cbn [bind app]; rewrite ?app_nil_r; reflexivity.
Qed.

Lemma check_bbox_appends images : appends (check_bbox images).
Proof.
  intros ann s. unfold check_bbox, py_or. branch;
    cbn [bind app]; rewrite ?app_nil_r, <- ?app_assoc; reflexivity.
Qed.

(** Loops whose body appends: the list built is the concatenation of what
    the body appends for each element. *)
Section Loops.

Context {A B : Type} (body : A -> list B -> res (list B)).
Hypothesis body_appends : appends body.

Lemma for_each_appends l s :
  for_each body l s = (new <- for_each body l [] ;; Ok (s ++ new)).
Proof.
  revert s. induction l as [|x l IH]; intros s; cbn [for_each bind].
  - rewrite app_nil_r. reflexivity.
  - rewrite (body_appends x s).
    destruct (body x []) as [n1| |]; cbn [bind]; try reflexivity.
    rewrite (IH (s ++ n1)), (IH n1).
    destruct (for_each body l []) as [n2| |]; cbn [bind]; try reflexivity.
    rewrite app_assoc. reflexivity.
Qed.

Lemma for_each_cons x l r :
  for_each body (x :: l) [] = Ok r ->
  exists n1 n2, body x [] = Ok n1 /\ for_each body l [] = Ok n2 /\ r = n1 ++ n2.
Proof.
  cbn [for_each]. intros H.
  apply bind_ok in H. destruct H as (n1 & E1 & H).
  rewrite for_each_appends in H.
  apply bind_ok in H. destruct H as (n2 & E2 & H). inversion H; subst.
  eauto.
Qed.

(** A body that appends one item on a hit and none otherwise counts the
    hits. *)
Lemma for_each_count (hit : A -> bool) :
  (forall x new, body x [] = Ok new ->
                 List.length new = if hit x then 1%nat else 0%nat) ->
  forall l r, for_each body l [] = Ok r ->
              List.length r = List.length (filter hit l).
Proof.
  intros Hh l. induction l as [|x l IH]; intros r H.
  - inversion H. reflexivity.
  - destruct (for_each_cons x l r H) as (n1 & n2 & E1 & E2 & ->).
    cbn [filter]. rewrite length_app, (IH _ E2), (Hh _ _ E1).
    destruct (hit x); reflexivity.
Qed.

(** A body that appends at least one item on a hit. *)
Lemma for_each_count_le (hit : A -> bool) :
  (forall x new, body x [] = Ok new -> hit x = true ->
                 (1 <= List.length new)%nat) ->
  forall l r, for_each body l [] = Ok r ->
              (List.length (filter hit l) <= List.length r)%nat.
Proof.
  intros Hh l. induction l as [|x l IH]; intros r H.
  - inversion H. apply Nat.le_refl.
  - destruct (for_each_cons x l r H) as (n1 & n2 & E1 & E2 & ->).
    cbn [filter]. rewrite length_app. specialize (IH _ E2).
    destruct (hit x) eqn:Hx; cbn [List.length]; [|lia].
    specialize (Hh _ _ E1 Hx). lia.
Qed.

End Loops.

Lemma for_each_total {A S} (body : A -> S -> res S) (P : A -> Prop) :
  (forall x s, P x -> exists s', body x s = Ok s') ->
  forall l s, (forall x, In x l -> P x) -> exists r, for_each body l s = Ok r.
Proof.
  intros Hb l. induction l as [|x l IH]; intros s Hl; cbn [for_each].
  - eauto.
  - destruct (Hb x s (Hl x (or_introl eq_refl))) as (s' & ->). cbn [bind].
    apply IH. intros y Hy. apply Hl. right. assumption.
Qed.


(** ** The checks on a dataset of the data model *)

Lemma annotation_ok_inv ann :
  annotation_ok ann = true ->
  exists d i img_id cat_id area,
    ann = VDict d /\ lookup "id" d = Some i /\
    lookup "image_id" d = Some img_id /\
    lookup "category_id" d = Some cat_id /\
    lookup "area" d = Some area /\ number_ok area = true /\
    bbox_ok (field_or (VList []) "bbox" d) = true.
Proof.
  unfold annotation_ok. intros H.
  repeat (apply andb_true_iff in H; destruct H as [H ?]).
  destruct (field_ok_inv _ _ _ H) as (d & i & -> & Li & _).
  destruct (field_ok_inv _ _ _ H0) as (d0 & area & E0 & La & Na).
  destruct (field_ok_inv _ _ _ H2) as (d2 & c & E2 & Lc & _).
  destruct (field_ok_inv _ _ _ H3) as (d3 & m & E3 & Lm & _).
  inversion E0; inversion E2; inversion E3; subst.
  exists d3, i, m, c, area. repeat split; auto.
  unfold optional_ok in H1. unfold field_or.
  destruct (lookup "bbox" d3); [assumption | reflexivity].
Qed.

Lemma getitem_dict d k x : lookup k d = Some x -> getitem (VDict d) k = Ok x.
Proof. intros H. unfold getitem. rewrite H. reflexivity. Qed.

Lemma field_or_some default k d x :
  lookup k d = Some x -> field_or default k d = x.
Proof. intros H. unfold field_or. rewrite H. reflexivity. Qed.

Lemma check_bbox_total images ann issues :
  list_of image_ok images = true -> annotation_ok ann = true ->
  exists r, check_bbox images ann issues = Ok r.
Proof.
  intros Hi Ha.
  destruct (annotation_ok_inv _ Ha) as (d & i & m & c & area & -> & _ & _ & _ & _ & _ & Hb).
  destruct (field_or (VList []) "bbox" d) as [| | | | |l|] eqn:E; try discriminate.
  simpl in Hb.
  destruct (Nat.eqb_spec (List.length l) 4) as [L|L].
  - destruct l as [|x [|y [|w [|h [|]]]]]; try discriminate.
    simpl in Hb. repeat (apply andb_true_iff in Hb; destruct Hb as [? Hb]).
    assert (Lb : lookup "bbox" d = Some (VList [x; y; w; h])).
    { unfold field_or in E. destruct (lookup "bbox" d); [congruence|].
      discriminate. }
    destruct (check_bbox_four images d x y w h issues Hi Lb) as (bad & r & _ & _ & R);
      try assumption.
    destruct r; [destruct R as (? & ? & _ & ->) | rewrite R]; eauto.
  - rewrite (check_bbox_wrong_length images d issues (Z.of_nat (List.length l))).
    + eauto.
    + rewrite E. reflexivity.
    + lia.
Qed.

Lemma check_small_total images ann small :
  list_of image_ok images = true -> annotation_ok ann = true ->
  exists r, check_small images ann small = Ok r.
Proof.
  intros Hi Ha.
  destruct (annotation_ok_inv _ Ha) as (d & i & m & c & area & -> & Li & Lm & _ & La & Na & _).
  destruct (find_image_total images m Hi) as (imgs & r & _ & _ & Er & Ok_r).
  pose proof (dict_get_field_or d "area" (VInt 0)) as Ga.
  pose proof (dict_get_field_or d "image_id" VNone) as Gm.
  rewrite (field_or_some _ _ _ _ La) in Ga.
  rewrite (field_or_some _ _ _ _ Lm) in Gm.
  destruct r as [img|].
  - destruct (relative_area_total area img Na (Ok_r img eq_refl)) as (f & Rf).
    rewrite (check_small_eq images (VDict d) small area m img f Ga Gm Er Rf).
    rewrite (getitem_dict _ _ _ Li). cbn [bind].
    destruct (float_lt f (Fin 1)); eauto.
  - rewrite (check_small_unresolved images (VDict d) small area m Ga Gm Er).
    eauto.
Qed.

Lemma check_large_total images bg ann large :
  list_of image_ok images = true -> annotation_ok ann = true ->
  exists r, check_large images bg ann large = Ok r.
Proof.
  intros Hi Ha.
  destruct (annotation_ok_inv _ Ha) as (d & i & m & c & area & -> & Li & Lm & Lc & La & Na & _).
  destruct (find_image_total images m Hi) as (imgs & r & _ & _ & Er & Ok_r).
  destruct (py_eq c bg) eqn:E.
  - destruct r as [img|].
    + destruct (relative_area_total area img Na (Ok_r img eq_refl)) as (f & Rf).
      rewrite (check_large_eq images bg (VDict d) large c area m img f
                 (getitem_dict _ _ _ Lc) E (getitem_dict _ _ _ Lm) Er
                 (getitem_dict _ _ _ La) Rf).
      rewrite (getitem_dict _ _ _ Li). cbn [bind].
      destruct (float_lt (Fin 50) f); eauto.
    + unfold check_large. rewrite (getitem_dict _ _ _ Lc). cbn [bind].
      rewrite E, (getitem_dict _ _ _ Lm). cbn [bind]. rewrite Er. cbn [bind].
      rewrite (resolved_find _ _ _ Er). eauto.
  - unfold check_large. rewrite (getitem_dict _ _ _ Lc). cbn [bind].
    rewrite E. eauto.
Qed.

Lemma find_background_total cats :
  forallb category_ok cats = true -> exists bg, find_background cats = Ok bg.
Proof.
  induction cats as [|cat rest IH]; cbn [forallb find_background]; [eauto|].
  intros H. apply andb_true_iff in H. destruct H as [Hc Hr].
  unfold category_ok in Hc. apply andb_true_iff in Hc. destruct Hc as [Hid Hn].
  destruct (field_ok_getitem _ _ _ Hn) as (name & -> & S). cbn [bind].
  destruct name; try discriminate. cbn [str_lower bind].
  destruct (contains "background" (lower s)); [|auto].
  destruct (field_ok_getitem _ _ _ Hid) as (i & -> & _). eauto.
Qed.

(** ** Check 4 *)

Lemma img_anns_filter anns img m :
  img_anns anns img = Ok m -> m = filter (fun ann => references ann img) anns.
Proof.
  revert m. induction anns as [|ann rest IH]; cbn [img_anns filter]; intros m H.
  - inversion H. reflexivity.
  - apply bind_ok in H. destruct H as (a & Ea & H).
    apply bind_ok in H. destruct H as (i & Ei & H).
    apply bind_ok in H. destruct H as (more & Em & H).
    inversion H; subst.
    assert (R : references ann img = py_eq a i)
      by (unfold references; rewrite Ea, Ei; reflexivity).
    rewrite R, <- (IH _ Em). reflexivity.
Qed.

Lemma filter_nil_forallb {A} (p : A -> bool) l :
  (Z.of_nat (List.length (filter p l)) =? 0) = forallb (fun x => negb (p x)) l.
Proof.
  induction l as [|x l IH]; [reflexivity|]. cbn [filter forallb].
  destruct (p x); cbn [negb andb]; [|assumption].
  cbn [List.length]. destruct (Z.eqb_spec (Z.of_nat (S (List.length (filter p l)))) 0);
    [lia | reflexivity].
Qed.

Lemma check_coverage_new annotations anns img new :
  py_iter annotations = Ok anns ->
  check_coverage annotations img [] = Ok new ->
  List.length new = if unreferenced anns img then 1%nat else 0%nat.
Proof.
  intros Hi H. unfold check_coverage in H. rewrite Hi in H. cbn [bind] in H.
  apply bind_ok in H. destruct H as (m & Em & H).
  rewrite (img_anns_filter _ _ _ Em), filter_nil_forallb in H.
  fold (unreferenced anns img) in H.
  destruct (unreferenced anns img).
  - apply bind_ok in H. destruct H as (i & _ & H). inversion H. reflexivity.
  - inversion H. reflexivity.
Qed.

Lemma img_anns_total anns img :
  forallb annotation_ok anns = true -> image_ok img = true ->
  exists m, img_anns anns img = Ok m.
Proof.
  intros Ha Hi. destruct (image_ok_inv _ Hi) as (i & _ & _ & Gi & _).
  induction anns as [|ann rest IH]; cbn [img_anns]; [eauto|].
  cbn [forallb] in Ha. apply andb_true_iff in Ha. destruct Ha as [Ha Hr].
  destruct (annotation_ok_inv _ Ha) as (d & _ & m & _ & _ & -> & _ & Lm & _).
  rewrite (getitem_dict _ _ _ Lm), Gi. cbn [bind].
  destruct (IH Hr) as (more & ->). cbn [bind]. eauto.
Qed.

Lemma check_coverage_total annotations img without :
  list_of annotation_ok annotations = true -> image_ok img = true ->
  exists r, check_coverage annotations img without = Ok r.
Proof.
  intros Ha Hi. destruct annotations; try discriminate. cbn [list_of] in Ha.
  unfold check_coverage. cbn [py_iter bind].
  destruct (img_anns_total l img Ha Hi) as (m & ->). cbn [bind].
  destruct (Z.of_nat (List.length m) =? 0); [|eauto].
  destruct (image_ok_inv _ Hi) as (i & _ & _ & -> & _). cbn [bind]. eauto.
Qed.

End PyFacts.

(** ** The visual validator as a whole *)

Module VisualFacts.

Import Binary64 Binary64Facts PyFacts.
Import Py Out Visual Spec.
Local Open Scope string_scope.
Local Open Scope list_scope.
Local Open Scope Z_scope.
Local Open Scope py_scope.
Local Open Scope out_scope.

Lemma outcome_mbind {A B} (m : M A) (k : A -> M B) :
  outcome (mbind m k) = bind (outcome m) (fun a => outcome (k a)).
Proof.
  destruct m as [o [a| |]]; cbn [mbind outcome snd bind]; try reflexivity.
  destruct (k a). reflexivity.
Qed.

Lemma output_mbind {A B} (m : M A) (k : A -> M B) :
  output (mbind m k) =
  output m ++ match outcome m with
              | Ok a => output (k a)
              | _ => []
              end.
Proof.
  destruct m as [o [a| |]]; cbn [mbind outcome output fst snd];
    rewrite ?app_nil_r; try reflexivity.
  destruct (k a). reflexivity.
Qed.

Ltac run_step :=
  rewrite outcome_mbind; cbn [outcome lift print ret snd bind];
  try match goal with
  | |- bind ?r _ = bind ?r _ => destruct r; cbn [bind]; try reflexivity
  end.

Lemma outcome_validate_loaded data :
  outcome (validate_loaded data) = checks data.
Proof.
  unfold validate_loaded, checks.
  repeat run_step.
  unfold large_boxes.
  destruct (truthy a9).
  - rewrite outcome_mbind. cbn [outcome lift snd].
    destruct (for_each (check_large a a9) a5 []); cbn [bind]; try reflexivity.
    repeat run_step; reflexivity.
  - cbn [outcome ret snd bind]. repeat run_step; reflexivity.
Qed.

Lemma outcome_validate json_file src :
  outcome (validate_visual_annotations json_file src) =
  match src with
  | NotFound | Malformed => Ok None
  | LoadFails name => Raise (LoadError name)
  | Loaded data => checks data
  end.
Proof.
  unfold validate_visual_annotations. rewrite outcome_mbind.
  cbn [outcome print snd bind]. destruct src; try reflexivity.
  apply outcome_validate_loaded.
Qed.

(** Every dataset of the data model gets its summary. *)
Lemma optional_list p k data :
  optional_ok (list_of p) k data = true ->
  exists l, dict_get data k (VList []) = Ok (VList l) /\ forallb p l = true.
Proof.
  unfold optional_ok. destruct data; try discriminate.
  cbn [dict_get]. destruct (lookup k d) as [v|].
  - destruct v; try discriminate. cbn [list_of]. eauto.
  - intros _. exists []. auto.
Qed.

Lemma checks_total data :
  dataset_ok data = true -> exists s, checks data = Ok (Some s).
Proof.
  unfold dataset_ok. intros H.
  apply andb_true_iff in H. destruct H as [H Hc].
  apply andb_true_iff in H. destruct H as [Hi Ha].
  destruct (optional_list _ _ _ Hi) as (imgs & Ei & Fi).
  destruct (optional_list _ _ _ Ha) as (anns & Ea & Fa).
  destruct (optional_list _ _ _ Hc) as (cats & Ec & Fc).
  unfold checks. rewrite Ei, Ea, Ec. cbn [bind py_len py_iter].
  assert (Li : list_of image_ok (VList imgs) = true) by exact Fi.
  assert (La : list_of annotation_ok (VList anns) = true) by exact Fa.
  rewrite forallb_forall in Fi, Fa.
  destruct (for_each_total (check_bbox (VList imgs))
              (fun ann => annotation_ok ann = true)
              (fun x s P => check_bbox_total (VList imgs) x s Li P) anns [] Fa)
    as (issues & ->). cbn [bind].
  destruct (for_each_total (check_small (VList imgs))
              (fun ann => annotation_ok ann = true)
              (fun x s P => check_small_total (VList imgs) x s Li P) anns [] Fa)
    as (small & ->). cbn [bind].
  destruct (find_background_total cats Fc) as (bg & ->). cbn [bind].
  assert (Lg : exists large, large_boxes (VList imgs) anns bg = Ok large).
  { unfold large_boxes. destruct (truthy bg); [|eauto].
    apply (for_each_total (check_large (VList imgs) bg)
             (fun ann => annotation_ok ann = true)
             (fun x s P => check_large_total (VList imgs) bg x s Li P) anns [] Fa). }
  destruct Lg as (large & ->). cbn [bind].
  destruct (for_each_total (check_coverage (VList anns))
              (fun img => image_ok img = true)
              (fun x s P => check_coverage_total (VList anns) x s La P) imgs [] Fi)
    as (without & ->). cbn [bind].
  eauto.
Qed.

End VisualFacts.

(** ** Properties of the visual validator *)

Module VisualProperties.

Import Binary64 Binary64Facts PyFacts VisualFacts.
Import Py Out Visual Spec.
Local Open Scope string_scope.
Local Open Scope list_scope.
Local Open Scope Z_scope.
Local Open Scope py_scope.

Lemma app_one_neq {A} (l : list A) (x : A) : l ++ [x] <> l.
Proof.
  intros H. apply (f_equal (@List.length A)) in H.
  rewrite length_app in H. simpl in H. lia.
Qed.

Ltac absurd_append H :=
  exfalso; inversion H as [E];
  first [ apply app_one_neq in E
        | symmetry in E; apply app_one_neq in E ]; exact E.

(** ** Boundaries of the relative area *)

Lemma ratio_eq a b n d :
  b <> 0 -> a * d = b * n -> d <> 0 ->
  (Qmake a 1 / Qmake b 1 == inject_Z n / inject_Z d)%Q.
Proof.
  intros Hb E Hd.
  change (Qmake a 1) with (inject_Z a). change (Qmake b 1) with (inject_Z b).
  assert (Bq : ~ (inject_Z b == 0)%Q).
  { intro C. apply (inject_Z_injective b 0) in C. contradiction. }
  assert (Dq : ~ (inject_Z d == 0)%Q).
  { intro C. apply (inject_Z_injective d 0) in C. contradiction. }
  assert (Eq : (inject_Z a * inject_Z d == inject_Z b * inject_Z n)%Q).
  { rewrite <- !inject_Z_mult, E. reflexivity. }
  apply (Qmult_inj_r _ _ (inject_Z b * inject_Z d)).
  - intro C. apply Qmult_integral in C. tauto.
  - transitivity (inject_Z a * inject_Z d)%Q; [field; assumption|].
    rewrite Eq. field. assumption.
Qed.

Lemma one_percent : 
  match round (1 # 100) with
  | Inf _ => Raise OverflowError
  | f => Ok (VFloat (fmul f (Fin 100)))
  end = Ok (VFloat (Fin 1)).
Proof. vm_compute. reflexivity. Qed.

Lemma fifty_percent : 
  match round (1 # 2) with
  | Inf _ => Raise OverflowError
  | f => Ok (VFloat (fmul f (Fin 100)))
  end = Ok (VFloat (Fin 50)).
Proof. vm_compute. reflexivity. Qed.

Lemma zero_percent : 
  match round 0 with
  | Inf _ => Raise OverflowError
  | f => Ok (VFloat (fmul f (Fin 100)))
  end = Ok (VFloat (Fin 0)).
Proof. vm_compute. reflexivity. Qed.

Lemma relative_area_exact a wd ht img n d :
  getitem img "width" = Ok (VInt wd) -> getitem img "height" = Ok (VInt ht) ->
  wd * ht <> 0 -> d <> 0 -> a * d = wd * ht * n ->
  relative_area (VInt a) img =
  match round (inject_Z n / inject_Z d) with
  | Inf _ => Raise OverflowError
  | f => Ok (VFloat (fmul f (Fin 100)))
  end.
Proof.
  intros Hw Hh N D E.
  rewrite (relative_area_ints a wd ht img Hw Hh N).
  rewrite (round_compat (ratio_eq a (wd * ht) n d N E D)). reflexivity.
Qed.


Lemma relative_area_float_exact q wd ht img n d :
  getitem img "width" = Ok (VInt wd) -> getitem img "height" = Ok (VInt ht) ->
  0 < wd * ht < 2 ^ 53 -> d <> 0 ->
  (q * inject_Z d == inject_Z (wd * ht) * inject_Z n)%Q ->
  relative_area (VFloat (Fin q)) img =
  Ok (VFloat (fmul (round (inject_Z n / inject_Z d)) (Fin 100))).
Proof.
  intros Hw Hh B D E.
  rewrite (relative_area_float_area (Fin q) wd ht img Hw Hh).
  unfold int_to_float. rewrite (round_int_exact (wd * ht)) by lia.
  cbn [bind fzero]. unfold qzero. cbn [Qnum inject_Z].
  destruct (Z.eqb_spec (wd * ht) 0) as [C|_]; [lia|]. cbn [fdiv].
  assert (Wq : ~ (inject_Z (wd * ht) == 0)%Q).
  { intro C. apply (inject_Z_injective (wd * ht) 0) in C. lia. }
  assert (Dq : ~ (inject_Z d == 0)%Q).
  { intro C. apply (inject_Z_injective d 0) in C. contradiction. }
  assert (Hq : (q == inject_Z (wd * ht) * inject_Z n / inject_Z d)%Q).
  { apply (Qmult_inj_r _ _ (inject_Z d)); [assumption|].
    rewrite E. field. assumption. }
  assert (R : (q / inject_Z (wd * ht) == inject_Z n / inject_Z d)%Q).
  { rewrite Hq. field. split; assumption. }
  rewrite (round_compat R). reflexivity.
Qed.

Lemma one_percent_float : fmul (round (1 # 100)) (Fin 100) = Fin 1.
Proof. vm_compute. reflexivity. Qed.

Lemma fifty_percent_float : fmul (round (1 # 2)) (Fin 100) = Fin 50.
Proof. vm_compute. reflexivity. Qed.

(** The two loop bodies decide on the double they compute, strictly: an
    annotation is collected as small exactly when it is below 1 and as
    large exactly when it is above 50, and an area of exactly 1% or 50% of
    the image gives exactly 1.0 or 50.0 (for an integer area, and for a
    float area on an image of fewer than [2^53] pixels). *)
Lemma strict_thresholds images ann img_id img area f :
  find_image images img_id = Ok (Some img) ->
  relative_area area img = Ok (VFloat f) ->
  (forall small i,
     dict_get ann "area" (VInt 0) = Ok area ->
     dict_get ann "image_id" VNone = Ok img_id ->
     getitem ann "id" = Ok i ->
     (check_small images ann small =
        Ok (small ++ [mk_entry i img_id (VFloat f)]) <->
      float_lt f (Fin 1) = true) /\
     (check_small images ann small = Ok small <->
      float_lt f (Fin 1) = false)) /\
  (forall bg cat_id large i,
     getitem ann "category_id" = Ok cat_id -> py_eq cat_id bg = true ->
     getitem ann "image_id" = Ok img_id ->
     getitem ann "area" = Ok area ->
     getitem ann "id" = Ok i ->
     (check_large images bg ann large =
        Ok (large ++ [mk_entry i img_id (VFloat f)]) <->
      float_lt (Fin 50) f = true) /\
     (check_large images bg ann large = Ok large <->
      float_lt (Fin 50) f = false)) /\
  (forall a wd ht,
     area = VInt a ->
     getitem img "width" = Ok (VInt wd) ->
     getitem img "height" = Ok (VInt ht) -> wd * ht <> 0 ->
     (100 * a = wd * ht -> f = Fin 1 /\ float_lt f (Fin 1) = false) /\
     (2 * a = wd * ht -> f = Fin 50 /\ float_lt (Fin 50) f = false)) /\
  (forall q wd ht,
     area = VFloat (Fin q) ->
     getitem img "width" = Ok (VInt wd) ->
     getitem img "height" = Ok (VInt ht) -> 0 < wd * ht < 2 ^ 53 ->
     ((100 * q == inject_Z (wd * ht))%Q ->
      f = Fin 1 /\ float_lt f (Fin 1) = false) /\
     ((2 * q == inject_Z (wd * ht))%Q ->
      f = Fin 50 /\ float_lt (Fin 50) f = false)).
Proof.
  intros Hf Hr. split; [|split; [|split]].
  - intros small i Ha Hi Hid.
    rewrite (check_small_eq images ann small area img_id img f Ha Hi Hf Hr).
    rewrite Hid. cbn [bind].
    destruct (float_lt f (Fin 1)); split; split; intros H;
      try reflexivity; try discriminate.
    + absurd_append H.
    + absurd_append H.
  - intros bg cat_id large i Hc He Hi Ha Hid.
    rewrite (check_large_eq images bg ann large cat_id area img_id img f
               Hc He Hi Hf Ha Hr).
    rewrite Hid. cbn [bind].
    destruct (float_lt (Fin 50) f); split; split; intros H;
      try reflexivity; try discriminate.
    + absurd_append H.
    + absurd_append H.
  - intros a wd ht -> Hw Hh N. split; intros E.
    + rewrite (relative_area_exact a wd ht img 1 100 Hw Hh N) in Hr by lia.
      change (inject_Z 1 / inject_Z 100)%Q with (1 # 100)%Q in Hr.
      rewrite one_percent in Hr. inversion Hr. split; reflexivity.
    + rewrite (relative_area_exact a wd ht img 1 2 Hw Hh N) in Hr by lia.
      change (inject_Z 1 / inject_Z 2)%Q with (1 # 2)%Q in Hr.
      rewrite fifty_percent in Hr. inversion Hr. split; reflexivity.
  - intros q wd ht -> Hw Hh B. split; intros E.
    + rewrite (relative_area_float_exact q wd ht img 1 100 Hw Hh B) in Hr.
      * change (inject_Z 1 / inject_Z 100)%Q with (1 # 100)%Q in Hr.
        rewrite one_percent_float in Hr. inversion Hr. split; reflexivity.
      * lia.
      * change (inject_Z 100) with 100%Q. change (inject_Z 1) with 1%Q.
        rewrite <- E. ring.
    + rewrite (relative_area_float_exact q wd ht img 1 2 Hw Hh B) in Hr.
      * change (inject_Z 1 / inject_Z 2)%Q with (1 # 2)%Q in Hr.
        rewrite fifty_percent_float in Hr. inversion Hr. split; reflexivity.
      * lia.
      * change (inject_Z 2) with 2%Q. change (inject_Z 1) with 1%Q.
        rewrite <- E. ring.
Qed.


(** ** Check 3 *)

(** The background category is the first whose name matches; without a
    match [background_cat_id] stays [None]. *)
Lemma find_background_first cats bg :
  find_background cats = Ok bg ->
  (bg = VNone /\ forall c, In c cats -> names_background c = Ok false) \/
  (exists pre cat post,
     cats = pre ++ cat :: post /\
     names_background cat = Ok true /\ getitem cat "id" = Ok bg /\
     forall c, In c pre -> names_background c = Ok false).
Proof.
  revert bg. induction cats as [|cat rest IH]; cbn [find_background]; intros bg H.
  - inversion H. left. split; [reflexivity | intros c []].
  - apply bind_ok in H. destruct H as (name & En & H).
    apply bind_ok in H. destruct H as (low & El & H).
    assert (N : names_background cat = Ok (contains "background" low)).
    { unfold names_background. rewrite En. cbn [bind]. rewrite El. reflexivity. }
    destruct (contains "background" low) eqn:C.
    + right. exists [], cat, rest. repeat split; auto. intros c [].
    + destruct (IH bg H) as [[-> F]|(pre & c & post & -> & Nc & Gc & F)].
      * left. split; [reflexivity|]. intros c [<-|Hc]; auto.
      * right. exists (cat :: pre), c, post. repeat split; auto.
        intros x [<-|Hx]; auto.
Qed.

(** The check is skipped on every id that is false as a condition: [None]
    when no category matches, but also 0, the empty string, ... *)
Lemma falsy_background_id_skips images anns bg :
  truthy bg = false -> large_boxes images anns bg = Ok [].
Proof. intros H. unfold large_boxes. rewrite H. reflexivity. Qed.

(** ** The summary *)

Lemma checks_inv data s :
  checks data = Ok (Some s) ->
  exists images annotations categories anns issues small cats bg large imgs
         without,
    dict_get data "images" (VList []) = Ok images /\
    dict_get data "annotations" (VList []) = Ok annotations /\
    dict_get data "categories" (VList []) = Ok categories /\
    py_iter annotations = Ok anns /\
    for_each (check_bbox images) anns [] = Ok issues /\
    for_each (check_small images) anns [] = Ok small /\
    py_iter categories = Ok cats /\
    find_background cats = Ok bg /\
    large_boxes images anns bg = Ok large /\
    py_iter images = Ok imgs /\
    for_each (check_coverage annotations) imgs [] = Ok without /\
    critical_issues s = len issues /\
    small_objects s = len small /\
    large_backgrounds s = len large /\
    images_without_annotations s = len without.
Proof.
  unfold checks. intros H.
  apply bind_ok in H. destruct H as (images & E1 & H).
  apply bind_ok in H. destruct H as (annotations & E2 & H).
  apply bind_ok in H. destruct H as (categories & E3 & H).
  apply bind_ok in H. destruct H as (n1 & _ & H).
  apply bind_ok in H. destruct H as (n2 & _ & H).
  apply bind_ok in H. destruct H as (n3 & _ & H).
  apply bind_ok in H. destruct H as (anns & E4 & H).
  apply bind_ok in H. destruct H as (issues & E5 & H).
  apply bind_ok in H. destruct H as (small & E6 & H).
  apply bind_ok in H. destruct H as (cats & E7 & H).
  apply bind_ok in H. destruct H as (bg & E8 & H).
  apply bind_ok in H. destruct H as (large & E9 & H).
  apply bind_ok in H. destruct H as (imgs & E10 & H).
  apply bind_ok in H. destruct H as (without & E11 & H).
  inversion H; subst.
  exists images, annotations, categories, anns, issues, small, cats, bg,
    large, imgs, without.
  repeat split; assumption.
Qed.

Lemma checks_not_none data : checks data <> Ok None.
Proof.
  unfold checks. intros H.
  repeat (apply bind_ok in H; destruct H as (? & _ & H)).
  discriminate.
Qed.

(** C8.  The summary field [images_without_annotations] is the number of
    images that no annotation references by [image_id]; an image that some
    annotation references is not counted, whatever else the annotation
    holds.  A dataset of the data model gets its summary. *)
Theorem C8_images_without_annotations data images annotations imgs anns :
  dict_get data "images" (VList []) = Ok images ->
  dict_get data "annotations" (VList []) = Ok annotations ->
  py_iter images = Ok imgs ->
  py_iter annotations = Ok anns ->
  (dataset_ok data = true ->
   exists s, outcome (validate_loaded data) = Ok (Some s)) /\
  (forall s,
     outcome (validate_loaded data) = Ok (Some s) ->
     images_without_annotations s = len (filter (unreferenced anns) imgs)) /\
  (forall img ann,
     In ann anns -> references ann img = true ->
     ~ In img (filter (unreferenced anns) imgs)).
Proof.
  intros Hi Ha Hii Hai. rewrite outcome_validate_loaded. split; [|split].
  - apply checks_total.
  - intros s Hs.
    destruct (checks_inv data s Hs)
      as (images' & annotations' & categories & anns' & issues & small & cats &
          bg & large & imgs' & without & E1 & E2 & _ & E4 & _ & _ & _ & _ & _ &
          E10 & E11 & _ & _ & _ & ->).
    rewrite Hi in E1. inversion E1; subst images'.
    rewrite Ha in E2. inversion E2; subst annotations'.
    rewrite Hii in E10. inversion E10; subst imgs'.
    unfold len. f_equal.
    apply (for_each_count (check_coverage annotations)
             (check_coverage_appends annotations) (unreferenced anns));
      [|assumption].
    intros img new Hn. apply (check_coverage_new annotations anns img new Hai Hn).
  - intros img ann Hann Href Hin. apply filter_In in Hin. destruct Hin as [_ U].
    unfold unreferenced in U. rewrite forallb_forall in U.
    specialize (U ann Hann). rewrite Href in U. discriminate.
Qed.

(** C9 (amended).  The validator returns the sentinel [None] exactly when
    the file is not found or is not valid JSON; any other exception of the
    load propagates; on a loaded dataset of the data model it returns a
    summary. *)
Theorem C9_sentinel_and_summary json_file :
  outcome (validate_visual_annotations json_file NotFound) = Ok None /\
  outcome (validate_visual_annotations json_file Malformed) = Ok None /\
  (forall src,
     outcome (validate_visual_annotations json_file src) = Ok None ->
     src = NotFound \/ src = Malformed) /\
  (forall name,
     outcome (validate_visual_annotations json_file (LoadFails name)) =
     Raise (LoadError name)) /\
  (forall data,
     dataset_ok data = true ->
     exists s,
       outcome (validate_visual_annotations json_file (Loaded data)) =
       Ok (Some s)).
Proof.
  repeat split; try (rewrite outcome_validate; reflexivity).
  - intros src. rewrite outcome_validate.
    destruct src; auto; intros H; [discriminate|].
    apply checks_not_none in H. contradiction.
  - intros data Hd. rewrite outcome_validate. apply checks_total. assumption.
Qed.

Lemma check_small_at_most_one images ann new :
  check_small images ann [] = Ok new -> (List.length new <= 1)%nat.
Proof.
  unfold check_small. intros H.
  apply bind_ok in H; destruct H as (area & _ & H).
  apply bind_ok in H; destruct H as (img_id & _ & H).
  apply bind_ok in H; destruct H as (r & _ & H).
  destruct (resolved r) as [img|]; [|inversion H; simpl; lia].
  apply bind_ok in H; destruct H as (img_area & _ & H).
  apply bind_ok in H; destruct H as (rel & _ & H).
  apply bind_ok in H; destruct H as (b & _ & H).
  destruct b; [|inversion H; simpl; lia].
  apply bind_ok in H; destruct H as (i & _ & H). inversion H. simpl. lia.
Qed.

(** C10.  An annotation without an [area] whose image resolves is given the
    area 0 by the small-object check, which collects it with a relative
    area of 0, so that it is counted in [small_objects]; the background
    check reads [area] without a default and raises KeyError on it. *)
Theorem C10_missing_area images d img_id img wd ht i :
  lookup "area" d = None ->
  lookup "image_id" d = Some img_id ->
  lookup "id" d = Some i ->
  find_image images img_id = Ok (Some img) ->
  getitem img "width" = Ok (VInt wd) ->
  getitem img "height" = Ok (VInt ht) -> wd * ht <> 0 ->
  let ann := VDict d in
  let e := mk_entry i img_id (VFloat (Fin 0)) in
  (forall small, check_small images ann small = Ok (small ++ [e])) /\
  collects_small images ann = true /\
  (forall data s annotations anns,
     dict_get data "images" (VList []) = Ok images ->
     dict_get data "annotations" (VList []) = Ok annotations ->
     py_iter annotations = Ok anns -> In ann anns ->
     outcome (validate_loaded data) = Ok (Some s) ->
     small_objects s = len (filter (collects_small images) anns) /\
     0 < small_objects s) /\
  (forall bg cat_id large,
     lookup "category_id" d = Some cat_id -> py_eq cat_id bg = true ->
     check_large images bg ann large = Raise (KeyError "area")).
Proof.
  intros La Lm Li Hf Hw Hh N ann e.
  assert (Ga : dict_get ann "area" (VInt 0) = Ok (VInt 0)).
  { unfold ann. cbn [dict_get]. rewrite La. reflexivity. }
  assert (Gm : dict_get ann "image_id" VNone = Ok img_id).
  { unfold ann. cbn [dict_get]. rewrite Lm. reflexivity. }
  assert (Hr : relative_area (VInt 0) img = Ok (VFloat (Fin 0))).
  { rewrite (relative_area_exact 0 wd ht img 0 1 Hw Hh N) by lia.
    change (inject_Z 0 / inject_Z 1)%Q with 0%Q. apply zero_percent. }
  assert (Small : forall small, check_small images ann small = Ok (small ++ [e])).
  { intros small.
    rewrite (check_small_eq images ann small (VInt 0) img_id img (Fin 0)
               Ga Gm Hf Hr).
    change (float_lt (Fin 0) (Fin 1)) with true. cbv iota.
    unfold ann. rewrite (getitem_dict _ _ _ Li). reflexivity. }
  assert (Col : collects_small images ann = true).
  { unfold collects_small. rewrite (Small []). reflexivity. }
  split; [assumption|]. split; [assumption|]. split.
  - intros data s annotations anns Hdi Hda Hit Hin Hs.
    rewrite outcome_validate_loaded in Hs.
    destruct (checks_inv data s Hs)
      as (images' & annotations' & categories & anns' & issues & small & cats &
          bg & large & imgs' & without & E1 & E2 & _ & E4 & _ & E6 & _ & _ & _ &
          _ & _ & _ & -> & _ & _).
    rewrite Hdi in E1. inversion E1; subst images'.
    rewrite Hda in E2. inversion E2; subst annotations'.
    rewrite Hit in E4. inversion E4; subst anns'.
    assert (C : List.length small =
                List.length (filter (collects_small images) anns)).
    { apply (for_each_count (check_small images) (check_small_appends images)
               (collects_small images)); [|assumption].
      intros x new Hn. unfold collects_small. rewrite Hn.
      pose proof (check_small_at_most_one images x new Hn) as L.
      destruct new as [|a [|b new]]; try reflexivity.
      cbn [List.length] in L. lia. }
    unfold len. rewrite C. split; [reflexivity|].
    assert (In ann (filter (collects_small images) anns))
      by (apply filter_In; auto).
    destruct (filter (collects_small images) anns); [contradiction|].
    cbn [List.length]. lia.
  - intros bg cat_id large Lc He. unfold check_large, ann.
    rewrite (getitem_dict _ _ _ Lc). cbn [bind]. rewrite He.
    rewrite (getitem_dict _ _ _ Lm). cbn [bind]. rewrite Hf. cbn [bind].
    rewrite (resolved_find _ _ _ Hf).
    unfold image_area. rewrite Hw, Hh. cbn [bind].
    change (py_mul (VInt wd) (VInt ht)) with (Ok (VInt (wd * ht))). cbn [bind].
    unfold getitem at 1. rewrite La. reflexivity.
Qed.

End VisualProperties.

(** ** Data frames *)

Module PandasFacts.

Import Binary64.
Import Py Pandas Out Spec.
Local Open Scope string_scope.
Local Open Scope list_scope.
Local Open Scope Z_scope.


Lemma tally_add_sum v t : counts_sum (tally_add v t) = counts_sum t + 1.
Proof.
  unfold counts_sum, series_sum.
  induction t as [|[u n] t IH]; cbn [tally_add map fold_right snd]; [lia|].
  destruct (scalar_eqb u v); cbn [map fold_right snd]; lia.
Qed.

Lemma tally_add_positive v t : positive_counts t -> positive_counts (tally_add v t).
Proof.
  unfold positive_counts.
  induction t as [|[u n] t IH]; cbn [tally_add]; intros H.
  - constructor; [cbn; lia | constructor].
  - inversion H; subst. cbn [snd] in *.
    destruct (scalar_eqb u v); constructor; cbn [snd]; auto; lia.
Qed.

Lemma tally_fold col : forall t,
  positive_counts t ->
  let r := fold_left (fun t c => match c with
                                 | Some v => tally_add v t
                                 | None => t
                                 end) col t in
  counts_sum r = counts_sum t + non_null col /\ positive_counts r.
Proof.
  unfold non_null, count_if.
  induction col as [|c col IH]; intros t Ht; cbn [fold_left filter].
  - cbn. split; [lia | assumption].
  - destruct c as [v|]; cbn [is_null negb].
    + destruct (IH (tally_add v t) (tally_add_positive v t Ht)) as [S P].
      split; [|assumption]. rewrite S, tally_add_sum. cbn [List.length]. lia.
    + apply IH. assumption.
Qed.

Lemma tally_spec col :
  counts_sum (tally col) = non_null col /\ positive_counts (tally col).
Proof.
  destruct (tally_fold col [] (Forall_nil _)) as [S P].
  split; [|exact P]. unfold tally. rewrite S. reflexivity.
Qed.

Lemma insert_desc_sum x l : counts_sum (insert_desc x l) = snd x + counts_sum l.
Proof.
  unfold counts_sum, series_sum.
  induction l as [|y l IH]; cbn [insert_desc map fold_right]; [reflexivity|].
  destruct (snd y <? snd x); cbn [map fold_right]; lia.
Qed.

Lemma insert_desc_positive x l :
  1 <= snd x -> positive_counts l -> positive_counts (insert_desc x l).
Proof.
  unfold positive_counts. intros Hx.
  induction l as [|y l IH]; cbn [insert_desc]; intros H.
  - constructor; auto.
  - inversion H; subst. destruct (snd y <? snd x); constructor; auto.
Qed.

Lemma sort_fold l : forall acc,
  positive_counts l -> positive_counts acc ->
  let r := fold_left (fun acc x => insert_desc x acc) l acc in
  counts_sum r = counts_sum acc + counts_sum l /\ positive_counts r.
Proof.
  induction l as [|x l IH]; intros acc Hl Ha; cbn [fold_left].
  - split; [unfold counts_sum at 3; cbn; lia | assumption].
  - inversion Hl; subst.
    destruct (IH (insert_desc x acc) H2 (insert_desc_positive x acc H1 Ha))
      as [S P].
    split; [|assumption]. rewrite S, insert_desc_sum.
    unfold counts_sum at 4. cbn [map series_sum fold_right].
    fold (series_sum (map snd l)). fold (counts_sum l). lia.
Qed.

(** The counts of [value_counts] are positive and add up to the number of
    cells that are not missing. *)
Lemma value_counts_spec col :
  counts_sum (value_counts col) = non_null col /\
  positive_counts (value_counts col).
Proof.
  destruct (tally_spec col) as [S P].
  destruct (sort_fold (tally col) [] P (Forall_nil _)) as [S' P'].
  unfold value_counts, sort_desc. split; [|exact P'].
  rewrite S', S. reflexivity.
Qed.

Lemma positive_counts_le_sum t :
  positive_counts t -> forall g, In g t -> 1 <= snd g <= counts_sum t.
Proof.
  unfold positive_counts, counts_sum, series_sum.
  induction t as [|x t IH]; intros H g Hg; [contradiction|].
  inversion H; subst. cbn [map fold_right].
  assert (0 <= fold_right Z.add 0 (map snd t)).
  { clear - H3. induction t as [|y t IH]; cbn; [lia|].
    inversion H3; subst. specialize (IH H2). lia. }
  destruct Hg as [<-|Hg]; [lia|].
  specialize (IH H3 g Hg). lia.
Qed.

Lemma non_null_le col : non_null col <= Z.of_nat (List.length col).
Proof.
  unfold non_null, count_if. apply inj_le. apply filter_length_le.
Qed.

Lemma non_null_all col :
  forallb (fun c => negb (is_null c)) col = true ->
  non_null col = Z.of_nat (List.length col).
Proof.
  intros H. unfold non_null, count_if. f_equal.
  induction col as [|c col IH]; [reflexivity|].
  cbn [forallb] in H. apply andb_true_iff in H. destruct H as [Hc H].
  cbn [filter]. rewrite Hc. cbn [List.length]. rewrite (IH H). reflexivity.
Qed.

Lemma column_length df name col :
  column df name = Ok col -> Z.of_nat (List.length col) = nrows df.
Proof.
  unfold column, nrows. destruct (index_of name (columns df)); [|discriminate].
  intros H. inversion H. rewrite length_map. reflexivity.
Qed.

Lemma value_counts_nonempty col :
  existsb (fun c => negb (is_null c)) col = true -> value_counts col <> [].
Proof.
  intros H E. destruct (value_counts_spec col) as [S _].
  rewrite E in S. unfold counts_sum in S. cbn in S.
  apply existsb_exists in H. destruct H as (c & Hc & Nc).
  unfold non_null, count_if in S.
  assert (In c (filter (fun c => negb (is_null c)) col))
    by (apply filter_In; auto).
  destruct (filter (fun c => negb (is_null c)) col); [contradiction|].
  cbn [List.length] in S. lia.
Qed.

(** ** The largest and the least count *)

Lemma fold_max_spec l : forall x,
  let m := fold_left Z.max l x in
  (m = x \/ In m l) /\ x <= m /\ forall y, In y l -> y <= m.
Proof.
  induction l as [|a l IH]; intros x; cbn [fold_left].
  - split; [auto|]. split; [lia | intros y []].
  - destruct (IH (Z.max x a)) as ([E|I] & L & U).
    + split; [|split].
      * rewrite E. destruct (Z.max_spec x a) as [[_ ->]|[_ ->]]; [right; left|left]; reflexivity.
      * lia.
      * intros y [<-|Hy]; [lia | auto].
    + split; [right; right; assumption|]. split; [lia|].
      intros y [<-|Hy]; [lia | auto].
Qed.

Lemma fold_min_spec l : forall x,
  let m := fold_left Z.min l x in
  (m = x \/ In m l) /\ m <= x /\ forall y, In y l -> m <= y.
Proof.
  induction l as [|a l IH]; intros x; cbn [fold_left].
  - split; [auto|]. split; [lia | intros y []].
  - destruct (IH (Z.min x a)) as ([E|I] & L & U).
    + split; [|split].
      * rewrite E. destruct (Z.min_spec x a) as [[_ ->]|[_ ->]]; [left|right; left]; reflexivity.
      * lia.
      * intros y [<-|Hy]; [lia | auto].
    + split; [right; right; assumption|]. split; [lia|].
      intros y [<-|Hy]; [lia | auto].
Qed.

Lemma series_max_spec l :
  l <> [] ->
  exists m, series_max l = NInt m /\ In m l /\ forall y, In y l -> y <= m.
Proof.
  destruct l as [|x l]; [contradiction|]. intros _.
  destruct (fold_max_spec l x) as (I & L & U).
  exists (fold_left Z.max l x). split; [reflexivity|]. split.
  - destruct I as [->|I]; [left; reflexivity | right; assumption].
  - intros y [<-|Hy]; auto.
Qed.

Lemma series_min_spec l :
  l <> [] ->
  exists m, series_min l = NInt m /\ In m l /\ forall y, In y l -> m <= y.
Proof.
  destruct l as [|x l]; [contradiction|]. intros _.
  destruct (fold_min_spec l x) as (I & L & U).
  exists (fold_left Z.min l x). split; [reflexivity|]. split.
  - destruct I as [->|I]; [left; reflexivity | right; assumption].
  - intros y [<-|Hy]; auto.
Qed.

End PandasFacts.

(** ** Ratios and percentages of counts *)

Module TextFacts.

Import Binary64 Binary64Facts PyFacts VisualFacts PandasFacts.
Import Py Pandas Out Text Spec.
Local Open Scope string_scope.
Local Open Scope list_scope.
Local Open Scope Z_scope.

Arguments round : simpl never.

(** ** Division of counts *)

Lemma np_truediv_counts a b :
  0 < a < 2 ^ 53 -> 0 < b < 2 ^ 53 ->
  np_truediv (NInt a) (NInt b) = round (inject_Z a / inject_Z b).
Proof.
  intros Ha Hb. unfold np_truediv, to_float64.
  rewrite (round_int_exact a), (round_int_exact b) by lia.
  cbn [fzero]. unfold qzero. cbn [Qnum inject_Z].
  destruct (Z.eqb_spec b 0); [lia | reflexivity].
Qed.

Lemma u_value : (u == 1 # 9007199254740992)%Q.
Proof. reflexivity. Qed.

(** Rounding in the range of the ratios the validator computes. *)
Lemma round_ratio q :
  (1 # 9007199254740992 <= q)%Q -> (q <= 9007199254740992 # 1)%Q ->
  exists v, round q = Fin v /\
            (q - q * (1 # 9007199254740992) <= v)%Q /\
            (v <= q + q * (1 # 9007199254740992))%Q.
Proof.
  intros L U.
  assert (L' : (p2 (-1021) <= q)%Q).
  { apply Qle_trans with (p2 (-53)); [apply p2_le; lia|].
    change (p2 (-53)) with (/ inject_Z (2 ^ 53))%Q.
    change (/ inject_Z (2 ^ 53))%Q with (1 # 9007199254740992)%Q. assumption. }
  assert (U' : (q < p2 1023)%Q).
  { apply Qle_lt_trans with (p2 53).
    - change (p2 53) with (9007199254740992 # 1)%Q. assumption.
    - apply p2_lt. lia. }
  destruct (round_positive_nonzero L' U') as (v & R & _ & _ & A).
  exists v. split; [assumption|].
  apply Qabs_Qle_condition in A. rewrite u_value in A. destruct A as [A1 A2].
  split; lra.
Qed.


Lemma round_three : round 3 = Fin 3.
Proof. vm_compute. reflexivity. Qed.

Lemma float_lt_fin a b : float_lt (Fin a) (Fin b) = true <-> (a < b)%Q.
Proof.
  cbn [float_lt]. destruct (Qle_bool b a) eqn:E; cbn [negb].
  - apply Qle_bool_iff in E. split; [discriminate|]. intros H.
    exfalso. apply (Qlt_irrefl a). apply Qlt_le_trans with b; assumption.
  - split; [|reflexivity]. intros _. apply Qnot_le_lt. intros C.
    apply Qle_bool_iff in C. congruence.
Qed.

(** The ratio of the largest to the least count is above 3 as a double
    exactly when it is above 3 as a rational. *)
Lemma imbalance_threshold mx mn :
  1 <= mn -> mn <= mx -> mx <= 2 ^ 51 ->
  exists v,
    np_truediv (NInt mx) (NInt mn) = Fin v /\
    (float_lt (Fin 3) (Fin v) = true <-> 3 * mn < mx) /\
    (mx = 3 * mn -> v = 3%Q).
Proof.
  intros Hn Hm Hb.
  assert (P : 2 ^ 51 < 2 ^ 53) by (apply Z.pow_lt_mono_r; lia).
  rewrite (np_truediv_counts mx mn) by lia.
  set (M := inject_Z mx). set (N := inject_Z mn). set (q := (M / N)%Q).
  assert (N1 : (1 <= N)%Q) by (unfold N; rewrite <- (Zle_Qle 1); assumption).
  assert (NM : (N <= M)%Q) by (unfold N, M; rewrite <- Zle_Qle; assumption).
  assert (MB : (M <= 2251799813685248 # 1)%Q).
  { unfold M. change (2251799813685248 # 1)%Q with (inject_Z (2 ^ 51)).
    rewrite <- Zle_Qle. assumption. }
  assert (Hq : (q * N == M)%Q) by (unfold q; field; lra).
  assert (Q1 : (1 <= q)%Q).
  { unfold q. apply Qle_shift_div_l; lra. }
  assert (Q2 : (q <= M)%Q).
  { unfold q. apply Qle_shift_div_r; [lra|].
    assert (M * 1 <= M * N)%Q by (apply Qmult_le_l; lra). lra. }
  destruct (round_ratio q) as (v & R & A1 & A2); [lra | lra |].
  exists v. split; [assumption|].
  assert (B1 : ((q - q * (1 # 9007199254740992)) * N <= v * N)%Q)
    by (apply Qmult_le_compat_r; lra).
  assert (B2 : (v * N <= (q + q * (1 # 9007199254740992)) * N)%Q)
    by (apply Qmult_le_compat_r; lra).
  rewrite float_lt_fin.
  destruct (Z.lt_trichotomy mx (3 * mn)) as [C|[C|C]].
  - split; [|lia]. split; [|lia]. intros V. exfalso.
    assert (Cq : (M + 1 <= 3 * N)%Q).
    { unfold M, N. change 3%Q with (inject_Z 3). change 1%Q with (inject_Z 1).
      rewrite <- inject_Z_mult, <- inject_Z_plus, <- Zle_Qle. lia. }
    assert (3 * N < v * N)%Q by (apply Qmult_lt_compat_r; lra).
    lra.
  - assert (E : (q == 3)%Q).
    { unfold q, M, N. rewrite C, inject_Z_mult. change (inject_Z 3) with 3%Q.
      field. fold N. lra. }
    rewrite (round_compat E), round_three in R. inversion R; subst v.
    split; [|reflexivity]. split; [|lia]. intros V. exfalso.
    apply (Qlt_irrefl 3). assumption.
  - split; [|lia]. split; [intros _; assumption|]. intros _.
    assert (Cq : (3 * N + 1 <= M)%Q).
    { unfold M, N. change 3%Q with (inject_Z 3). change 1%Q with (inject_Z 1).
      rewrite <- inject_Z_mult, <- inject_Z_plus, <- Zle_Qle. lia. }
    apply Qnot_le_lt. intros V.
    assert (v * N <= 3 * N)%Q by (apply Qmult_le_compat_r; lra).
    lra.
Qed.


(** ** Percentages *)


Lemma ratio_at_most_one c n :
  1 <= c <= n ->
  (0 <= Qmake c 1 / Qmake n 1)%Q /\ (Qmake c 1 / Qmake n 1 <= 1)%Q.
Proof.
  intros H. change (Qmake c 1) with (inject_Z c).
  change (Qmake n 1) with (inject_Z n).
  assert (C : (1 <= inject_Z c)%Q) by (rewrite <- (Zle_Qle 1); lia).
  assert (N : (inject_Z c <= inject_Z n)%Q) by (rewrite <- Zle_Qle; lia).
  split.
  - apply Qle_shift_div_l; lra.
  - apply Qle_shift_div_r; lra.
Qed.

(** The percentage of a group is the double [pct]: no exception. *)
Lemma percentage_pct c n :
  1 <= c <= n -> percentage c n = Ok (VFloat (pct c n)).
Proof.
  intros H. unfold percentage, py_truediv. cbn [as_num]. unfold num_truediv.
  destruct (Z.eqb_spec n 0) as [E|_]; [lia|].
  destruct (ratio_at_most_one c n H) as [L U].
  destruct (round_finite (Qmake c 1 / Qmake n 1)) as (v & R & _).
  { rewrite Qabs_pos by assumption.
    apply Qle_lt_trans with (p2 0); [exact U | apply p2_lt; lia]. }
  unfold pct. rewrite R. cbn [bind]. apply mul_100.
Qed.

Lemma percentage_bound c n :
  1 <= c <= n -> n < 2 ^ 53 ->
  exists v,
    pct c n = Fin v /\
    (Qabs (v - inject_Z c * (100 / inject_Z n)) <=
     inject_Z c * (100 / inject_Z n) * pct_error)%Q.
Proof.
  intros Hc Hn. unfold pct.
  change (Qmake c 1) with (inject_Z c). change (Qmake n 1) with (inject_Z n).
  set (C := inject_Z c). set (N := inject_Z n). set (q := (C / N)%Q).
  assert (C1 : (1 <= C)%Q) by (unfold C; rewrite <- (Zle_Qle 1); lia).
  assert (CN : (C <= N)%Q) by (unfold C, N; rewrite <- Zle_Qle; lia).
  assert (NB : (N <= 9007199254740992 # 1)%Q).
  { unfold N. change (9007199254740992 # 1)%Q with (inject_Z (2 ^ 53)).
    rewrite <- Zle_Qle. lia. }
  assert (Q1 : (1 # 9007199254740992 <= q)%Q).
  { unfold q. apply Qle_shift_div_l; lra. }
  assert (Q2 : (q <= 1)%Q).
  { unfold q. apply Qle_shift_div_r; lra. }
  destruct (round_ratio q) as (v1 & R1 & A1 & A2); [lra | lra |].
  rewrite R1. cbn [fmul].
  destruct (round_ratio (v1 * 100)) as (v2 & R2 & B1 & B2); [lra | lra |].
  exists v2. split; [assumption|].
  assert (E : (C * (100 / N) == 100 * q)%Q) by (unfold q; field; lra).
  rewrite E. unfold pct_error. rewrite u_value.
  apply Qabs_Qle_condition. split; lra.
Qed.

Lemma percentages_sum n (cs : list Z) :
  n < 2 ^ 53 -> (forall c, In c cs -> 1 <= c <= n) ->
  exists qs,
    map (fun c => pct c n) cs = map Fin qs /\
    (Qabs (qsum qs - inject_Z (series_sum cs) * (100 / inject_Z n)) <=
     inject_Z (series_sum cs) * (100 / inject_Z n) * pct_error)%Q.
Proof.
  intros Hn. induction cs as [|c cs IH]; intros H.
  - exists []. split; [reflexivity|]. cbn. discriminate.
  - destruct IH as (qs & E & B).
    { intros x Hx. apply H. right. assumption. }
    destruct (percentage_bound c n (H c (or_introl eq_refl)) Hn) as (v & Ev & Bv).
    exists (v :: qs). split.
    + cbn [map]. rewrite Ev, E. reflexivity.
    + cbn [qsum series_sum fold_right].
      fold (qsum qs). fold (series_sum cs).
      rewrite inject_Z_plus.
      set (W := (100 / inject_Z n)%Q) in *.
      apply Qabs_Qle_condition in B. apply Qabs_Qle_condition in Bv.
      apply Qabs_Qle_condition. destruct B, Bv. split; lra.
Qed.

Lemma pct_error_small : (100 * pct_error <= tolerance)%Q.
Proof. vm_compute. discriminate. Qed.

(** The counts of the groups of a column lie between 1 and the number of
    rows. *)
Lemma counts_in_range col total :
  Z.of_nat (List.length col) = total ->
  forall g, In g (value_counts col) -> 1 <= snd g <= total.
Proof.
  intros Hlen g Hg. destruct (value_counts_spec col) as [S P].
  pose proof (positive_counts_le_sum _ P g Hg) as B.
  pose proof (non_null_le col). lia.
Qed.

(** The percentages of the groups of a column without missing cells. *)
Lemma sums_to_100_complete col total :
  forallb (fun c => negb (is_null c)) col = true ->
  Z.of_nat (List.length col) = total -> 0 < total < 2 ^ 53 ->
  sums_to_100 (value_counts col) total.
Proof.
  intros Hnn Hlen Ht.
  destruct (value_counts_spec col) as [S P].
  rewrite (non_null_all col Hnn), Hlen in S.
  pose proof (counts_in_range col total Hlen) as R.
  destruct (percentages_sum total (map snd (value_counts col))) as (qs & E & B).
  - lia.
  - intros c Hc. apply in_map_iff in Hc. destruct Hc as (g & <- & Hg). auto.
  - exists qs. split.
    + transitivity (map (fun g => Ok (VFloat (pct (snd g) total)))
                        (value_counts col)).
      * apply map_ext_in. intros g Hg. apply percentage_pct. auto.
      * rewrite map_map in E.
        rewrite <- (map_map Fin (fun f => Ok (VFloat f))), <- E, map_map.
        reflexivity.
    + fold (counts_sum (value_counts col)) in B. rewrite S in B.
      assert (W : (inject_Z total * (100 / inject_Z total) == 100)%Q).
      { field. intro C. apply (inject_Z_injective total 0) in C. lia. }
      rewrite W in B.
      apply Qle_trans with (100 * pct_error)%Q; [assumption|].
      apply pct_error_small.
Qed.

(** The loop prints one line per group and raises nothing. *)
Lemma print_groups_lines counts total :
  (forall g, In g counts -> 1 <= snd g <= total) ->
  print_groups counts total = (group_lines counts total, Ok tt).
Proof.
  induction counts as [|g rest IH]; intros H; [reflexivity|].
  cbn [print_groups]. rewrite (percentage_pct (snd g) total)
    by (apply H; left; reflexivity).
  cbn [lift mbind print app]. rewrite IH by (intros x Hx; apply H; right; exact Hx).
  reflexivity.
Qed.

End TextFacts.

(** ** Properties of the text validator *)

Module TextProperties.

Import Binary64 Binary64Facts PyFacts VisualFacts PandasFacts TextFacts.
Import Py Pandas Out Text Spec.
Local Open Scope string_scope.
Local Open Scope list_scope.
Local Open Scope Z_scope.

Arguments round : simpl never.

Ltac out_step :=
  rewrite output_mbind; cbn [outcome output print lift ret fst snd].

Ltac split_in H :=
  repeat match type of H with
  | In _ (_ ++ _) => apply in_app_or in H; destruct H as [H|H]
  | In _ (_ :: _) => destruct H as [H|H]; [try discriminate H|]
  | In _ [] => contradiction H
  | In _ (map _ _) =>
      apply in_map_iff in H; destruct H as (? & H & _); discriminate H
  | In _ (group_lines _ _) => unfold group_lines in H
  | In _ (if ?b then _ else _) => destruct b eqn:?
  | In _ (match ?l with [] => _ | _ :: _ => _ end) => destruct l
  end.

(** The only line that reports an imbalance is the one of check 3. *)
Lemma imbalance_line df intents r :
  column df "intent" = Ok intents ->
  In (ClassImbalance r) (output (validate_loaded df)) <->
  imbalanced (value_counts intents) = true /\
  r = imbalance_ratio (value_counts intents).
Proof.
  intros Hc.
  pose proof (counts_in_range intents (nrows df)
                (column_length df "intent" intents Hc)) as Ri.
  unfold validate_loaded.
  do 6 out_step. rewrite Hc. do 2 out_step.
  rewrite output_mbind, (print_groups_lines _ _ Ri).
  cbn [outcome output fst snd].
  do 3 out_step.
  assert (Found : imbalanced (value_counts intents) = true ->
                  forall tail,
                    In (ClassImbalance (imbalance_ratio (value_counts intents)))
                       (group_lines (value_counts intents) (nrows df) ++
                        (if imbalanced (value_counts intents)
                         then [ClassImbalance
                                 (imbalance_ratio (value_counts intents))]
                         else [Text "Balanced distribution"]) ++ tail)).
  { intros Hi tail. rewrite Hi. apply in_or_app. right. left. reflexivity. }
  destruct (column df "confidence") as [confs| |] eqn:Hf; cbn [output fst].
  - pose proof (counts_in_range confs (nrows df)
                  (column_length df "confidence" confs Hf)) as Rc.
    rewrite output_mbind, (print_groups_lines _ _ Rc).
    cbn [outcome output fst snd]. out_step.
    destruct (too_many_low _ _) as [flag| |]; cbn [output fst];
      repeat out_step.
    all: split;
      [ intros H; split_in H; try contradiction;
        inversion H; subst; auto
      | intros [Hi ->]; do 8 (apply in_or_app; right); apply Found; exact Hi ].
  - split;
      [ intros H; split_in H; try contradiction;
        inversion H; subst; auto
      | intros [Hi ->]; do 8 (apply in_or_app; right); apply Found; exact Hi ].
  - split;
      [ intros H; split_in H; try contradiction;
        inversion H; subst; auto
      | intros [Hi ->]; do 8 (apply in_or_app; right); apply Found; exact Hi ].
Qed.

(** C7.  For a record set with at least one intent group (and at most
    [2^51] rows), the class-imbalance line is printed exactly when the
    largest group count is more than 3 times the least; at exactly 3 times
    the ratio is 3.0 and no imbalance is reported. *)
Theorem C7_imbalance_flag df intents :
  column df "intent" = Ok intents ->
  existsb (fun c => negb (is_null c)) intents = true ->
  nrows df <= 2 ^ 51 ->
  let counts := value_counts intents in
  exists mx mn,
    series_max (map snd counts) = NInt mx /\
    series_min (map snd counts) = NInt mn /\
    (exists g, In g counts /\ snd g = mx) /\
    (exists g, In g counts /\ snd g = mn) /\
    (forall g, In g counts -> mn <= snd g <= mx) /\
    (imbalanced counts = true <-> 3 * mn < mx) /\
    (In (ClassImbalance (imbalance_ratio counts))
        (output (validate_loaded df)) <-> 3 * mn < mx) /\
    (mx = 3 * mn ->
     imbalance_ratio counts = Fin 3 /\
     forall r, ~ In (ClassImbalance r) (output (validate_loaded df))).
Proof.
  intros Hc He Hn counts.
  pose proof (value_counts_nonempty intents He) as NE. fold counts in NE.
  assert (NE' : map snd counts <> []).
  { destruct counts; [contradiction | discriminate]. }
  destruct (series_max_spec _ NE') as (mx & Emx & Imx & Umx).
  destruct (series_min_spec _ NE') as (mn & Emn & Imn & Lmn).
  destruct (value_counts_spec intents) as [S P]. fold counts in S, P.
  pose proof (non_null_le intents) as NL.
  rewrite (column_length df "intent" intents Hc) in NL.
  apply in_map_iff in Imx. destruct Imx as (gx & Egx & Igx).
  apply in_map_iff in Imn. destruct Imn as (gn & Egn & Ign).
  pose proof (positive_counts_le_sum _ P gx Igx) as Bx.
  pose proof (positive_counts_le_sum _ P gn Ign) as Bn.
  assert (Range : forall g, In g counts -> mn <= snd g <= mx).
  { intros g Hg. split; [apply Lmn | apply Umx]; apply in_map; assumption. }
  destruct (imbalance_threshold mx mn) as (v & Ev & T & B); try lia.
  { pose proof (Range gx Igx). lia. }
  assert (Er : imbalance_ratio counts = Fin v).
  { unfold imbalance_ratio. rewrite Emx, Emn. assumption. }
  assert (Ei : imbalanced counts = true <-> 3 * mn < mx).
  { unfold imbalanced. rewrite Er. assumption. }
  exists mx, mn.
  split; [assumption|]. split; [assumption|]. split; [eauto|].
  split; [eauto|]. split; [exact Range|]. split; [exact Ei|]. split.
  - split; intros H.
    + apply Ei. apply (imbalance_line df intents _ Hc) in H. tauto.
    + apply (imbalance_line df intents _ Hc).
      split; [apply Ei; assumption | reflexivity].
  - intros E. split.
    + rewrite Er. f_equal. apply B. assumption.
    + intros r H0. apply (imbalance_line df intents r Hc) in H0.
      destruct H0 as [H0 _]. apply Ei in H0. lia.
Qed.

(** C4 (amended).  For a column without missing cells of a record set of
    at least one and fewer than [2^53] rows, the percentages printed for its
    groups are finite and add up to 100 within [tolerance]; this holds of
    the intent column and of the confidence column. *)
Theorem C4_percentages_sum df name col :
  column df name = Ok col ->
  forallb (fun c => negb (is_null c)) col = true ->
  0 < nrows df < 2 ^ 53 ->
  sums_to_100 (value_counts col) (nrows df) /\
  outcome (print_groups (value_counts col) (nrows df)) = Ok tt /\
  map Ok (printed_percentages
            (output (print_groups (value_counts col) (nrows df)))) =
  map (fun g => percentage (snd g) (nrows df)) (value_counts col).
Proof.
  intros Hc Hn Hr.
  pose proof (column_length df name col Hc) as Hlen.
  pose proof (counts_in_range col (nrows df) Hlen) as R.
  split; [|split].
  - apply sums_to_100_complete; assumption.
  - rewrite (print_groups_lines _ _ R). reflexivity.
  - rewrite (print_groups_lines _ _ R). cbn [output fst].
    unfold group_lines, printed_percentages.
    induction (value_counts col) as [|g rest IH]; [reflexivity|].
    cbn [map flat_map app]. rewrite IH by (intros x Hx; apply R; right; exact Hx).
    rewrite (percentage_pct (snd g) (nrows df)) by (apply R; left; reflexivity).
    reflexivity.
Qed.

(** ** Missing columns *)

Lemma index_of_none name cols :
  existsb (String.eqb name) cols = false -> index_of name cols = None.
Proof.
  induction cols as [|c cols IH]; cbn [existsb index_of]; [reflexivity|].
  intros H. apply orb_false_iff in H. destruct H as [H1 H2].
  rewrite H1, (IH H2). reflexivity.
Qed.

Lemma index_of_some name cols :
  existsb (String.eqb name) cols = true -> exists i, index_of name cols = Some i.
Proof.
  induction cols as [|c cols IH]; cbn [existsb index_of]; [discriminate|].
  destruct (String.eqb name c); [eauto|]. cbn [orb]. intros H.
  destruct (IH H) as (i & ->). cbn. eauto.
Qed.

Lemma outcome_text df :
  outcome (validate_loaded df) =
  bind (column df "intent") (fun intents =>
  bind (column df "confidence") (fun confidences =>
  bind (too_many_low (count_if (equals_text "low") confidences) (nrows df))
       (fun _ =>
  Ok (Some {| total_annotations := nrows df;
              unique_intents :=
                Z.of_nat (List.length (value_counts intents));
              empty_values := series_sum (map snd (isnull_sum df));
              low_confidence_count :=
                count_if (equals_text "low") confidences |})))).
Proof.
  unfold validate_loaded.
  do 7 (rewrite outcome_mbind; cbn [outcome lift print ret snd bind]).
  destruct (column df "intent") as [intents| |] eqn:Hi; cbn [bind];
    try reflexivity.
  rewrite outcome_mbind; cbn [outcome print snd bind].
  rewrite outcome_mbind,
    (print_groups_lines _ _
       (counts_in_range intents (nrows df)
          (column_length df "intent" intents Hi))).
  cbn [outcome snd bind].
  do 3 (rewrite outcome_mbind; cbn [outcome lift print ret snd bind]).
  destruct (column df "confidence") as [confs| |] eqn:Hc; cbn [bind];
    try reflexivity.
  rewrite outcome_mbind,
    (print_groups_lines _ _
       (counts_in_range confs (nrows df)
          (column_length df "confidence" confs Hc))).
  cbn [outcome snd bind].
  rewrite outcome_mbind; cbn [outcome lift snd].
  destruct (too_many_low _ _); cbn [bind]; reflexivity.
Qed.

(** A missing [intent] or [confidence] column is fatal; with both present
    the validator returns its summary. *)
Lemma missing_column_fatal df :
  (has_column df "intent" = false ->
   outcome (validate_loaded df) = Raise (KeyError "intent")) /\
  (has_column df "intent" = true -> has_column df "confidence" = false ->
   outcome (validate_loaded df) = Raise (KeyError "confidence")) /\
  (has_column df "intent" = true -> has_column df "confidence" = true ->
   nrows df < 2 ^ 1023 ->
   exists s, outcome (validate_loaded df) = Ok (Some s)).
Proof.
  rewrite outcome_text. unfold has_column, column. repeat split.
  - intros H. rewrite (index_of_none _ _ H). reflexivity.
  - intros Hi Hc. destruct (index_of_some _ _ Hi) as (i & ->).
    rewrite (index_of_none _ _ Hc). reflexivity.
  - intros Hi Hc Hn. destruct (index_of_some _ _ Hi) as (i & ->).
    destruct (index_of_some _ _ Hc) as (j & ->). cbn [bind].
    unfold too_many_low, py_mul, num_mul, py_gt. cbn [as_num to_float bind].
    destruct (int_to_float_ok (nrows df)) as (v & -> & _).
    { unfold nrows in *. lia. }
    cbn [bind of_num].
    rewrite (py_cmp_num OpGt (VInt _) (VFloat _) _ _ eq_refl eq_refl) .
    cbn [bind]. eauto.
Qed.

End TextProperties.

(** ** The properties on the examples *)

Module Cases.

Import Binary64 VisualProperties TextProperties.
Import Py Pandas Out Spec Examples.
Local Open Scope string_scope.
Local Open Scope list_scope.
Local Open Scope Z_scope.

(** C1 (code bug).  With a background category of id 0 the category is
    found, but [if background_cat_id:] is false: the check does not run and
    the summary counts no large background, although the loop of the check
    collects the 64% box; with id 1 the same box is counted. *)
Theorem C1_background_id_zero_skipped :
  Visual.find_background [category 0 "Background"] = Ok (VInt 0) /\
  truthy (VInt 0) = false /\
  Visual.for_each (Visual.check_large (VList [img_100]) (VInt 0))
                  [ann_background 0] [] =
    Ok [mk_entry (VInt 1) (VInt 1) (VFloat (Fin 64))] /\
  outcome (Visual.validate_visual_annotations
             "f" (Visual.Loaded (data_background 0))) =
    Ok (Some {| Visual.total_images := 1; Visual.total_annotations := 1;
                Visual.critical_issues := 0; Visual.small_objects := 0;
                Visual.large_backgrounds := 0;
                Visual.images_without_annotations := 0 |}) /\
  (forall l,
     In l (output (Visual.validate_visual_annotations
                     "f" (Visual.Loaded (data_background 0)))) ->
     l <> Text "No oversized background boxes found" /\
     forall n, l <> FoundLarge n) /\
  outcome (Visual.validate_visual_annotations
             "f" (Visual.Loaded (data_background 1))) =
    Ok (Some {| Visual.total_images := 1; Visual.total_annotations := 1;
                Visual.critical_issues := 0; Visual.small_objects := 0;
                Visual.large_backgrounds := 1;
                Visual.images_without_annotations := 0 |}).
Proof.
  split; [vm_compute; reflexivity|]. split; [reflexivity|].
  split; [vm_compute; reflexivity|]. split; [vm_compute; reflexivity|].
  split; [|vm_compute; reflexivity].
  intros l H. vm_compute in H.
  repeat (destruct H as [<-|H]; [split; [discriminate | intros n; discriminate]|]).
  contradiction.
Qed.

(** C2 (code bug).  Without the intent column the validator reports the
    missing column and then raises KeyError at [df['intent']]: no summary
    is returned; without the text column it returns its summary. *)
Theorem C2_missing_intent_raises :
  Text.missing_cols df_no_intent = ["intent"] /\
  In (MissingColumns ["intent"])
     (output (Text.validate_text_annotations "f" (Text.Loaded df_no_intent))) /\
  outcome (Text.validate_text_annotations "f" (Text.Loaded df_no_intent)) =
    Raise (KeyError "intent") /\
  Text.missing_cols df_no_text = ["text"] /\
  outcome (Text.validate_text_annotations "f" (Text.Loaded df_no_text)) =
    Ok (Some {| Text.total_annotations := 1; Text.unique_intents := 1;
                Text.empty_values := 0; Text.low_confidence_count := 0 |}).
Proof.
  split; [reflexivity|]. split.
  - vm_compute. repeat (first [left; reflexivity | right]).
  - split; [vm_compute; reflexivity|]. split; vm_compute; reflexivity.
Qed.


(** C4: with a missing intent the one group has 50% of the two rows. *)
Lemma C4_counterexample :
  column df_null_intent "intent" = Ok [text "a"; None] /\
  map (fun g => Text.percentage (snd g) (nrows df_null_intent))
      (value_counts [text "a"; None]) = [Ok (VFloat (Fin 50))] /\
  ~ sums_to_100 (value_counts [text "a"; None]) (nrows df_null_intent).
Proof.
  split; [reflexivity|]. split; [vm_compute; reflexivity|].
  intros (qs & E & B).
  assert (E' : [Ok (VFloat (Fin 50))] = map (fun q => Ok (VFloat (Fin q))) qs)
    by (rewrite <- E; vm_compute; reflexivity).
  clear E. destruct qs as [|q [|q' qs]]; try discriminate.
  inversion E'; subst q. vm_compute in B. apply B. reflexivity.
Qed.

(** C5: a bbox of four components, one of them text, is not reported as
    an invalid format: the comparison [w <= 0] raises TypeError and the
    validator returns no summary. *)
Lemma C5_counterexample :
  number_ok (VStr "ten") = false /\
  Visual.check_bbox (VList [img_100]) ann_text_in_bbox [] = Raise TypeError /\
  outcome (Visual.validate_visual_annotations
             "f" (Visual.Loaded data_text_in_bbox)) = Raise TypeError.
Proof. repeat split; vm_compute; reflexivity. Qed.

(** C9: a JSON array is well-formed, and the validator raises
    AttributeError on it; so does a dataset with an image of width 0,
    with ZeroDivisionError. *)
Lemma C9_counterexample :
  outcome (Visual.validate_visual_annotations "f" (Visual.Loaded (VList []))) =
    Raise AttributeError /\
  outcome (Visual.validate_visual_annotations
             "f" (Visual.Loaded (dataset [image 1 0 100] [ann_one_percent] []))) =
    Raise ZeroDivisionError.
Proof. split; vm_compute; reflexivity. Qed.

(** C3 (code bug).  The box of the background category covers 64% of its
    image, which resolves: its relative area, 64.0, is above 50.  With the
    background category of id 0 the validator does not collect it, though
    it collects the object of 0.5% as small in the same run; with the id 1
    it collects both. *)
Theorem C3_large_background_not_collected :
  Visual.find_image (VList [img_100]) (VInt 1) = Ok (Some img_100) /\
  Visual.relative_area (VInt 6400) img_100 = Ok (VFloat (Fin 64)) /\
  float_lt (Fin 50) (Fin 64) = true /\
  Visual.relative_area (VInt 50) img_100 = Ok (VFloat (Fin (1 # 2))) /\
  float_lt (Fin (1 # 2)) (Fin 1) = true /\
  Visual.find_background [category 7 "object"; category 0 "Background"] =
    Ok (VInt 0) /\
  getitem (ann_background 0) "category_id" = Ok (VInt 0) /\
  outcome (Visual.validate_visual_annotations
             "f" (Visual.Loaded (data_thresholds 0))) =
    Ok (Some {| Visual.total_images := 1; Visual.total_annotations := 2;
                Visual.critical_issues := 0; Visual.small_objects := 1;
                Visual.large_backgrounds := 0;
                Visual.images_without_annotations := 0 |}) /\
  outcome (Visual.validate_visual_annotations
             "f" (Visual.Loaded (data_thresholds 1))) =
    Ok (Some {| Visual.total_images := 1; Visual.total_annotations := 2;
                Visual.critical_issues := 0; Visual.small_objects := 1;
                Visual.large_backgrounds := 1;
                Visual.images_without_annotations := 0 |}).
Proof. repeat split; vm_compute; reflexivity. Qed.

Lemma C4_witness :
  column df_skewed "intent" =
    Ok [text "a"; text "a"; text "a"; text "a"; text "b"] /\
  sums_to_100 (value_counts [text "a"; text "a"; text "a"; text "a"; text "b"])
              (nrows df_skewed).
Proof.
  split; [reflexivity|].
  apply (C4_percentages_sum df_skewed "intent"
           [text "a"; text "a"; text "a"; text "a"; text "b"]).
  - reflexivity.
  - reflexivity.
  - split; reflexivity.
Defined.

Lemma C7_witness :
  column df_skewed "intent" =
    Ok [text "a"; text "a"; text "a"; text "a"; text "b"] /\
  In (ClassImbalance
        (Text.imbalance_ratio
           (value_counts [text "a"; text "a"; text "a"; text "a"; text "b"])))
     (output (Text.validate_loaded df_skewed)).
Proof.
  split; [reflexivity|].
  destruct (C7_imbalance_flag df_skewed
              [text "a"; text "a"; text "a"; text "a"; text "b"])
    as (mx & mn & Emx & Emn & _ & _ & _ & _ & O & _).
  - reflexivity.
  - reflexivity.
  - vm_compute. discriminate.
  - vm_compute in Emx, Emn. inversion Emx. inversion Emn. subst mx mn.
    apply O. reflexivity.
Defined.

Lemma C8_witness :
  dataset_ok data_coverage = true /\
  exists s,
    outcome (Visual.validate_loaded data_coverage) = Ok (Some s) /\
    Visual.images_without_annotations s = 1.
Proof.
  split; [vm_compute; reflexivity|].
  destruct (C8_images_without_annotations data_coverage
              (VList [img_100; image 2 50 50]) (VList [ann_outside])
              [img_100; image 2 50 50] [ann_outside])
    as (T & C & _); try reflexivity.
  destruct T as (s & Hs); [vm_compute; reflexivity|].
  exists s. split; [exact Hs|]. rewrite (C s Hs). reflexivity.
Defined.

Lemma C9_witness :
  dataset_ok (data_background 1) = true /\
  exists s,
    outcome (Visual.validate_visual_annotations
               "f" (Visual.Loaded (data_background 1))) = Ok (Some s).
Proof.
  split; [vm_compute; reflexivity|].
  destruct (C9_sentinel_and_summary "f") as (_ & _ & _ & _ & H).
  apply H. vm_compute. reflexivity.
Defined.

Lemma C10_witness :
  lookup "area" fields_no_area = None /\
  Visual.find_image (VList [img_100]) (VInt 1) = Ok (Some img_100) /\
  Visual.check_small (VList [img_100]) (VDict fields_no_area) [] =
    Ok [mk_entry (VInt 6) (VInt 1) (VFloat (Fin 0))] /\
  (exists s,
     outcome (Visual.validate_loaded data_no_area) = Ok (Some s) /\
     0 < Visual.small_objects s) /\
  Visual.check_large (VList [img_100]) (VInt 1) (VDict fields_no_area) [] =
    Raise (KeyError "area").
Proof.
  split; [reflexivity|]. split; [reflexivity|].
  destruct (C10_missing_area (VList [img_100]) fields_no_area (VInt 1) img_100
              100 100 (VInt 6))
    as (S & _ & C & L); try reflexivity.
  - discriminate.
  - split; [exact (S [])|]. split.
    + eexists. split; [vm_compute; reflexivity|].
      refine (proj2 (C data_no_area _ (VList [VDict fields_no_area])
                       [VDict fields_no_area] eq_refl eq_refl eq_refl
                       (or_introl eq_refl) _)).
      vm_compute. reflexivity.
    + exact (L (VInt 1) (VInt 1) [] eq_refl eq_refl).
Defined.

(** Intents [a, a, a, b]: the ratio is exactly 3.0 and the distribution is
    reported as balanced. *)
Example three_to_one_is_balanced :
  Text.imbalance_ratio (value_counts [text "a"; text "a"; text "a"; text "b"]) =
    Fin 3 /\
  In (Text "Balanced distribution") (output (Text.validate_loaded df_three_to_one)) /\
  outcome (Text.validate_loaded df_three_to_one) =
    Ok (Some {| Text.total_annotations := 4; Text.unique_intents := 2;
                Text.empty_values := 0; Text.low_confidence_count := 1 |}).
Proof.
  split; [vm_compute; reflexivity|]. split; [|vm_compute; reflexivity].
  vm_compute. repeat (first [left; reflexivity | right]).
Qed.

(** The second example of the specification: a bbox that ends at 105 on an
    image of width 100 exceeds its bounds. *)
Example outside_is_reported :
  Visual.check_bbox (VList [img_100]) ann_outside [] =
    Ok [BboxExceedsBounds (VInt 2)].
Proof. vm_compute. reflexivity. Qed.

End Cases.

(** ** The order of doubles *)

Module RoundingOrder.

Import Binary64 Binary64Facts Py.
Local Open Scope Q_scope.

Lemma mant_le_of_scaled m1 m2 P :
  0 < P -> inject_Z m1 * P < (inject_Z m2 + 1) * P -> (m1 <= m2)%Z.
Proof.
  intros HP H.
  assert (L : inject_Z m1 < inject_Z (m2 + 1)).
  { rewrite inject_Z_plus. change (inject_Z 1) with 1.
    apply Qnot_le_lt. intro C.
    assert ((inject_Z m2 + 1) * P <= inject_Z m1 * P)
      by (apply Qmult_le_compat_r; [exact C | apply Qlt_le_weak; exact HP]).
    lra. }
  rewrite <- Zlt_Qlt in L. lia.
Qed.

(** The values of two roundings of positive rationals are in the order of
    the rationals. *)
Lemma round_values_le q1 q2 m1 e1 m2 e2 :
  0 < q1 -> q1 < q2 ->
  (emin <= e1)%Z -> (0 <= m1 <= 2 ^ 53)%Z ->
  Qabs (inject_Z m1 * p2 e1 - q1) <= p2 e1 / 2 ->
  q1 < c53 * p2 e1 -> ((emin < e1)%Z -> c52 * p2 e1 <= q1) ->
  (emin <= e2)%Z -> (0 <= m2 <= 2 ^ 53)%Z ->
  Qabs (inject_Z m2 * p2 e2 - q2) <= p2 e2 / 2 ->
  q2 < c53 * p2 e2 -> ((emin < e2)%Z -> c52 * p2 e2 <= q2) ->
  inject_Z m1 * p2 e1 <= inject_Z m2 * p2 e2.
Proof.
  intros Hq Hlt E1 M1 A1 U1 L1 E2 M2 A2 U2 L2.
  pose proof (p2_pos e1) as P1. pose proof (p2_pos e2) as P2.
  apply Qabs_Qle_condition in A1. destruct A1 as [A1l A1u].
  apply Qabs_Qle_condition in A2. destruct A2 as [A2l A2u].
  unfold Qdiv in A1l, A1u, A2l, A2u.
  change (/ 2) with (1 # 2) in A1l, A1u, A2l, A2u.
  destruct (Z.lt_trichotomy e1 e2) as [C|[C|C]].
  - (* the second exponent is the larger *)
    specialize (L2 ltac:(lia)).
    assert (S : p2 (e1 + 1) <= p2 e2) by (apply p2_le; lia).
    rewrite p2_succ in S.
    assert (Mq : inject_Z m1 <= c53) by (unfold c53; rewrite <- Zle_Qle; lia).
    assert (V1 : inject_Z m1 * p2 e1 <= c53 * p2 e1)
      by (apply Qmult_le_compat_r; [assumption | apply Qlt_le_weak; assumption]).
    assert (K : (2 ^ 52 <= m2)%Z).
    { apply (mant_le_of_scaled (2 ^ 52) m2 (p2 e2) P2).
      change (inject_Z (2 ^ 52)) with c52. lra. }
    assert (Kq : c52 <= inject_Z m2) by (unfold c52; rewrite <- Zle_Qle; exact K).
    assert (V2 : c52 * p2 e2 <= inject_Z m2 * p2 e2)
      by (apply Qmult_le_compat_r; [assumption | apply Qlt_le_weak; assumption]).
    assert (c52 * (2 * p2 e1) <= c52 * p2 e2)
      by (apply Qmult_le_l; [reflexivity | assumption]).
    rewrite c53_double in V1. lra.
  - subst e2.
    assert (K : (m1 <= m2)%Z) by (apply (mant_le_of_scaled m1 m2 (p2 e1) P1); lra).
    apply Qmult_le_compat_r; [|apply Qlt_le_weak; assumption].
    rewrite <- Zle_Qle. exact K.
  - exfalso. specialize (L1 ltac:(lia)).
    assert (S : p2 (e2 + 1) <= p2 e1) by (apply p2_le; lia).
    rewrite p2_succ in S.
    assert (c52 * (2 * p2 e2) <= c52 * p2 e1)
      by (apply Qmult_le_l; [reflexivity | assumption]).
    rewrite c53_double in U2. lra.
Qed.

Lemma overflows_le v w : v <= w -> overflows v = true -> overflows w = true.
Proof.
  unfold overflows. intros H O. apply Qle_bool_iff in O. apply Qle_bool_iff.
  apply Qle_trans with v; assumption.
Qed.

Lemma finite_value_le m1 e1 m2 e2 :
  inject_Z m1 * p2 e1 <= inject_Z m2 * p2 e2 ->
  float_le (finite_value m1 e1) (finite_value m2 e2) = true.
Proof.
  intros H. rewrite <- !of_mant_exp_spec in H. unfold finite_value.
  destruct (overflows (of_mant_exp m1 e1)) eqn:O1.
  - rewrite (overflows_le _ _ H O1). reflexivity.
  - destruct (overflows (of_mant_exp m2 e2)); [reflexivity|].
    cbn [float_le]. apply Qle_bool_iff. exact H.
Qed.

Lemma float_le_refl_round q : float_le (round q) (round q) = true.
Proof.
  unfold round. destruct (Qnum (Qred q)); [reflexivity| |];
    destruct (round_pos _ _) as [m e];
    destruct (overflows _); cbn [float_le]; try reflexivity;
    apply Qle_bool_iff; apply Qle_refl.
Qed.

(** Rounding keeps the order of positive rationals. *)
Lemma round_le_positive q1 q2 :
  0 < q1 -> q1 <= q2 -> float_le (round q1) (round q2) = true.
Proof.
  intros Hq Hle.
  destruct (Qeq_dec q1 q2) as [E|N].
  - rewrite (round_compat E). apply float_le_refl_round.
  - assert (Hlt : q1 < q2) by (apply Qle_lteq in Hle; tauto).
    assert (Hq2 : 0 < q2) by lra.
    destruct (round_positive Hq) as (m1 & e1 & R1 & E1 & M1 & A1 & U1 & L1).
    destruct (round_positive Hq2) as (m2 & e2 & R2 & E2 & M2 & A2 & U2 & L2).
    rewrite R1, R2. apply finite_value_le.
    apply (round_values_le q1 q2 m1 e1 m2 e2); assumption.
Qed.

Lemma float_le_zero_positive q : 0 < q -> float_le (Fin 0) (round q) = true.
Proof.
  intros Hq.
  destruct (round_positive Hq) as (m & e & R & _ & M & _).
  rewrite R. unfold finite_value. destruct (overflows _); [reflexivity|].
  cbn [float_le]. apply Qle_bool_iff. rewrite of_mant_exp_spec.
  apply Qmult_le_0_compat; [rewrite <- (Zle_Qle 0); lia|].
  apply Qlt_le_weak, p2_pos.
Qed.

Lemma float_le_fopp a b :
  float_le a b = true -> float_le (fopp b) (fopp a) = true.
Proof.
  destruct a as [x|[]|], b as [y|[]|]; cbn [float_le fopp negb orb andb];
    try discriminate; try reflexivity.
  intros H. apply Qle_bool_iff in H. apply Qle_bool_iff.
  rewrite !Qred_correct. lra.
Qed.

Lemma float_le_trans a b c :
  float_le a b = true -> float_le b c = true -> float_le a c = true.
Proof.
  destruct a as [x|[]|], b as [y|[]|], c as [z|[]|];
    cbn [float_le negb orb andb];
    try discriminate; try reflexivity.
  intros H1 H2. apply Qle_bool_iff in H1, H2. apply Qle_bool_iff.
  apply Qle_trans with y; assumption.
Qed.

Lemma round_zero q : q == 0 -> round q = Fin 0.
Proof. intros E. rewrite (round_compat E). reflexivity. Qed.

Lemma float_le_negative_zero q : 0 < q -> float_le (round (- q)) (Fin 0) = true.
Proof.
  intros Hq. rewrite (round_opp Hq).
  change (Fin 0) with (fopp (Fin 0)).
  apply float_le_fopp, float_le_zero_positive. exact Hq.
Qed.

(** Rounding to the nearest double is monotone. *)
Lemma round_le q1 q2 : q1 <= q2 -> float_le (round q1) (round q2) = true.
Proof.
  intros H.
  destruct (Q_dec q1 0) as [[N1|P1]|Z1].
  - assert (E1 : q1 == - - q1) by ring.
    assert (Hp : 0 < - q1) by lra.
    destruct (Q_dec q2 0) as [[N2|P2]|Z2].
    + assert (E2 : q2 == - - q2) by ring.
      assert (Hp2 : 0 < - q2) by lra.
      rewrite (round_compat E1), (round_compat E2).
      rewrite (round_opp Hp), (round_opp Hp2).
      apply float_le_fopp, round_le_positive; lra.
    + rewrite (round_compat E1).
      apply float_le_trans with (Fin 0);
        [apply float_le_negative_zero | apply float_le_zero_positive]; assumption.
    + rewrite (round_compat E1), (round_zero _ Z2).
      apply float_le_negative_zero. assumption.
  - apply round_le_positive; assumption.
  - rewrite (round_zero _ Z1).
    destruct (Q_dec q2 0) as [[N2|P2]|Z2].
    + lra.
    + apply float_le_zero_positive. assumption.
    + rewrite (round_zero _ Z2). reflexivity.
Qed.

Lemma round_not_nan q : round q <> NaN.
Proof.
  unfold round. destruct (Qnum (Qred q)); [discriminate| |];
    destruct (round_pos _ _) as [m e]; destruct (overflows _); discriminate.
Qed.

Lemma float_le_lt_trans a b c :
  float_le a b = true -> float_lt b c = true -> float_lt a c = true.
Proof.
  destruct a as [x|[]|], b as [y|[]|], c as [z|[]|];
    cbn [float_le float_lt negb orb andb];
    try discriminate; try reflexivity.
  intros H1 H2. apply Qle_bool_iff in H1. apply negb_true_iff in H2.
  apply negb_true_iff. destruct (Qle_bool z x) eqn:E; [|reflexivity].
  apply Qle_bool_iff in E.
  assert (C : Qle_bool z y = true)
    by (apply Qle_bool_iff; apply Qle_trans with x; assumption).
  congruence.
Qed.

Lemma float_lt_le_trans a b c :
  float_lt a b = true -> float_le b c = true -> float_lt a c = true.
Proof.
  destruct a as [x|[]|], b as [y|[]|], c as [z|[]|];
    cbn [float_le float_lt negb orb andb];
    try discriminate; try reflexivity.
  intros H1 H2. apply Qle_bool_iff in H2. apply negb_true_iff in H1.
  apply negb_true_iff. destruct (Qle_bool z x) eqn:E; [|reflexivity].
  apply Qle_bool_iff in E.
  assert (C : Qle_bool y x = true)
    by (apply Qle_bool_iff; apply Qle_trans with z; assumption).
  congruence.
Qed.

(** Multiplication by 100 keeps the order of doubles. *)
Lemma fmul_100_le a b :
  float_le a b = true ->
  float_le (fmul a (Fin 100)) (fmul b (Fin 100)) = true.
Proof.
  destruct a as [x|s|], b as [y|t|]; cbn [float_le fmul]; try discriminate.
  - intros H. apply Qle_bool_iff in H. apply round_le.
    apply Qmult_le_compat_r; [exact H | discriminate].
  - intros H. apply negb_true_iff in H. subst t.
    change (if qzero 100 then NaN else Inf (xorb false (qsign 100)))
      with (Inf false).
    pose proof (round_not_nan (x * 100)) as N.
    destruct (round (x * 100)) as [v|[]|]; try reflexivity. contradiction.
  - intros ->.
    change (if qzero 100 then NaN else Inf (xorb true (qsign 100)))
      with (Inf true).
    pose proof (round_not_nan (y * 100)) as N.
    destruct (round (y * 100)) as [v|[]|]; try reflexivity. contradiction.
  - change (qzero 100) with false. change (qsign 100) with false. cbv iota.
    rewrite !xorb_false_r. cbn [float_le]. trivial.
Qed.

Lemma float_le_not_lt a b : float_le a b = true -> float_lt b a = false.
Proof.
  destruct a as [x|[]|], b as [y|[]|]; cbn [float_le float_lt negb andb orb];
    try discriminate; try reflexivity.
  intros ->. reflexivity.
Qed.

Lemma round_one : round 1 = Fin 1.
Proof. vm_compute. reflexivity. Qed.

End RoundingOrder.

(** ** Loops, lengths and lines *)

Module LoopFacts.

Import Binary64 Binary64Facts PyFacts VisualFacts.
Import Py Out Visual Spec Report.
Local Open Scope string_scope.
Local Open Scope list_scope.
Local Open Scope Z_scope.
Local Open Scope py_scope.

(** One step of a computation that has returned. *)
Tactic Notation "step" hyp(H) "as" ident(x) ident(Hx) :=
  apply bind_ok in H; destruct H as (x & Hx & H).

Lemma chars_length s : List.length (chars s) = String.length s.
Proof.
  induction s as [|c s IH]; cbn [chars List.length String.length]; congruence.
Qed.

(** [len(v)] is the number of items [for x in v] runs over. *)
Lemma py_iter_len v l : py_iter v = Ok l -> py_len v = Ok (len l).
Proof.
  unfold len. destruct v; cbn [py_iter py_len]; try discriminate;
    intros H; inversion H; subst; f_equal; f_equal.
  - symmetry. apply chars_length.
  - symmetry. apply length_map.
Qed.

Lemma check_large_appends images bg : appends (check_large images bg).
Proof.
  intros ann large. unfold check_large. branch.
  all: rewrite ?app_nil_r; try reflexivity.
Qed.

Section Bounds.

Context {A B : Type} (body : A -> list B -> res (list B)).
Hypothesis body_appends : appends body.

(** A loop whose body adds at most [k] items adds at most [k] per turn. *)
Lemma for_each_length_le (k : nat) :
  (forall x new, body x [] = Ok new -> (List.length new <= k)%nat) ->
  forall l r, for_each body l [] = Ok r ->
              (List.length r <= k * List.length l)%nat.
Proof.
  intros Hk l. induction l as [|x l IH]; intros r Hr.
  - inversion Hr. cbn. lia.
  - destruct (for_each_cons body body_appends x l r Hr) as (n1 & n2 & E1 & E2 & ->).
    rewrite length_app. specialize (Hk x n1 E1). specialize (IH n2 E2).
    cbn [List.length]. lia.
Qed.

(** What holds of all that each turn adds holds of the result. *)
Lemma for_each_forall (P : B -> Prop) (Q : A -> Prop) :
  (forall x new, Q x -> body x [] = Ok new -> Forall P new) ->
  forall l r, (forall x, In x l -> Q x) ->
              for_each body l [] = Ok r -> Forall P r.
Proof.
  intros Hp l. induction l as [|x l IH]; intros r Hq Hr.
  - inversion Hr. constructor.
  - destruct (for_each_cons body body_appends x l r Hr) as (n1 & n2 & E1 & E2 & ->).
    apply Forall_app. split.
    + apply (Hp x); [apply Hq; left; reflexivity | assumption].
    + apply IH; [intros y Hy; apply Hq; right; assumption | assumption].
Qed.

(** A loop that completes has completed each turn. *)
Lemma for_each_turns l r :
  for_each body l [] = Ok r ->
  forall x, In x l -> exists new, body x [] = Ok new.
Proof.
  revert r. induction l as [|y l IH]; intros r Hr x Hx; [contradiction|].
  destruct (for_each_cons body body_appends y l r Hr) as (n1 & n2 & E1 & E2 & _).
  destruct Hx as [->|Hx]; [eauto | apply (IH n2 E2 x Hx)].
Qed.

End Bounds.

Lemma check_bbox_at_most_three images ann new :
  check_bbox images ann [] = Ok new -> (List.length new <= 3)%nat.
Proof.
  unfold check_bbox. intros H.
  step H as bbox Hbbox. step H as image_id Hid. step H as ann_id Hann.
  step H as n Hn.
  destruct (negb (n =? 4)); [inversion H; cbn; lia|].
  step H as xywh Hxywh. destruct xywh as [[[x y] w] h].
  step H as bad Hbad. step H as r Hr.
  destruct (resolved r) as [img|].
  - step H as negative Hneg. step H as outside Hout. inversion H.
    destruct bad, negative, outside; cbn; lia.
  - inversion H. destruct bad; cbn; lia.
Qed.

Lemma check_large_at_most_one images bg ann new :
  check_large images bg ann [] = Ok new -> (List.length new <= 1)%nat.
Proof.
  unfold check_large. intros H.
  step H as cat_id Hcat. destruct (py_eq cat_id bg); [|inversion H; cbn; lia].
  step H as img_id Hid. step H as r Hr.
  destruct (resolved r) as [img|]; [|inversion H; cbn; lia].
  step H as img_area Harea. step H as area Ha. step H as rel Hrel.
  step H as is_large Hl.
  destruct is_large; [|inversion H; cbn; lia].
  step H as i Hi. inversion H. cbn. lia.
Qed.

Lemma check_coverage_at_most_one annotations img new :
  check_coverage annotations img [] = Ok new -> (List.length new <= 1)%nat.
Proof.
  unfold check_coverage. intros H.
  step H as anns Hanns. step H as matching Hm.
  destruct (Z.of_nat (List.length matching) =? 0); [|inversion H; cbn; lia].
  step H as i Hi. inversion H. cbn. lia.
Qed.

(** What a summary records of the run that returned it. *)
Lemma checks_run data s :
  checks data = Ok (Some s) ->
  exists images annotations categories anns issues small cats bg large imgs
         without,
    dict_get data "images" (VList []) = Ok images /\
    dict_get data "annotations" (VList []) = Ok annotations /\
    dict_get data "categories" (VList []) = Ok categories /\
    py_iter annotations = Ok anns /\
    for_each (check_bbox images) anns [] = Ok issues /\
    for_each (check_small images) anns [] = Ok small /\
    py_iter categories = Ok cats /\
    find_background cats = Ok bg /\
    large_boxes images anns bg = Ok large /\
    py_iter images = Ok imgs /\
    for_each (check_coverage annotations) imgs [] = Ok without /\
    s = {| total_images := len imgs;
           total_annotations := len anns;
           critical_issues := len issues;
           small_objects := len small;
           large_backgrounds := len large;
           images_without_annotations := len without |}.
Proof.
  unfold checks. intros H.
  apply bind_ok in H. destruct H as (images & E1 & H).
  apply bind_ok in H. destruct H as (annotations & E2 & H).
  apply bind_ok in H. destruct H as (categories & E3 & H).
  apply bind_ok in H. destruct H as (n_images & L1 & H).
  apply bind_ok in H. destruct H as (n_annotations & L2 & H).
  apply bind_ok in H. destruct H as (n_categories & L3 & H).
  apply bind_ok in H. destruct H as (anns & E4 & H).
  apply bind_ok in H. destruct H as (issues & E5 & H).
  apply bind_ok in H. destruct H as (small & E6 & H).
  apply bind_ok in H. destruct H as (cats & E7 & H).
  apply bind_ok in H. destruct H as (bg & E8 & H).
  apply bind_ok in H. destruct H as (large & E9 & H).
  apply bind_ok in H. destruct H as (imgs & E10 & H).
  apply bind_ok in H. destruct H as (without & E11 & H).
  rewrite (py_iter_len _ _ E10) in L1. rewrite (py_iter_len _ _ E4) in L2.
  inversion L1; inversion L2; subst n_images n_annotations.
  inversion H; subst.
  exists images, annotations, categories, anns, issues, small, cats, bg,
    large, imgs, without.
  repeat split; assumption.
Qed.

Lemma len_nonneg {A} (l : list A) : 0 <= len l.
Proof. unfold len. lia. Qed.

(** ** Reading a list of lines *)

Ltac out_step :=
  rewrite output_mbind; cbn [outcome output print lift ret fst snd].

(** The cases of a line that is in an output. *)
Ltac split_in H :=
  repeat match type of H with
  | In _ (_ ++ _) => apply in_app_or in H; destruct H as [H|H]
  | In _ (_ :: _) => destruct H as [H|H]; [try discriminate H|]
  | In _ [] => contradiction H
  | In _ (examples _) => unfold examples in H
  | In _ (group_lines _ _) => unfold group_lines in H
  | In _ (map _ _) =>
      apply in_map_iff in H; destruct H as (? & H & _); discriminate H
  | In _ (if ?b then _ else _) => destruct b eqn:?
  | In _ (match ?l with [] => _ | _ :: _ => _ end) => destruct l
  end.

(** The same, to show that a property holds of every line. *)
Ltac each_line I :=
  repeat match type of I with
  | In _ (_ ++ _) => apply in_app_or in I; destruct I as [I|I]
  | In _ (_ :: _) => destruct I as [I|I]; [subst; try reflexivity|]
  | In _ [] => contradiction I
  | In _ (examples _) => unfold examples in I
  | In _ (group_lines _ _) => unfold group_lines in I
  | In _ (map _ _) =>
      apply in_map_iff in I; destruct I as (? & I & _); subst; try reflexivity
  | In _ (if ?b then _ else _) => destruct b
  | In _ (match ?l with [] => _ | _ :: _ => _ end) => destruct l
  | In _ (match ?r with Ok _ => _ | _ => _ end) => destruct r
  end.

(** A line that is in a list given by its items. *)
Ltac find_in :=
  solve [ left; reflexivity
        | right; find_in
        | apply in_or_app; left; find_in
        | apply in_or_app; right; find_in ].

Lemma flat_map_none {A B} (f : A -> list B) l :
  (forall x, In x l -> f x = []) -> flat_map f l = [].
Proof.
  induction l as [|x l IH]; intros H; [reflexivity|].
  cbn [flat_map]. rewrite (H x (or_introl eq_refl)), IH; [reflexivity|].
  intros y Hy. apply H. right. exact Hy.
Qed.

End LoopFacts.

(** ** Further properties of the visual validator *)

Module VisualFurther.

Import Binary64 Binary64Facts RoundingOrder PyFacts VisualFacts LoopFacts.
Import Py Out Visual Spec Report.
Local Open Scope string_scope.
Local Open Scope list_scope.
Local Open Scope Z_scope.
Local Open Scope py_scope.

(** ** Check 1 on integer boxes *)

Lemma Qle_bool_inject a b : Qle_bool (inject_Z a) (inject_Z b) = (a <=? b).
Proof.
  unfold Qle_bool, inject_Z. cbn [Qnum Qden]. rewrite !Z.mul_1_r. reflexivity.
Qed.

Lemma py_le_ints a b : py_le (VInt a) (VInt b) = Ok (a <=? b).
Proof.
  unfold py_le. rewrite (py_cmp_num OpLe (VInt a) (VInt b) (NInt a) (NInt b) eq_refl eq_refl).
  cbn [num_cmp]. unfold num_le. cbn [num_float float_le].
  rewrite Qle_bool_inject. reflexivity.
Qed.

Lemma py_lt_ints a b : py_lt (VInt a) (VInt b) = Ok (a <? b).
Proof.
  unfold py_lt. rewrite (py_cmp_num OpLt (VInt a) (VInt b) (NInt a) (NInt b) eq_refl eq_refl).
  cbn [num_cmp]. unfold num_lt. cbn [num_float float_lt].
  rewrite Qle_bool_inject, Z.ltb_antisym. reflexivity.
Qed.

Lemma py_gt_ints a b : py_gt (VInt a) (VInt b) = Ok (b <? a).
Proof.
  unfold py_gt. rewrite (py_cmp_num OpGt (VInt a) (VInt b) (NInt a) (NInt b) eq_refl eq_refl).
  cbn [num_cmp]. unfold num_lt. cbn [num_float float_lt].
  rewrite Qle_bool_inject, Z.ltb_antisym. reflexivity.
Qed.

Lemma py_add_ints a b : py_add (VInt a) (VInt b) = Ok (VInt (a + b)).
Proof. reflexivity. Qed.

Lemma py_or_ok a b : py_or (Ok a) (Ok b) = Ok (a || b).
Proof. unfold py_or. cbn [bind]. destruct a; reflexivity. Qed.

(** The bbox check on a box of four integers whose image resolves. *)
Lemma check_bbox_ints images d x y w h img wd ht issues :
  lookup "bbox" d = Some (VList [VInt x; VInt y; VInt w; VInt h]) ->
  find_image images (field_or VNone "image_id" d) = Ok (Some img) ->
  getitem img "width" = Ok (VInt wd) -> getitem img "height" = Ok (VInt ht) ->
  let ann_id := field_or VNone "id" d in
  check_bbox images (VDict d) issues =
  Ok (issues ++
      dims_issue ((w <=? 0) || (h <=? 0)) ann_id (VInt w) (VInt h) ++
      negative_issue ((x <? 0) || (y <? 0)) ann_id (VInt x) (VInt y) ++
      bounds_issue ((wd <? x + w) || (ht <? y + h)) ann_id).
Proof.
  intros Hb Hf Hw Hh ann_id.
  unfold check_bbox. rewrite !dict_get_field_or. cbn [bind].
  assert (Fb : field_or (VList []) "bbox" d =
               VList [VInt x; VInt y; VInt w; VInt h])
    by (unfold field_or; rewrite Hb; reflexivity).
  rewrite !Fb. cbn [py_len List.length Z.of_nat bind].
  change (negb (Z.of_nat 4 =? 4)) with false. cbv iota.
  unfold unpack4. cbn [py_iter bind].
  rewrite !py_le_ints, py_or_ok. cbn [bind].
  rewrite Hf. cbn [bind]. rewrite (resolved_find _ _ _ Hf).
  rewrite !py_lt_ints, py_or_ok. cbn [bind].
  rewrite !py_add_ints. cbn [bind]. rewrite Hw, Hh. cbn [bind].
  rewrite !py_gt_ints, py_or_ok. cbn [bind].
  fold ann_id. unfold dims_issue, negative_issue, bounds_issue.
  destruct ((w <=? 0) || (h <=? 0)), ((x <? 0) || (y <? 0)),
    ((wd <? x + w) || (ht <? y + h));
    cbn [app]; rewrite <- ?app_assoc, ?app_nil_r; reflexivity.
Qed.

(** X2.  On a box of four integers whose image resolves to one of integer
    width and height, the bbox check records no issue exactly when the box
    has positive sides and lies within the image, a box that touches the
    right or bottom border included; it records that the box exceeds the
    bounds exactly when [x + w > width] or [y + h > height]. *)
Theorem X2_integer_box_issues images d x y w h img wd ht issues :
  lookup "bbox" d = Some (VList [VInt x; VInt y; VInt w; VInt h]) ->
  find_image images (field_or VNone "image_id" d) = Ok (Some img) ->
  getitem img "width" = Ok (VInt wd) -> getitem img "height" = Ok (VInt ht) ->
  let ann_id := field_or VNone "id" d in
  exists new,
    check_bbox images (VDict d) issues = Ok (issues ++ new) /\
    (new = [] <->
     0 < w /\ 0 < h /\ 0 <= x /\ 0 <= y /\ x + w <= wd /\ y + h <= ht) /\
    (In (BboxExceedsBounds ann_id) new <-> wd < x + w \/ ht < y + h) /\
    (In (InvalidBboxDimensions ann_id (VInt w) (VInt h)) new <->
     w <= 0 \/ h <= 0) /\
    (In (NegativeCoordinates ann_id (VInt x) (VInt y)) new <-> x < 0 \/ y < 0).
Proof.
  intros Hb Hf Hw Hh ann_id.
  eexists. split; [apply (check_bbox_ints images d x y w h img wd ht); eassumption|].
  fold ann_id. unfold dims_issue, negative_issue, bounds_issue.
  destruct (Z.leb_spec w 0), (Z.leb_spec h 0), (Z.ltb_spec x 0),
    (Z.ltb_spec y 0), (Z.ltb_spec wd (x + w)), (Z.ltb_spec ht (y + h));
    cbn [orb app In];
    (split; [split; [intros E; try discriminate E; lia | intros E; try reflexivity; lia]|]);
    (split; [split; [intros E; try lia;
                     repeat (destruct E as [E|E]; try discriminate E); try contradiction
                    | intros E; try lia; auto 6]|]);
    (split; [split; [intros E; try lia;
                     repeat (destruct E as [E|E]; try discriminate E); try contradiction
                    | intros E; try lia; auto 6]
            |split; [intros E; try lia;
                     repeat (destruct E as [E|E]; try discriminate E); try contradiction
                    | intros E; try lia; auto 6]]).
Qed.

(** X3.  On a bbox of four numbers the bbox check records the dimensions
    issue, with the offending width and height, exactly once when [w <= 0]
    or [h <= 0] and not at all otherwise, whether or not the image
    resolves. *)
Theorem X3_dimension_issue_once images d x y w h issues :
  list_of image_ok images = true ->
  lookup "bbox" d = Some (VList [x; y; w; h]) ->
  number_ok x = true -> number_ok y = true ->
  number_ok w = true -> number_ok h = true ->
  let ann_id := field_or VNone "id" d in
  exists bad new,
    check_bbox images (VDict d) issues = Ok (issues ++ new) /\
    filter is_dimensions new = dims_issue bad ann_id w h /\
    (bad = true <->
     py_le w (VInt 0) = Ok true \/ py_le h (VInt 0) = Ok true).
Proof.
  intros Hi Hb Hx Hy Hw Hh ann_id.
  destruct (check_bbox_four images d x y w h issues Hi Hb Hx Hy Hw Hh)
    as (bad & r & Eb & _ & R).
  fold ann_id in R.
  assert (Z0 : number_ok (VInt 0) = true) by reflexivity.
  destruct (py_cmp_number OpLe w _ Hw Z0) as (cw & Ew).
  destruct (py_cmp_number OpLe h _ Hh Z0) as (ch & Eh).
  fold py_le in Ew, Eh.
  assert (Bad : bad = true <->
                py_le w (VInt 0) = Ok true \/ py_le h (VInt 0) = Ok true).
  { rewrite Ew, Eh in *. unfold py_or in Eb. cbn [bind] in Eb.
    destruct cw, ch; inversion Eb; subst; split; intros H; auto;
      try discriminate; destruct H as [H|H]; discriminate. }
  exists bad. destruct r as [img|].
  - destruct R as (neg & out & _ & R).
    exists (dims_issue bad ann_id w h ++ negative_issue neg ann_id x y ++
            bounds_issue out ann_id).
    split; [assumption|]. split; [|assumption].
    destruct bad, neg, out; reflexivity.
  - exists (dims_issue bad ann_id w h).
    split; [assumption|]. split; [|assumption].
    destruct bad; reflexivity.
Qed.

Lemma large_boxes_at_most images anns bg large :
  large_boxes images anns bg = Ok large ->
  (List.length large <= List.length anns)%nat.
Proof.
  unfold large_boxes. destruct (truthy bg).
  - intros H.
    pose proof (for_each_length_le (check_large images bg)
                  (check_large_appends images bg) 1
                  (check_large_at_most_one images bg) anns large H). lia.
  - intros H. inversion H. cbn. lia.
Qed.

(** X4.  In every summary the visual validator returns, no count is
    negative, an annotation accounts for at most three issues and at most
    one small object and one large background box, and an image for at most
    one image without annotations. *)
Theorem X4_summary_bounds data s :
  outcome (validate_loaded data) = Ok (Some s) ->
  0 <= critical_issues s <= 3 * total_annotations s /\
  0 <= small_objects s <= total_annotations s /\
  0 <= large_backgrounds s <= total_annotations s /\
  0 <= images_without_annotations s <= total_images s.
Proof.
  rewrite outcome_validate_loaded. intros H.
  destruct (checks_run data s H)
    as (images & annotations & categories & anns & issues & small & cats &
        bg & large & imgs & without & _ & _ & _ & _ & E5 & E6 & _ & _ & E9 &
        _ & E11 & ->).
  cbn [critical_issues total_annotations small_objects large_backgrounds
       images_without_annotations total_images].
  pose proof (for_each_length_le (check_bbox images) (check_bbox_appends images)
                3 (check_bbox_at_most_three images) anns issues E5).
  pose proof (for_each_length_le (check_small images)
                (check_small_appends images) 1
                (VisualProperties.check_small_at_most_one images)
                anns small E6).
  pose proof (large_boxes_at_most images anns bg large E9).
  pose proof (for_each_length_le (check_coverage annotations)
                (check_coverage_appends annotations) 1
                (check_coverage_at_most_one annotations) imgs without E11).
  unfold len. lia.
Qed.

Lemma getitem_dict_get v k x default :
  getitem v k = Ok x -> dict_get v k default = Ok x.
Proof.
  intros H. destruct (getitem_inv _ _ _ H) as (d & -> & L).
  cbn [dict_get]. rewrite L. reflexivity.
Qed.

Lemma Forall_False_nil {A} (l : list A) : Forall (fun _ => False) l -> l = [].
Proof. destruct l; [reflexivity|]. intros H. inversion H. contradiction. Qed.

(** X7.  Annotations whose image_id matches no image are skipped by the
    checks that need the image: none of them is a small object or a large
    background box, whatever its area, and the only issues recorded are on
    the format and the dimensions of the bbox. *)
Theorem X7_unresolved_annotations_skipped data s images annotations anns :
  dict_get data "images" (VList []) = Ok images ->
  dict_get data "annotations" (VList []) = Ok annotations ->
  py_iter annotations = Ok anns ->
  (forall ann img_id,
     In ann anns -> image_id_of ann = Ok img_id ->
     find_image images img_id = Ok None) ->
  outcome (validate_loaded data) = Ok (Some s) ->
  small_objects s = 0 /\ large_backgrounds s = 0 /\
  exists issues,
    for_each (check_bbox images) anns [] = Ok issues /\
    critical_issues s = len issues /\
    Forall (fun i => image_bound i = false) issues.
Proof.
  intros Hi Ha Hit Hu. rewrite outcome_validate_loaded. intros H.
  destruct (checks_run data s H)
    as (images' & annotations' & categories & anns' & issues & small & cats &
        bg & large & imgs & without & E1 & E2 & _ & E4 & E5 & E6 & _ & _ & E9 &
        _ & _ & ->).
  rewrite Hi in E1. inversion E1; subst images'.
  rewrite Ha in E2. inversion E2; subst annotations'.
  rewrite Hit in E4. inversion E4; subst anns'.
  cbn [small_objects large_backgrounds critical_issues].
  set (Q := fun ann : value =>
              forall img_id, image_id_of ann = Ok img_id ->
                             find_image images img_id = Ok None).
  assert (HQ : forall x, In x anns -> Q x).
  { intros x Hx img_id. apply Hu. exact Hx. }
  assert (Es : small = []).
  { apply Forall_False_nil.
    apply (for_each_forall (check_small images) (check_small_appends images)
             (fun _ => False) Q) with (l := anns); [|exact HQ|exact E6].
    intros x new Qx Hn. unfold check_small in Hn.
    step Hn as area Harea. step Hn as img_id Hid. step Hn as r Hr.
    rewrite (Qx img_id Hid) in Hr. inversion Hr; subst r.
    inversion Hn. constructor. }
  assert (El : large = []).
  { unfold large_boxes in E9. destruct (truthy bg); [|inversion E9; reflexivity].
    apply Forall_False_nil.
    apply (for_each_forall (check_large images bg)
             (check_large_appends images bg) (fun _ => False) Q)
      with (l := anns); [|exact HQ|exact E9].
    intros x new Qx Hn. unfold check_large in Hn.
    step Hn as cat_id Hcat. destruct (py_eq cat_id bg); [|inversion Hn; constructor].
    step Hn as img_id Hid. step Hn as r Hr.
    rewrite (Qx img_id (getitem_dict_get _ _ _ VNone Hid)) in Hr.
    inversion Hr; subst r. inversion Hn. constructor. }
  subst small large. split; [reflexivity|]. split; [reflexivity|].
  exists issues. split; [assumption|]. split; [reflexivity|].
  apply (for_each_forall (check_bbox images) (check_bbox_appends images)
           (fun i => image_bound i = false) Q) with (l := anns);
    [|exact HQ|exact E5].
  intros x new Qx Hn. unfold check_bbox in Hn.
  step Hn as bbox Hbbox. step Hn as img_id Hid. step Hn as ann_id Hann.
  step Hn as n Hlen.
  destruct (negb (n =? 4)).
  { inversion Hn. repeat constructor. }
  step Hn as xywh Hxywh. destruct xywh as [[[bx by_] bw] bh].
  step Hn as bad Hbad. step Hn as r Hr.
  rewrite (Qx img_id Hid) in Hr. inversion Hr; subst r.
  inversion Hn. destruct bad; repeat constructor.
Qed.

Lemma img_anns_ok anns img m :
  img_anns anns img = Ok m ->
  forall ann, In ann anns -> exists v, getitem ann "image_id" = Ok v.
Proof.
  revert m. induction anns as [|a anns IH]; intros m H ann Hin; [contradiction|].
  cbn [img_anns] in H.
  step H as v Hv. step H as i Hi. step H as more Hmore.
  destruct Hin as [->|Hin]; [eauto | apply (IH more Hmore ann Hin)].
Qed.

Lemma img_anns_raises pre d post img i :
  (forall a, In a pre -> exists v, getitem a "image_id" = Ok v) ->
  lookup "image_id" d = None -> getitem img "id" = Ok i ->
  img_anns (pre ++ VDict d :: post) img = Raise (KeyError "image_id").
Proof.
  intros Hp Hd Hi. induction pre as [|a pre IH]; cbn [app img_anns].
  - unfold getitem at 1. rewrite Hd. reflexivity.
  - destruct (Hp a (or_introl eq_refl)) as (v & ->). cbn [bind].
    rewrite Hi. cbn [bind]. rewrite IH; [reflexivity|].
    intros b Hb. apply Hp. right. exact Hb.
Qed.

(** X8.  The coverage check reads [ann['image_id']] of every annotation for
    every image: in a dataset with at least one image, an annotation that
    has no image_id makes the check raise KeyError, and the validator
    returns no summary, although checks 1 and 2 read the key with a
    default. *)
Theorem X8_missing_image_id_no_summary data img imgs annotations anns d :
  dict_get data "images" (VList []) = Ok (VList (img :: imgs)) ->
  dict_get data "annotations" (VList []) = Ok annotations ->
  py_iter annotations = Ok anns ->
  In (VDict d) anns -> lookup "image_id" d = None ->
  (forall r, outcome (validate_loaded data) <> Ok r) /\
  (forall pre post i without,
     anns = pre ++ VDict d :: post ->
     (forall a, In a pre -> exists v, getitem a "image_id" = Ok v) ->
     getitem img "id" = Ok i ->
     check_coverage annotations img without = Raise (KeyError "image_id")) /\
  image_id_of (VDict d) = Ok VNone.
Proof.
  intros Hi Ha Hit Hin Hd. split; [|split].
  - intros r. rewrite outcome_validate_loaded. intros H.
    destruct r as [s|]; [|exact (VisualProperties.checks_not_none data H)].
    destruct (checks_run data s H)
      as (images' & annotations' & categories & anns' & issues & small & cats &
          bg & large & imgs' & without & E1 & E2 & _ & E4 & _ & _ & _ & _ & _ &
          E10 & E11 & _).
    rewrite Hi in E1. inversion E1; subst images'.
    rewrite Ha in E2. inversion E2; subst annotations'.
    rewrite Hit in E4. inversion E4; subst anns'.
    cbn [py_iter] in E10. inversion E10; subst imgs'.
    destruct (for_each_turns (check_coverage annotations)
                (check_coverage_appends annotations) _ _ E11 img
                (or_introl eq_refl)) as (new & Hn).
    unfold check_coverage in Hn. rewrite Hit in Hn. cbn [bind] in Hn.
    step Hn as matching Hm.
    destruct (img_anns_ok anns img matching Hm (VDict d) Hin) as (v & Hv).
    unfold getitem in Hv. rewrite Hd in Hv. discriminate.
  - intros pre post i without -> Hp Hid.
    unfold check_coverage. rewrite Hit. cbn [bind].
    rewrite (img_anns_raises pre d post img i Hp Hd Hid). reflexivity.
  - unfold image_id_of. cbn [dict_get]. rewrite Hd. reflexivity.
Qed.

(** X9.  An annotation with a numeric area (or none) whose image has a
    width or a height of 0 makes the small-object check divide by zero:
    the check raises ZeroDivisionError and the validator returns no
    summary. *)
Theorem X9_zero_area_image_raises images d img wd ht :
  find_image images (field_or VNone "image_id" d) = Ok (Some img) ->
  getitem img "width" = Ok (VInt wd) ->
  getitem img "height" = Ok (VInt ht) -> wd * ht = 0 ->
  number_ok (field_or (VInt 0) "area" d) = true ->
  (forall small, check_small images (VDict d) small = Raise ZeroDivisionError) /\
  (forall data annotations anns r,
     dict_get data "images" (VList []) = Ok images ->
     dict_get data "annotations" (VList []) = Ok annotations ->
     py_iter annotations = Ok anns -> In (VDict d) anns ->
     outcome (validate_loaded data) <> Ok r).
Proof.
  intros Hf Hw Hh Hz Hn.
  assert (R : forall small,
             check_small images (VDict d) small = Raise ZeroDivisionError).
  { intros small. unfold check_small. rewrite !dict_get_field_or. cbn [bind].
    rewrite Hf. cbn [bind]. rewrite (resolved_find _ _ _ Hf).
    unfold image_area. rewrite Hw, Hh. cbn [bind].
    change (py_mul (VInt wd) (VInt ht)) with (Ok (VInt (wd * ht))).
    cbn [bind]. rewrite Hz.
    destruct (number_ok_inv _ Hn) as [(z & -> & _)|(f & ->)]; reflexivity. }
  split; [exact R|].
  intros data annotations anns r Hdi Hda Hit Hin.
  rewrite outcome_validate_loaded. intros H.
  destruct r as [s|]; [|exact (VisualProperties.checks_not_none data H)].
  destruct (checks_run data s H)
    as (images' & annotations' & categories & anns' & issues & small & cats &
        bg & large & imgs' & without & E1 & E2 & _ & E4 & _ & E6 & _).
  rewrite Hdi in E1. inversion E1; subst images'.
  rewrite Hda in E2. inversion E2; subst annotations'.
  rewrite Hit in E4. inversion E4; subst anns'.
  destruct (for_each_turns (check_small images) (check_small_appends images)
              _ _ E6 (VDict d) Hin) as (new & Hnew).
  rewrite R in Hnew. discriminate.
Qed.

(** ** The relative area and the area *)

(** The relative area of an integer area. *)
Lemma relative_area_int_le a1 a2 wd ht img f1 f2 :
  getitem img "width" = Ok (VInt wd) -> getitem img "height" = Ok (VInt ht) ->
  0 < wd * ht -> a1 <= a2 ->
  relative_area (VInt a1) img = Ok (VFloat f1) ->
  relative_area (VInt a2) img = Ok (VFloat f2) ->
  float_le f1 f2 = true.
Proof.
  intros Hw Hh P L.
  rewrite !(relative_area_ints _ wd ht img Hw Hh) by lia.
  assert (Q12 : (Qmake a1 1 / Qmake (wd * ht) 1 <=
                 Qmake a2 1 / Qmake (wd * ht) 1)%Q).
  { unfold Qdiv. apply Qmult_le_compat_r.
    - change (Qmake a1 1) with (inject_Z a1).
      change (Qmake a2 1) with (inject_Z a2). rewrite <- Zle_Qle. exact L.
    - apply Qinv_le_0_compat. change (Qmake (wd * ht) 1) with (inject_Z (wd * ht)).
      rewrite <- (Zle_Qle 0). lia. }
  pose proof (round_le _ _ Q12) as R.
  destruct (round (Qmake a1 1 / Qmake (wd * ht) 1)) as [v1|s1|];
    destruct (round (Qmake a2 1 / Qmake (wd * ht) 1)) as [v2|s2|];
    intros H1 H2; try discriminate H1; try discriminate H2;
    try discriminate R; inversion H1; inversion H2; subst.
  exact (fmul_100_le _ _ R).
Qed.

(** The relative area of a float area. *)
Lemma relative_area_float_le q1 q2 wd ht img f1 f2 :
  getitem img "width" = Ok (VInt wd) -> getitem img "height" = Ok (VInt ht) ->
  0 < wd * ht -> (q1 <= q2)%Q ->
  relative_area (VFloat (Fin q1)) img = Ok (VFloat f1) ->
  relative_area (VFloat (Fin q2)) img = Ok (VFloat f2) ->
  float_le f1 f2 = true.
Proof.
  intros Hw Hh P L.
  rewrite !(relative_area_float_area _ wd ht img Hw Hh).
  unfold int_to_float.
  assert (Pq : (0 < inject_Z (wd * ht))%Q) by (rewrite <- (Zlt_Qlt 0); exact P).
  pose proof (float_le_zero_positive _ Pq) as Z.
  destruct (round (inject_Z (wd * ht))) as [v|s|]; cbn [bind];
    try discriminate.
  cbn [float_le] in Z. apply Qle_bool_iff in Z.
  cbn [fzero]. destruct (qzero v) eqn:Ez; [discriminate|].
  assert (Vp : (0 < v)%Q).
  { apply Qle_lteq in Z. destruct Z as [Z|Z]; [exact Z|].
    unfold qzero in Ez. apply Z.eqb_neq in Ez. exfalso. apply Ez.
    unfold Qeq in Z. cbn in Z. lia. }
  intros H1 H2. inversion H1; inversion H2; subst.
  apply (fmul_100_le (fdiv (Fin q1) (Fin v)) (fdiv (Fin q2) (Fin v))).
  cbn [fdiv]. apply round_le.
  unfold Qdiv. apply Qmult_le_compat_r; [exact L|].
  apply Qinv_le_0_compat. apply Qlt_le_weak. exact Vp.
Qed.

(** X1.  On an image of integer width and height of positive product, the
    relative area the validator computes does not decrease when the area
    grows (two integer areas, or two finite float areas), the two roundings
    of [(area / img_area) * 100] included: an annotation with less area
    than a small object is a small object, and one with more area than a
    large box is large. *)
Theorem X1_relative_area_monotone img wd ht area1 area2 f1 f2 :
  getitem img "width" = Ok (VInt wd) -> getitem img "height" = Ok (VInt ht) ->
  0 < wd * ht -> area_le area1 area2 ->
  relative_area area1 img = Ok (VFloat f1) ->
  relative_area area2 img = Ok (VFloat f2) ->
  float_le f1 f2 = true /\
  (float_lt f2 (Fin 1) = true -> float_lt f1 (Fin 1) = true) /\
  (float_lt (Fin 50) f1 = true -> float_lt (Fin 50) f2 = true).
Proof.
  intros Hw Hh P L H1 H2.
  assert (Le : float_le f1 f2 = true).
  { destruct area1 as [| |a1|[q1| |]| | |], area2 as [| |a2|[q2| |]| | |];
      try contradiction.
    - apply (relative_area_int_le a1 a2 wd ht img); assumption.
    - apply (relative_area_float_le q1 q2 wd ht img); assumption. }
  split; [exact Le|]. split.
  - intros S. apply (float_le_lt_trans f1 f2); assumption.
  - intros S. apply (float_lt_le_trans (Fin 50) f1 f2); assumption.
Qed.

(** ** What the visual validator prints *)

(** What the validator prints on a run that completes. *)
Lemma output_validate_loaded data images annotations categories anns issues
      small cats bg large imgs without :
  dict_get data "images" (VList []) = Ok images ->
  dict_get data "annotations" (VList []) = Ok annotations ->
  dict_get data "categories" (VList []) = Ok categories ->
  py_iter annotations = Ok anns ->
  for_each (check_bbox images) anns [] = Ok issues ->
  for_each (check_small images) anns [] = Ok small ->
  py_iter categories = Ok cats ->
  find_background cats = Ok bg ->
  large_boxes images anns bg = Ok large ->
  py_iter images = Ok imgs ->
  for_each (check_coverage annotations) imgs [] = Ok without ->
  output (validate_loaded data) =
  [Text ""; Text "Dataset Overview:"; Count "Images" (len imgs);
   Count "Annotations" (len anns); Count "Categories" (len cats);
   Heading "Check 1: Bounding Box Validation"; rule;
   Heading "Check 2: Small Object Detection"; rule] ++
  match small with
  | [] => [Text "No unusually small objects found"]
  | _ => FoundSmall (len small) :: Text "Examples:" :: examples small
  end ++
  [Heading "Check 3: Large Background Boxes"; rule] ++
  (if truthy bg then
     match large with
     | [] => [Text "No oversized background boxes found"]
     | _ => FoundLarge (len large) :: examples large
     end
   else []) ++
  [Heading "Check 4: Annotation Coverage"; rule] ++
  match without with
  | [] => [Text "All images have at least one annotation"]
  | _ => [ImagesNoAnnotations (len without)]
  end ++
  [Text ""; rule; Text "VALIDATION SUMMARY"; rule] ++
  (if len issues =? 0 then [Text "No critical issues found!"]
   else FoundIssues (len issues) :: map IssueLine (firstn 5 issues) ++
        (if len issues >? 5 then [MoreIssues (len issues - 5)] else [])).
Proof.
  intros E1 E2 E3 E4 E5 E6 E7 E8 E9 E10 E11.
  unfold validate_loaded.
  out_step. rewrite E1. out_step. rewrite E2. out_step. rewrite E3.
  out_step. out_step. rewrite (py_iter_len _ _ E10).
  out_step. out_step. rewrite (py_iter_len _ _ E4).
  out_step. out_step. rewrite (py_iter_len _ _ E7).
  out_step. out_step. out_step. rewrite E4.
  out_step. rewrite E5.
  out_step. out_step. rewrite E6.
  out_step. out_step. out_step. rewrite E7.
  out_step. rewrite E8.
  out_step.
  unfold large_boxes in E9.
  destruct (truthy bg).
  - out_step. rewrite E9. out_step. cbn [outcome ret snd].
    rewrite outcome_mbind. cbn [outcome lift snd bind].
    rewrite outcome_mbind. cbn [outcome print ret snd bind].
    out_step. out_step. rewrite E10. out_step. rewrite E11.
    out_step. out_step. out_step.
    cbn [app]. rewrite ?app_nil_r, <- ?app_assoc. reflexivity.
  - inversion E9; subst large. cbn [outcome output ret fst snd].
    out_step. out_step. rewrite E10. out_step. rewrite E11.
    out_step. out_step. out_step.
    cbn [app]. rewrite ?app_nil_r, <- ?app_assoc. reflexivity.
Qed.

Lemma printed_issues_lines issues :
  printed_issues (map IssueLine issues) = issues.
Proof.
  induction issues as [|i l IH]; [reflexivity|].
  cbn [map printed_issues flat_map app] in *. f_equal. exact IH.
Qed.

Lemma printed_issues_examples l : printed_issues (examples l) = [].
Proof.
  apply flat_map_none. intros x Hx. unfold examples in Hx.
  apply in_map_iff in Hx. destruct Hx as (e & <- & _). reflexivity.
Qed.

(** X5.  Under the validation summary the validator lists the issues of
    check 1 in the order of the annotations, the first five at most: a
    sixth issue and those after it are replaced by one line that gives
    their number, and an empty list by the line that no critical issue was
    found. *)
Theorem X5_issues_display data s :
  outcome (validate_loaded data) = Ok (Some s) ->
  exists images annotations anns issues,
    dict_get data "images" (VList []) = Ok images /\
    dict_get data "annotations" (VList []) = Ok annotations /\
    py_iter annotations = Ok anns /\
    for_each (check_bbox images) anns [] = Ok issues /\
    critical_issues s = len issues /\
    printed_issues (output (validate_loaded data)) = firstn 5 issues /\
    (forall n, In (MoreIssues n) (output (validate_loaded data)) <->
               5 < critical_issues s /\ n = critical_issues s - 5) /\
    (forall n, In (FoundIssues n) (output (validate_loaded data)) <->
               0 < critical_issues s /\ n = critical_issues s) /\
    (In (Text "No critical issues found!") (output (validate_loaded data)) <->
     critical_issues s = 0).
Proof.
  rewrite outcome_validate_loaded. intros H.
  destruct (checks_run data s H)
    as (images & annotations & categories & anns & issues & small & cats &
        bg & large & imgs & without & E1 & E2 & E3 & E4 & E5 & E6 & E7 & E8 &
        E9 & E10 & E11 & ->).
  exists images, annotations, anns, issues.
  rewrite (output_validate_loaded data images annotations categories anns
             issues small cats bg large imgs without
             E1 E2 E3 E4 E5 E6 E7 E8 E9 E10 E11).
  cbn [critical_issues].
  pose proof (len_nonneg issues) as L0.
  do 5 (split; [assumption || reflexivity|]).
  split; [|split; [|split]].
  - unfold printed_issues. rewrite !flat_map_app.
    fold (printed_issues (match small with
                          | [] => [Text "No unusually small objects found"]
                          | _ => FoundSmall (len small) :: Text "Examples:"
                                   :: examples small
                          end)).
    assert (S : printed_issues
                  match small with
                  | [] => [Text "No unusually small objects found"]
                  | _ => FoundSmall (len small) :: Text "Examples:"
                           :: examples small
                  end = []).
    { destruct small; [reflexivity|]. apply (printed_issues_examples (e :: small)). }
    rewrite S.
    assert (G : flat_map (fun l => match l with
                                   | IssueLine i => [i]
                                   | _ => []
                                   end)
                  (if truthy bg then
                     match large with
                     | [] => [Text "No oversized background boxes found"]
                     | _ => FoundLarge (len large) :: examples large
                     end
                   else []) = []).
    { destruct (truthy bg); [|reflexivity].
      destruct large; [reflexivity|]. apply (printed_issues_examples (e :: large)). }
    rewrite G.
    assert (W : flat_map (fun l => match l with
                                   | IssueLine i => [i]
                                   | _ => []
                                   end)
                  match without with
                  | [] => [Text "All images have at least one annotation"]
                  | _ => [ImagesNoAnnotations (len without)]
                  end = []) by (destruct without; reflexivity).
    rewrite W. unfold rule. cbn [flat_map app].
    destruct (Z.eqb_spec (len issues) 0) as [Z|Z].
    + destruct issues; [reflexivity | unfold len in Z; cbn in Z; lia].
    + cbn [flat_map app]. rewrite flat_map_app.
      fold (printed_issues (map IssueLine (firstn 5 issues))).
      rewrite printed_issues_lines.
      destruct (len issues >? 5); cbn [flat_map app]; rewrite ?app_nil_r;
        reflexivity.
  - intros n. rewrite Z.gtb_ltb. split.
    + intros I. split_in I; try contradiction.
      inversion I; subst. split; [|reflexivity].
      apply Z.ltb_lt. assumption.
    + intros [I ->]. apply Z.ltb_lt in I. rewrite I.
      destruct (Z.eqb_spec (len issues) 0) as [Z|Z]; [lia|].
      destruct small, (truthy bg), large, without; find_in.
  - intros n. split.
    + intros I. split_in I; try contradiction;
        inversion I; subst;
        match goal with
        | E : (_ =? 0) = false |- _ => apply Z.eqb_neq in E
        end; split; [lia | reflexivity].
    + intros [I ->].
      destruct (Z.eqb_spec (len issues) 0) as [Z|Z]; [lia|].
      destruct small, (truthy bg), large, without; find_in.
  - split.
    + intros I. split_in I; try contradiction;
        match goal with
        | E : (_ =? 0) = true |- _ => apply Z.eqb_eq in E; exact E
        end.
    + intros I. rewrite I. cbn [Z.eqb].
      destruct small, (truthy bg), large, without; find_in.
Qed.

Lemma filter_examples l : filter is_example (examples l) = examples l.
Proof.
  unfold examples. induction (firstn 3 l) as [|e r IH]; [reflexivity|].
  cbn [map filter is_example]. f_equal. exact IH.
Qed.

Lemma examples_length l :
  Z.of_nat (List.length (examples l)) = Z.min 3 (len l).
Proof.
  unfold examples, len. rewrite length_map, length_firstn. lia.
Qed.

Ltac len_facts :=
  unfold len in *; cbn [List.length] in *; try lia.

(** X6.  What the visual validator prints agrees with the summary it
    returns: the numbers of images and annotations of the overview, the
    number of small objects, of large background boxes and of images
    without annotations are those of the summary, each finding is
    announced exactly when its count is positive, and at most three
    examples are printed for each of checks 2 and 3. *)
Theorem X6_report_matches_summary data s :
  outcome (validate_loaded data) = Ok (Some s) ->
  In (Count "Images" (total_images s)) (output (validate_loaded data)) /\
  In (Count "Annotations" (total_annotations s))
     (output (validate_loaded data)) /\
  (forall n, In (FoundSmall n) (output (validate_loaded data)) <->
             0 < small_objects s /\ n = small_objects s) /\
  (In (Text "No unusually small objects found")
      (output (validate_loaded data)) <-> small_objects s = 0) /\
  (forall n, In (FoundLarge n) (output (validate_loaded data)) <->
             0 < large_backgrounds s /\ n = large_backgrounds s) /\
  (In (Text "No oversized background boxes found")
      (output (validate_loaded data)) -> large_backgrounds s = 0) /\
  (forall n, In (ImagesNoAnnotations n) (output (validate_loaded data)) <->
             0 < images_without_annotations s /\
             n = images_without_annotations s) /\
  (In (Text "All images have at least one annotation")
      (output (validate_loaded data)) <-> images_without_annotations s = 0) /\
  Z.of_nat (List.length (filter is_example (output (validate_loaded data)))) =
  Z.min 3 (small_objects s) + Z.min 3 (large_backgrounds s).
Proof.
  rewrite outcome_validate_loaded. intros H.
  destruct (checks_run data s H)
    as (images & annotations & categories & anns & issues & small & cats &
        bg & large & imgs & without & E1 & E2 & E3 & E4 & E5 & E6 & E7 & E8 &
        E9 & E10 & E11 & ->).
  rewrite (output_validate_loaded data images annotations categories anns
             issues small cats bg large imgs without
             E1 E2 E3 E4 E5 E6 E7 E8 E9 E10 E11).
  cbn [total_images total_annotations small_objects large_backgrounds
       images_without_annotations].
  assert (Lg : truthy bg = false -> large = []).
  { intros T. unfold large_boxes in E9. rewrite T in E9. inversion E9.
    reflexivity. }
  split; [find_in|]. split; [find_in|].
  split; [|split; [|split; [|split; [|split; [|split]]]]].
  - intros n. split.
    + intros I. split_in I; try contradiction.
      inversion I; subst. len_facts.
    + intros [P ->]. destruct small as [|e small]; [len_facts|]. find_in.
  - split.
    + intros I. split_in I; try contradiction. reflexivity.
    + intros Z. destruct small as [|e small]; [find_in | len_facts].
  - intros n. split.
    + intros I. split_in I; try contradiction.
      inversion I; subst. len_facts.
    + intros [P ->]. destruct (truthy bg) eqn:T.
      * destruct large as [|e large]; [len_facts|].
        destruct small; find_in.
      * rewrite (Lg eq_refl) in P. len_facts.
  - intros I. split_in I; try contradiction. reflexivity.
  - intros n. split.
    + intros I. split_in I; try contradiction.
      inversion I; subst. len_facts.
    + intros [P ->]. destruct without as [|w without]; [len_facts|].
      destruct small, (truthy bg), large; find_in.
  - split.
    + intros I. split_in I; try contradiction. reflexivity.
    + intros Z. destruct without as [|w without]; [|len_facts].
      destruct small, (truthy bg), large; find_in.
  - rewrite !filter_app.
    assert (S : filter is_example
                  match small with
                  | [] => [Text "No unusually small objects found"]
                  | _ => FoundSmall (len small) :: Text "Examples:"
                           :: examples small
                  end = examples small).
    { destruct small; [reflexivity|]. cbn [filter is_example].
      apply filter_examples. }
    assert (G : filter is_example
                  (if truthy bg then
                     match large with
                     | [] => [Text "No oversized background boxes found"]
                     | _ => FoundLarge (len large) :: examples large
                     end
                   else []) = examples large).
    { destruct (truthy bg) eqn:T; [|rewrite (Lg eq_refl); reflexivity].
      destruct large; [reflexivity|]. cbn [filter is_example].
      apply filter_examples. }
    assert (W : filter is_example
                  match without with
                  | [] => [Text "All images have at least one annotation"]
                  | _ => [ImagesNoAnnotations (len without)]
                  end = []) by (destruct without; reflexivity).
    assert (I : filter is_example
                  (if len issues =? 0 then [Text "No critical issues found!"]
                   else FoundIssues (len issues)
                        :: map IssueLine (firstn 5 issues) ++
                           (if len issues >? 5
                            then [MoreIssues (len issues - 5)] else [])) = []).
    { destruct (len issues =? 0); [reflexivity|].
      cbn [filter is_example]. rewrite filter_app.
      assert (M : forall l, filter is_example (map IssueLine l) = []).
      { induction l as [|x l IH']; [reflexivity | exact IH']. }
      rewrite M. destruct (len issues >? 5); reflexivity. }
    rewrite S, G, W, I. unfold rule. cbn [filter is_example app].
    rewrite app_nil_r, length_app, Nat2Z.inj_add, !examples_length.
    reflexivity.
Qed.

End VisualFurther.

(** ** Check 1 as a whole *)

Module BboxFacts.

Import Binary64 Binary64Facts PyFacts VisualFacts LoopFacts VisualFurther.
Import Py Out Visual Spec Report.
Local Open Scope string_scope.
Local Open Scope list_scope.
Local Open Scope Z_scope.
Local Open Scope py_scope.

(** ** The sign of a number *)

Lemma py_lt_zero v : number_ok v = true -> py_lt v (VInt 0) = Ok (below_zero v).
Proof.
  intros H. destruct (number_ok_inv _ H) as [(z & -> & _)|(f & ->)].
  - apply py_lt_ints.
  - rewrite py_lt_float. f_equal. destruct f as [q|s|]; try reflexivity.
    cbn [float_lt below_zero]. unfold Qle_bool. cbn [Qnum Qden inject_Z].
    rewrite Z.mul_1_r, Z.ltb_antisym. reflexivity.
Qed.

Lemma py_le_zero v :
  number_ok v = true -> py_le v (VInt 0) = Ok (at_most_zero v).
Proof.
  intros H. destruct (number_ok_inv _ H) as [(z & -> & _)|(f & ->)].
  - apply py_le_ints.
  - unfold py_le.
    rewrite (py_cmp_num OpLe (VFloat f) (VInt 0) (NFloat f) (NInt 0)
               eq_refl eq_refl).
    f_equal. cbn [num_cmp]. unfold num_le. cbn [num_float].
    destruct f as [q|s|]; try reflexivity.
    cbn [float_le at_most_zero]. unfold Qle_bool. cbn [Qnum Qden inject_Z].
    rewrite Z.mul_1_r. reflexivity.
Qed.

(** ** The lookup of the image *)

Lemma has_id_getitem image_id img i :
  getitem img "id" = Ok i -> has_id image_id img = py_eq i image_id.
Proof.
  intros H. destruct (getitem_inv _ _ _ H) as (d & -> & L).
  cbn [has_id]. rewrite L. reflexivity.
Qed.

(** The lookup returns the first image of the sequence that has the id,
    wherever it stands, and [None] when no image has it. *)
Lemma first_with_id_find imgs image_id :
  (forall p, In p imgs -> exists j, getitem p "id" = Ok j) ->
  first_with_id imgs image_id = Ok (find (has_id image_id) imgs).
Proof.
  induction imgs as [|img rest IH]; intros H; cbn [first_with_id find].
  - reflexivity.
  - destruct (H img (or_introl eq_refl)) as (j & Ej). rewrite Ej. cbn [bind].
    rewrite (has_id_getitem image_id img j Ej).
    destruct (py_eq j image_id); [reflexivity|].
    apply IH. intros p Hp. apply H. right. exact Hp.
Qed.

Lemma find_image_find imgs image_id :
  forallb image_ok imgs = true ->
  find_image (VList imgs) image_id = Ok (find (has_id image_id) imgs).
Proof.
  intros H. unfold find_image. cbn [py_iter bind].
  apply first_with_id_find. intros p Hp. rewrite forallb_forall in H.
  destruct (image_ok_inv _ (H p Hp)) as (i & _ & _ & G & _). eauto.
Qed.

Lemma known_image_find imgs image_id :
  known_image imgs image_id =
  match find (has_id image_id) imgs with
  | Some _ => true
  | None => false
  end.
Proof.
  unfold known_image. induction imgs as [|img rest IH]; [reflexivity|].
  cbn [existsb find]. destruct (has_id image_id img); [reflexivity | exact IH].
Qed.

Lemma known_image_in imgs image_id :
  known_image imgs image_id = true <->
  exists img, In img imgs /\ has_id image_id img = true.
Proof. unfold known_image. apply existsb_exists. Qed.

(** ** The bbox check on four numbers *)

Lemma check_bbox_numbers imgs d x y w h issues :
  forallb image_ok imgs = true ->
  lookup "bbox" d = Some (VList [x; y; w; h]) ->
  number_ok x = true -> number_ok y = true ->
  number_ok w = true -> number_ok h = true ->
  let ann_id := field_or VNone "id" d in
  let image_id := field_or VNone "image_id" d in
  exists out,
    check_bbox (VList imgs) (VDict d) issues =
    Ok (issues ++
        dims_issue (at_most_zero w || at_most_zero h) ann_id w h ++
        match find (has_id image_id) imgs with
        | Some _ =>
            negative_issue (below_zero x || below_zero y) ann_id x y ++
            bounds_issue out ann_id
        | None => []
        end).
Proof.
  intros Hi Hb Hx Hy Hw Hh ann_id image_id.
  destruct (check_bbox_four (VList imgs) d x y w h issues Hi Hb Hx Hy Hw Hh)
    as (bad & r & Eb & Er & R).
  fold ann_id in R. fold image_id in Er.
  rewrite (py_le_zero w Hw), (py_le_zero h Hh), py_or_ok in Eb.
  inversion Eb; subst bad.
  rewrite (find_image_find imgs image_id Hi) in Er. inversion Er; subst r.
  destruct (find (has_id image_id) imgs) as [img|].
  - destruct R as (neg & out & En & R).
    rewrite (py_lt_zero x Hx), (py_lt_zero y Hy), py_or_ok in En.
    inversion En; subst neg. exists out. exact R.
  - exists false. rewrite app_nil_r. exact R.
Qed.

(** ** What one annotation adds *)

Lemma filter_dims_issue (p : issue -> bool) bad ann_id w h :
  p (InvalidBboxDimensions ann_id w h) = false ->
  filter p (dims_issue bad ann_id w h) = [].
Proof. intros H. destruct bad; cbn [dims_issue filter]; rewrite ?H; reflexivity. Qed.

(** The format issue is recorded for a bbox of a length other than 4 and
    for no other, whatever the rest of the check does. *)
Lemma check_bbox_format images ann new :
  check_bbox images ann [] = Ok new -> filter is_format new = format_issues ann.
Proof.
  unfold check_bbox. intros H.
  step H as bbox Hbbox. step H as image_id Hid. step H as ann_id Hann.
  step H as n Hn.
  destruct ann as [| | | | | |d]; try discriminate Hbbox.
  rewrite dict_get_field_or in Hbbox, Hann.
  inversion Hbbox; subst bbox. inversion Hann; subst ann_id.
  cbn [format_issues wrong_length]. rewrite Hn.
  destruct (negb (n =? 4)).
  { inversion H. reflexivity. }
  step H as xywh Hxywh. destruct xywh as [[[x y] w] h].
  step H as bad Hbad. step H as r Hr.
  destruct (resolved r) as [img|].
  - step H as negative Hneg. step H as outside Hout. inversion H.
    destruct bad, negative, outside; reflexivity.
  - inversion H. destruct bad; reflexivity.
Qed.

(** The coordinates issue of an annotation of the data model. *)
Lemma check_bbox_negative imgs ann new :
  forallb image_ok imgs = true -> annotation_ok ann = true ->
  check_bbox (VList imgs) ann [] = Ok new ->
  filter is_negative new = negative_issues imgs ann.
Proof.
  intros Hi Ha H.
  destruct (annotation_ok_inv _ Ha)
    as (d & i & m & c & area & -> & _ & _ & _ & _ & _ & Hb).
  cbn [negative_issues].
  destruct (field_or (VList []) "bbox" d) as [| | | | |l|] eqn:E;
    try discriminate Hb.
  cbn [bbox_ok] in Hb.
  destruct (Nat.eqb_spec (List.length l) 4) as [L|L].
  - destruct l as [|x [|y [|w [|h [|]]]]]; try discriminate L.
    cbn [forallb] in Hb.
    repeat (apply andb_true_iff in Hb; destruct Hb as [? Hb]).
    assert (Lb : lookup "bbox" d = Some (VList [x; y; w; h])).
    { unfold field_or in E. destruct (lookup "bbox" d); [congruence|].
      discriminate E. }
    destruct (check_bbox_numbers imgs d x y w h [] Hi Lb) as (out & R);
      try assumption.
    rewrite R in H. inversion H; subst new. cbn [app].
    rewrite filter_app, filter_dims_issue by reflexivity. cbn [app].
    rewrite known_image_find.
    destruct (find (has_id (field_or VNone "image_id" d)) imgs) as [img|].
    + rewrite andb_true_r.
      destruct (below_zero x || below_zero y), out; reflexivity.
    + rewrite andb_false_r. reflexivity.
  - rewrite (check_bbox_wrong_length (VList imgs) d [] (Z.of_nat (List.length l)))
      in H.
    + inversion H; subst new.
      destruct l as [|x [|y [|w [|h [|]]]]]; try reflexivity.
      exfalso. apply L. reflexivity.
    + rewrite E. reflexivity.
    + lia.
Qed.

(** An issue on the coordinates or the bounds names an annotation whose
    image is known. *)
Lemma check_bbox_bound imgs ann new i :
  check_bbox (VList imgs) ann [] = Ok new ->
  In i new -> image_bound i = true ->
  exists d, ann = VDict d /\ issue_id i = field_or VNone "id" d /\
            known_image imgs (field_or VNone "image_id" d) = true.
Proof.
  unfold check_bbox. intros H Hin Hb.
  step H as bbox Hbbox. step H as image_id Hid. step H as ann_id Hann.
  step H as n Hn.
  destruct ann as [| | | | | |d]; try discriminate Hbbox.
  rewrite dict_get_field_or in Hid, Hann.
  inversion Hid; subst image_id. inversion Hann; subst ann_id.
  exists d. split; [reflexivity|].
  destruct (negb (n =? 4)).
  { inversion H; subst new. destruct Hin as [<-|[]]. discriminate Hb. }
  step H as xywh Hxywh. destruct xywh as [[[x y] w] h].
  step H as bad Hbad. step H as r Hr.
  destruct (resolved r) as [img|] eqn:Res.
  - assert (K : known_image imgs (field_or VNone "image_id" d) = true).
    { destruct r as [img'|]; [|discriminate Res].
      destruct (find_image_some _ _ _ Hr) as (l & Hl & Il & _ & j & Gj & Ej).
      cbn [py_iter] in Hl. inversion Hl; subst l.
      apply known_image_in. exists img'. split; [exact Il|].
      rewrite (has_id_getitem _ _ _ Gj). exact Ej. }
    split; [|exact K].
    step H as negative Hneg. step H as outside Hout. inversion H; subst new.
    destruct bad, negative, outside; cbn [app] in Hin;
      repeat (destruct Hin as [<-|Hin]; [try discriminate Hb; reflexivity|]);
      contradiction.
  - inversion H; subst new.
    destruct bad; cbn in Hin;
      repeat (destruct Hin as [<-|Hin]; [discriminate Hb|]); contradiction.
Qed.

(** ** The loop *)

Section Filtered.

Context {A B : Type} (body : A -> list B -> res (list B)).
Hypothesis body_appends : appends body.

(** What a filter keeps of the list a loop builds, turn by turn. *)
Lemma for_each_filter (keep : B -> bool) (g : A -> list B) (Q : A -> Prop) :
  (forall x new, Q x -> body x [] = Ok new -> filter keep new = g x) ->
  forall l r, (forall x, In x l -> Q x) ->
              for_each body l [] = Ok r -> filter keep r = flat_map g l.
Proof.
  intros Hg l. induction l as [|x l IH]; intros r Hq Hr.
  - inversion Hr. reflexivity.
  - destruct (for_each_cons body body_appends x l r Hr)
      as (n1 & n2 & E1 & E2 & ->).
    rewrite filter_app. cbn [flat_map]. f_equal.
    + apply Hg; [apply Hq; left; reflexivity | exact E1].
    + apply IH; [intros y Hy; apply Hq; right; exact Hy | exact E2].
Qed.

(** An item of the list a loop builds was added in some turn. *)
Lemma for_each_in l r b :
  for_each body l [] = Ok r -> In b r ->
  exists x new, In x l /\ body x [] = Ok new /\ In b new.
Proof.
  revert r. induction l as [|x l IH]; intros r Hr Hb.
  - inversion Hr; subst r. contradiction.
  - destruct (for_each_cons body body_appends x l r Hr)
      as (n1 & n2 & E1 & E2 & ->).
    apply in_app_or in Hb. destruct Hb as [Hb|Hb].
    + exists x, n1. split; [left; reflexivity|]. split; assumption.
    + destruct (IH n2 E2 Hb) as (y & new & Hy & En & Hn).
      exists y, new. split; [right; exact Hy|]. split; assumption.
Qed.

End Filtered.

(** ** What the validator prints of the issues *)

Lemma printed_issues_output data images annotations categories anns issues
      small cats bg large imgs without :
  dict_get data "images" (VList []) = Ok images ->
  dict_get data "annotations" (VList []) = Ok annotations ->
  dict_get data "categories" (VList []) = Ok categories ->
  py_iter annotations = Ok anns ->
  for_each (check_bbox images) anns [] = Ok issues ->
  for_each (check_small images) anns [] = Ok small ->
  py_iter categories = Ok cats ->
  find_background cats = Ok bg ->
  large_boxes images anns bg = Ok large ->
  py_iter images = Ok imgs ->
  for_each (check_coverage annotations) imgs [] = Ok without ->
  printed_issues (output (validate_loaded data)) = firstn 5 issues.
Proof.
  intros E1 E2 E3 E4 E5 E6 E7 E8 E9 E10 E11.
  rewrite (output_validate_loaded data images annotations categories anns
             issues small cats bg large imgs without
             E1 E2 E3 E4 E5 E6 E7 E8 E9 E10 E11).
  unfold printed_issues. rewrite !flat_map_app.
  rewrite (flat_map_none _ (match small with [] => _ | _ => _ end)).
  2:{ intros x I. each_line I. }
  rewrite (flat_map_none _ (if truthy bg then _ else _)).
  2:{ intros x I. each_line I. }
  rewrite (flat_map_none _ (match without with [] => _ | _ => _ end)).
  2:{ intros x I. each_line I. }
  unfold rule. cbn [flat_map app].
  destruct (Z.eqb_spec (len issues) 0) as [Z|Z].
  - destruct issues; [reflexivity | unfold len in Z; cbn in Z; lia].
  - cbn [flat_map app]. rewrite flat_map_app.
    fold (printed_issues (map IssueLine (firstn 5 issues))).
    rewrite printed_issues_lines.
    destruct (len issues >? 5); cbn [flat_map app]; rewrite ?app_nil_r;
      reflexivity.
Qed.

End BboxFacts.

(** ** The issues of check 1 *)

Module BboxProperties.

Import Binary64 Binary64Facts PyFacts VisualFacts LoopFacts VisualFurther.
Import BboxFacts.
Import Py Out Visual Spec Report.
Local Open Scope string_scope.
Local Open Scope list_scope.
Local Open Scope Z_scope.
Local Open Scope py_scope.

(** C5 (amended).  An annotation whose bbox is a sequence of a length other
    than 4 (an absent bbox is the empty list) gets exactly the "invalid bbox
    format" issue in the bbox check; a bbox of 4 components gets none,
    whatever its components and whatever else the check records; in every
    run that returns a summary the format issues are those of the bboxes of
    another length, in the order of the annotations; and on a dataset of
    the data model, whose bboxes may be lists of any other length, the
    validator returns a summary that counts at least one issue for each
    such annotation. *)
Theorem C5_wrong_length_reported :
  (forall images d issues n,
     py_len (field_or (VList []) "bbox" d) = Ok n -> n <> 4 ->
     check_bbox images (VDict d) issues =
     Ok (issues ++ [InvalidBboxFormat (field_or VNone "id" d)])) /\
  (forall images d issues r,
     py_len (field_or (VList []) "bbox" d) = Ok 4 ->
     check_bbox images (VDict d) issues = Ok r ->
     exists new, r = issues ++ new /\ filter is_format new = []) /\
  (forall data s,
     outcome (validate_loaded data) = Ok (Some s) ->
     exists annotations anns issues,
       dict_get data "annotations" (VList []) = Ok annotations /\
       py_iter annotations = Ok anns /\
       critical_issues s = len issues /\
       printed_issues (output (validate_loaded data)) = firstn 5 issues /\
       filter is_format issues = flat_map format_issues anns) /\
  (forall json_file data anns,
     dataset_ok data = true ->
     dict_get data "annotations" (VList []) = Ok (VList anns) ->
     exists s,
       outcome (validate_visual_annotations json_file (Loaded data)) =
       Ok (Some s) /\
       len (filter wrong_length anns) <= critical_issues s).
Proof.
  split; [|split; [|split]].
  - intros images d issues n L N.
    apply (check_bbox_wrong_length images d issues n L N).
  - intros images d issues r L H.
    rewrite (check_bbox_appends images (VDict d) issues) in H.
    step H as new Hnew. inversion H; subst r.
    exists new. split; [reflexivity|].
    rewrite (check_bbox_format images (VDict d) new Hnew).
    cbn [format_issues wrong_length]. rewrite L. reflexivity.
  - intros data s H. rewrite outcome_validate_loaded in H.
    destruct (checks_run data s H)
      as (images & annotations & categories & anns & issues & small & cats &
          bg & large & imgs & without & E1 & E2 & E3 & E4 & E5 & E6 & E7 &
          E8 & E9 & E10 & E11 & ->).
    exists annotations, anns, issues.
    split; [exact E2|]. split; [exact E4|]. split; [reflexivity|]. split.
    + apply (printed_issues_output data images annotations categories anns
               issues small cats bg large imgs without
               E1 E2 E3 E4 E5 E6 E7 E8 E9 E10 E11).
    + apply (for_each_filter (check_bbox images)
               (check_bbox_appends images)
               is_format format_issues (fun _ => True)) with (l := anns);
        [|intros; exact I|exact E5].
      intros x new _ Hn. apply (check_bbox_format images x new Hn).
  - intros json_file data anns Hd Ha.
    rewrite outcome_validate.
    destruct (checks_total data Hd) as (s & Hs). exists s.
    split; [assumption|].
    destruct (checks_run data s Hs)
      as (images & annotations & categories & anns' & issues & small & cats &
          bg & large & imgs & without & E1 & E2 & E3 & E4 & E5 & _ & _ & _ &
          _ & _ & _ & ->).
    rewrite Ha in E2. inversion E2; subst annotations.
    cbn [py_iter] in E4. inversion E4; subst anns'.
    cbn [critical_issues]. unfold len. apply inj_le.
    apply (for_each_count_le (check_bbox images) (check_bbox_appends images)
             wrong_length); [|assumption].
    intros ann new Hn Hw.
    pose proof (check_bbox_format images ann new Hn) as F.
    destruct ann; try discriminate Hw.
    cbn [format_issues] in F. rewrite Hw in F.
    destruct (filter is_format new) eqn:Ef; [discriminate F|].
    assert (In i new).
    { apply (proj1 (filter_In is_format i new)). rewrite Ef. left. reflexivity. }
    destruct new; [contradiction | cbn; lia].
Qed.

(** C6.  For an annotation of the data model whose bbox has [x < 0] or
    [y < 0], the bbox check records the negative-coordinates issue exactly
    when some image of the dataset has the id that is its image_id, and
    the lookup takes the first such image, wherever it stands; when no
    image has it, the check records the issue on the dimensions, if any,
    and no other.
    On a dataset of the data model the validator returns a summary whose
    issues, the first five of which it prints, hold a negative-coordinates
    issue for exactly these annotations, in their order, and every issue
    on coordinates or bounds names an annotation whose image is known. *)
Theorem C6_negative_coordinates :
  (forall imgs d x y w h issues,
     forallb image_ok imgs = true ->
     lookup "bbox" d = Some (VList [x; y; w; h]) ->
     number_ok x = true -> number_ok y = true ->
     number_ok w = true -> number_ok h = true ->
     below_zero x = true \/ below_zero y = true ->
     let ann_id := field_or VNone "id" d in
     let image_id := field_or VNone "image_id" d in
     exists new,
       check_bbox (VList imgs) (VDict d) issues = Ok (issues ++ new) /\
       (In (NegativeCoordinates ann_id x y) new <->
        exists img, In img imgs /\ has_id image_id img = true) /\
       ((forall img, In img imgs -> has_id image_id img = false) ->
        new = dims_issue (at_most_zero w || at_most_zero h) ann_id w h) /\
       find_image (VList imgs) image_id = Ok (find (has_id image_id) imgs)) /\
  (forall data imgs anns,
     dataset_ok data = true ->
     dict_get data "images" (VList []) = Ok (VList imgs) ->
     dict_get data "annotations" (VList []) = Ok (VList anns) ->
     exists s issues,
       outcome (validate_loaded data) = Ok (Some s) /\
       critical_issues s = len issues /\
       printed_issues (output (validate_loaded data)) = firstn 5 issues /\
       filter is_negative issues = flat_map (negative_issues imgs) anns /\
       (forall i, In i issues -> image_bound i = true ->
          exists d, In (VDict d) anns /\
                    issue_id i = field_or VNone "id" d /\
                    known_image imgs (field_or VNone "image_id" d) = true)).
Proof.
  split.
  - intros imgs d x y w h issues Hi Hb Hx Hy Hw Hh Hneg ann_id image_id.
    destruct (check_bbox_numbers imgs d x y w h issues Hi Hb Hx Hy Hw Hh)
      as (out & R).
    fold ann_id image_id in R.
    assert (N : below_zero x || below_zero y = true)
      by (apply orb_true_iff; exact Hneg).
    rewrite N in R.
    pose proof (known_image_find imgs image_id) as K.
    pose proof (known_image_in imgs image_id) as KI.
    eexists. split; [exact R|]. split; [|split].
    + rewrite <- KI, K.
      destruct (find (has_id image_id) imgs) as [img|].
      * split; [reflexivity|]. intros _.
        apply in_or_app. right. left. reflexivity.
      * rewrite app_nil_r. split; [|discriminate].
        intros C. unfold dims_issue in C.
        destruct (at_most_zero w || at_most_zero h);
          [destruct C as [C|[]]; discriminate C | contradiction C].
    + intros U.
      destruct (find (has_id image_id) imgs) as [img|] eqn:F.
      * apply find_some in F. destruct F as [Fi Fh].
        rewrite (U img Fi) in Fh. discriminate Fh.
      * apply app_nil_r.
    + apply find_image_find. exact Hi.
  - intros data imgs anns Hd Ei Ea.
    pose proof Hd as Hd'. unfold dataset_ok in Hd'.
    apply andb_true_iff in Hd'. destruct Hd' as [Hd' _].
    apply andb_true_iff in Hd'. destruct Hd' as [Oi Oa].
    destruct (optional_list _ _ _ Oi) as (imgs' & Ei' & Fi).
    destruct (optional_list _ _ _ Oa) as (anns' & Ea' & Fa).
    rewrite Ei in Ei'. inversion Ei'; subst imgs'.
    rewrite Ea in Ea'. inversion Ea'; subst anns'.
    destruct (checks_total data Hd) as (s & Hs).
    destruct (checks_run data s Hs)
      as (images & annotations & categories & anns' & issues & small & cats &
          bg & large & imgs' & without & E1 & E2 & E3 & E4 & E5 & E6 & E7 &
          E8 & E9 & E10 & E11 & Es).
    exists s, issues. rewrite outcome_validate_loaded.
    split; [exact Hs|]. split; [rewrite Es; reflexivity|]. split.
    { apply (printed_issues_output data images annotations categories anns'
               issues small cats bg large imgs' without
               E1 E2 E3 E4 E5 E6 E7 E8 E9 E10 E11). }
    rewrite Ei in E1. inversion E1; subst images.
    rewrite Ea in E2. inversion E2; subst annotations.
    cbn [py_iter] in E4. inversion E4; subst anns'.
    split.
    + apply (for_each_filter (check_bbox (VList imgs))
               (check_bbox_appends (VList imgs)) is_negative
               (negative_issues imgs) (fun ann => annotation_ok ann = true))
        with (l := anns); [| |exact E5].
      * intros x new Qx Hn. apply (check_bbox_negative imgs x new Fi Qx Hn).
      * intros x Hx. rewrite forallb_forall in Fa. apply Fa. exact Hx.
    + intros i Hin Hb.
      destruct (for_each_in (check_bbox (VList imgs))
                  (check_bbox_appends (VList imgs)) anns issues i E5 Hin)
        as (x & new & Hx & Hn & Hi).
      destruct (check_bbox_bound imgs x new i Hn Hi Hb) as (d & -> & Eid & K).
      exists d. split; [exact Hx|]. split; assumption.
Qed.

End BboxProperties.

(** ** The two thresholds in exact arithmetic *)

Module Thresholds.

Import Binary64 Binary64Facts RoundingOrder PyFacts VisualFacts LoopFacts.
Import VisualProperties VisualFurther BboxFacts.
Import Py Out Visual Spec Report.
Local Open Scope string_scope.
Local Open Scope list_scope.
Local Open Scope Z_scope.
Local Open Scope py_scope.

Lemma below_one_percent_small :
  float_lt (fmul (round below_one_percent) (Fin 100)) (Fin 1) = true.
Proof. vm_compute. reflexivity. Qed.

Lemma above_half_large :
  float_lt (Fin 50) (fmul (round above_half) (Fin 100)) = true.
Proof. vm_compute. reflexivity. Qed.

Lemma ratio_le a p n d :
  0 < p -> a * Z.pos d <= n * p ->
  (Qmake a 1 / Qmake p 1 <= n # d)%Q.
Proof.
  intros P H.
  assert (Pq : (0 < inject_Z p)%Q) by (rewrite <- (Zlt_Qlt 0); exact P).
  change (Qmake a 1) with (inject_Z a). change (Qmake p 1) with (inject_Z p).
  apply Qle_shift_div_r; [exact Pq|].
  unfold Qle, Qmult, inject_Z. cbn [Qnum Qden]. lia.
Qed.

Lemma ratio_ge a p n d :
  0 < p -> n * p <= a * Z.pos d ->
  (n # d <= Qmake a 1 / Qmake p 1)%Q.
Proof.
  intros P H.
  assert (Pq : (0 < inject_Z p)%Q) by (rewrite <- (Zlt_Qlt 0); exact P).
  change (Qmake a 1) with (inject_Z a). change (Qmake p 1) with (inject_Z p).
  apply Qle_shift_div_l; [exact Pq|].
  unfold Qle, Qmult, inject_Z. cbn [Qnum Qden]. lia.
Qed.

(** On an image of at most [2^52] pixels the two roundings of
    [(area / img_area) * 100] do not move an integer area across a
    threshold. *)
Lemma relative_area_thresholds a wd ht img :
  getitem img "width" = Ok (VInt wd) -> getitem img "height" = Ok (VInt ht) ->
  0 < wd * ht <= 2 ^ 52 -> Z.abs a < 2 ^ 511 ->
  exists f,
    relative_area (VInt a) img = Ok (VFloat f) /\
    float_lt f (Fin 1) = (100 * a <? wd * ht) /\
    float_lt (Fin 50) f = (wd * ht <? 2 * a).
Proof.
  intros Hw Hh [P B] Ba.
  rewrite (relative_area_ints a wd ht img Hw Hh) by lia.
  set (p := wd * ht) in *.
  set (r := (Qmake a 1 / Qmake p 1)%Q).
  destruct (round_finite r) as (v & Rv & _).
  { apply Qle_lt_trans with (inject_Z (Z.abs a)).
    - apply Qabs_quotient_le. exact P.
    - apply inject_lt_p2; [lia|].
      assert (2 ^ 511 < 2 ^ 1023) by (apply Z.pow_lt_mono_r; lia). lia. }
  rewrite Rv. eexists. split; [reflexivity|]. rewrite <- Rv.
  split.
  - destruct (Z.ltb_spec (100 * a) p) as [L|L].
    + apply float_le_lt_trans
        with (fmul (round below_one_percent) (Fin 100));
        [|exact below_one_percent_small].
      apply fmul_100_le, round_le. apply ratio_le; [exact P|].
      change (Z.pos (100 * 2 ^ 52)) with (100 * 2 ^ 52).
      change (2 ^ 52) with 4503599627370496 in *. lia.
    + apply float_le_not_lt. rewrite <- one_percent_float.
      apply fmul_100_le, round_le. apply ratio_ge; [exact P|]. lia.
  - destruct (Z.ltb_spec p (2 * a)) as [L|L].
    + apply float_lt_le_trans
        with (fmul (round above_half) (Fin 100));
        [exact above_half_large|].
      apply fmul_100_le, round_le. apply ratio_ge; [exact P|].
      change (Z.pos (2 * 2 ^ 52)) with (2 * 2 ^ 52).
      change (2 ^ 52) with 4503599627370496 in *. lia.
    + apply float_le_not_lt. rewrite <- fifty_percent_float.
      apply fmul_100_le, round_le. apply ratio_le; [exact P|]. lia.
Qed.

(** ** What the two checks collect *)

Lemma pixels_getitem img wd ht :
  getitem img "width" = Ok (VInt wd) -> getitem img "height" = Ok (VInt ht) ->
  pixels img = Some (wd * ht).
Proof.
  intros Hw Hh. destruct (getitem_inv _ _ _ Hw) as (d & -> & Lw).
  destruct (getitem_inv _ _ _ Hh) as (d' & E & Lh). inversion E; subst d'.
  cbn [pixels]. rewrite Lw, Lh. reflexivity.
Qed.

Section Counted.

Context {A B : Type} (body : A -> list B -> res (list B)).
Hypothesis body_appends : appends body.

(** A loop whose body adds one item on a hit and none otherwise, on the
    elements of the list at least, counts the hits. *)
Lemma for_each_hits (hit : A -> bool) l :
  (forall x new, In x l -> body x [] = Ok new ->
                 List.length new = if hit x then 1%nat else 0%nat) ->
  forall r, for_each body l [] = Ok r ->
            List.length r = List.length (filter hit l).
Proof.
  induction l as [|x l IH]; intros Hh r H.
  - inversion H. reflexivity.
  - destruct (for_each_cons body body_appends x l r H)
      as (n1 & n2 & E1 & E2 & ->).
    cbn [filter]. rewrite length_app, (Hh x n1 (or_introl eq_refl) E1).
    rewrite (IH (fun y new Hy => Hh y new (or_intror Hy)) n2 E2).
    destruct (hit x); reflexivity.
Qed.

End Counted.

Section Exact.

Variable imgs : list value.
Hypothesis images_ok : forallb image_ok imgs = true.
Hypothesis images_bounded :
  forall img, In img imgs -> exists p, pixels img = Some p /\ p <= 2 ^ 52.

Lemma area_and_pixels_spec d a m :
  lookup "area" d = Some (VInt a) -> lookup "image_id" d = Some m ->
  match find (has_id m) imgs with
  | Some img =>
      exists wd ht,
        getitem img "width" = Ok (VInt wd) /\
        getitem img "height" = Ok (VInt ht) /\
        0 < wd * ht <= 2 ^ 52 /\
        area_and_pixels imgs (VDict d) = Some (a, wd * ht)
  | None => area_and_pixels imgs (VDict d) = None
  end.
Proof.
  intros La Lm. unfold area_and_pixels. cbn [area_of image_of].
  rewrite La, (field_or_some VNone _ _ _ Lm).
  destruct (find (has_id m) imgs) as [img|] eqn:F; [|reflexivity].
  apply find_some in F. destruct F as [Fi _].
  pose proof images_ok as Hi. rewrite forallb_forall in Hi.
  destruct (image_ok_inv _ (Hi img Fi)) as (i & wd & ht & _ & Gw & Gh & Bw & Bh).
  destruct (images_bounded img Fi) as (p & Ep & Bp).
  rewrite (pixels_getitem img wd ht Gw Gh) in Ep. inversion Ep; subst p.
  exists wd, ht. rewrite (pixels_getitem img wd ht Gw Gh).
  repeat split; try assumption. nia.
Qed.

Lemma check_small_exact ann new a :
  annotation_ok ann = true -> area_of ann = Some a ->
  check_small (VList imgs) ann [] = Ok new ->
  List.length new = if small_exact imgs ann then 1%nat else 0%nat.
Proof.
  intros Ha Hz H.
  destruct (annotation_ok_inv _ Ha)
    as (d & i & m & c & area & -> & Li & Lm & Lc & La & Na & _).
  cbn [area_of] in Hz. rewrite La in Hz.
  destruct area as [| |z| | | |]; try discriminate Hz.
  inversion Hz; subst z.
  assert (Ba : Z.abs a < 2 ^ 511).
  { destruct (number_ok_inv _ Na) as [(z & E & Bz)|(f & E)];
      [inversion E; subst; exact Bz | discriminate E]. }
  pose proof (dict_get_field_or d "area" (VInt 0)) as Ga.
  pose proof (dict_get_field_or d "image_id" VNone) as Gm.
  rewrite (field_or_some _ _ _ _ La) in Ga.
  rewrite (field_or_some _ _ _ _ Lm) in Gm.
  pose proof (find_image_find imgs m images_ok) as Er.
  pose proof (area_and_pixels_spec d a m La Lm) as S.
  unfold small_exact.
  destruct (find (has_id m) imgs) as [img|].
  - destruct S as (wd & ht & Gw & Gh & Bp & ->).
    destruct (relative_area_thresholds a wd ht img Gw Gh Bp Ba)
      as (f & Rf & Sf & _).
    rewrite (check_small_eq (VList imgs) (VDict d) [] (VInt a) m img f
               Ga Gm Er Rf) in H.
    rewrite Sf in H. rewrite (getitem_dict _ _ _ Li) in H. cbn [bind] in H.
    destruct (100 * a <? wd * ht); inversion H; reflexivity.
  - rewrite S.
    rewrite (check_small_unresolved (VList imgs) (VDict d) [] (VInt a) m
               Ga Gm Er) in H.
    inversion H. reflexivity.
Qed.

Lemma check_large_exact bg ann new a :
  annotation_ok ann = true -> area_of ann = Some a ->
  check_large (VList imgs) bg ann [] = Ok new ->
  List.length new = if large_exact imgs bg ann then 1%nat else 0%nat.
Proof.
  intros Ha Hz H.
  destruct (annotation_ok_inv _ Ha)
    as (d & i & m & c & area & -> & Li & Lm & Lc & La & Na & _).
  cbn [area_of] in Hz. rewrite La in Hz.
  destruct area as [| |z| | | |]; try discriminate Hz.
  inversion Hz; subst z.
  assert (Ba : Z.abs a < 2 ^ 511).
  { destruct (number_ok_inv _ Na) as [(z & E & Bz)|(f & E)];
      [inversion E; subst; exact Bz | discriminate E]. }
  pose proof (find_image_find imgs m images_ok) as Er.
  pose proof (area_and_pixels_spec d a m La Lm) as S.
  unfold large_exact. cbn [in_category]. rewrite Lc.
  destruct (py_eq c bg) eqn:E; cbn [andb].
  - destruct (find (has_id m) imgs) as [img|].
    + destruct S as (wd & ht & Gw & Gh & Bp & ->).
      destruct (relative_area_thresholds a wd ht img Gw Gh Bp Ba)
        as (f & Rf & _ & Lf).
      rewrite (check_large_eq (VList imgs) bg (VDict d) [] c (VInt a) m img f
                 (getitem_dict _ _ _ Lc) E (getitem_dict _ _ _ Lm) Er
                 (getitem_dict _ _ _ La) Rf) in H.
      rewrite Lf in H. rewrite (getitem_dict _ _ _ Li) in H. cbn [bind] in H.
      destruct (wd * ht <? 2 * a); inversion H; reflexivity.
    + rewrite S. unfold check_large in H.
      rewrite (getitem_dict _ _ _ Lc) in H. cbn [bind] in H.
      rewrite E, (getitem_dict _ _ _ Lm) in H. cbn [bind] in H.
      rewrite Er in H. cbn [bind] in H.
      rewrite (resolved_find _ _ _ Er) in H. inversion H. reflexivity.
  - unfold check_large in H. rewrite (getitem_dict _ _ _ Lc) in H.
    cbn [bind] in H. rewrite E in H. inversion H. reflexivity.
Qed.

End Exact.

(** X18.  On a dataset of the data model whose areas are integers and
    whose images have at most [2^52] pixels, the two roundings of the
    relative area change no decision: the validator counts as small
    objects exactly the annotations with [100 * area < width * height] on
    the image their image_id resolves to, so that an area of exactly 1% is
    not small; and, when the id of the background category is true as a
    condition, it counts as large backgrounds exactly the annotations of
    that category with [2 * area > width * height], so that an area of
    exactly 50% is not large.  When that id is false as a condition it
    counts none. *)
Theorem X18_exact_thresholds data imgs anns cats :
  dataset_ok data = true ->
  dict_get data "images" (VList []) = Ok (VList imgs) ->
  dict_get data "annotations" (VList []) = Ok (VList anns) ->
  dict_get data "categories" (VList []) = Ok (VList cats) ->
  (forall ann, In ann anns -> exists a, area_of ann = Some a) ->
  (forall img, In img imgs -> exists p, pixels img = Some p /\ p <= 2 ^ 52) ->
  exists s bg,
    outcome (validate_loaded data) = Ok (Some s) /\
    find_background cats = Ok bg /\
    small_objects s = len (filter (small_exact imgs) anns) /\
    large_backgrounds s =
      (if truthy bg then len (filter (large_exact imgs bg) anns) else 0).
Proof.
  intros Hd Ei Ea Ec Hz Hp.
  pose proof Hd as Hd'. unfold dataset_ok in Hd'.
  apply andb_true_iff in Hd'. destruct Hd' as [Hd' _].
  apply andb_true_iff in Hd'. destruct Hd' as [Oi Oa].
  destruct (optional_list _ _ _ Oi) as (imgs' & Ei' & Fi).
  destruct (optional_list _ _ _ Oa) as (anns' & Ea' & Fa).
  rewrite Ei in Ei'. inversion Ei'; subst imgs'.
  rewrite Ea in Ea'. inversion Ea'; subst anns'.
  rewrite forallb_forall in Fa.
  destruct (checks_total data Hd) as (s & Hs).
  destruct (checks_run data s Hs)
    as (images & annotations & categories & anns' & issues & small & cats' &
        bg & large & imgs' & without & E1 & E2 & E3 & E4 & E5 & E6 & E7 &
        E8 & E9 & E10 & E11 & Es).
  rewrite Ei in E1. inversion E1; subst images.
  rewrite Ea in E2. inversion E2; subst annotations.
  rewrite Ec in E3. inversion E3; subst categories.
  cbn [py_iter] in E4, E7. inversion E4; subst anns'. inversion E7; subst cats'.
  exists s, bg. rewrite outcome_validate_loaded.
  split; [exact Hs|]. split; [exact E8|]. subst s.
  cbn [small_objects large_backgrounds]. unfold len. split.
  - f_equal.
    apply (@for_each_hits _ _ (check_small (VList imgs))
             (check_small_appends (VList imgs)) (small_exact imgs) anns);
      [|exact E6].
    intros x new Hx Hn. destruct (Hz x Hx) as (a & Hxa).
    apply (check_small_exact imgs Fi Hp x new a (Fa x Hx) Hxa Hn).
  - unfold large_boxes in E9. destruct (truthy bg).
    + f_equal.
      apply (@for_each_hits _ _ (check_large (VList imgs) bg)
               (check_large_appends (VList imgs) bg) (large_exact imgs bg)
               anns); [|exact E9].
      intros x new Hx Hn. destruct (Hz x Hx) as (a & Hxa).
      apply (check_large_exact imgs Fi Hp bg x new a (Fa x Hx) Hxa Hn).
    + inversion E9. reflexivity.
Qed.

End Thresholds.

(** ** Further properties of the text validator *)

Module TextFurther.

Import Binary64 Binary64Facts RoundingOrder PyFacts VisualFacts PandasFacts.
Import TextFacts LoopFacts.
Import Py Pandas Out Text Spec Report.
Local Open Scope string_scope.
Local Open Scope list_scope.
Local Open Scope Z_scope.
Local Open Scope py_scope.

Arguments round : simpl never.

Arguments round : simpl never.

(** What the text validator prints: the overview and checks 1 and 2, then
    check 3 when there is an intent column, then check 4 when there is a
    confidence column. *)
Lemma output_text df :
  exists tail,
  output (validate_loaded df) =
  [Text ""; Text "Dataset Overview:"; Count "Total annotations" (nrows df);
   Heading "Check 1: Required Columns"; rule] ++
  match missing_cols df with
  | [] => [Text "All required columns present"]
  | missing => [MissingColumns missing]
  end ++
  [Heading "Check 2: Empty Values"; rule] ++
  (if series_sum (map snd (isnull_sum df)) >? 0 then
     Text "Found empty values:" ::
     map (fun cn => EmptyColumn (fst cn) (snd cn))
         (filter (fun cn => snd cn >? 0) (isnull_sum df))
   else [Text "No empty values found"]) ++
  [Heading "Check 3: Intent Distribution"; rule] ++ tail /\
  tail =
  match column df "intent" with
  | Ok intents =>
      [Count "Intents found" (Z.of_nat (List.length (value_counts intents)))] ++
      group_lines (value_counts intents) (nrows df) ++
      (if imbalanced (value_counts intents)
       then [ClassImbalance (imbalance_ratio (value_counts intents))]
       else [Text "Balanced distribution"]) ++
      [Heading "Check 4: Confidence Levels"; rule] ++
      match column df "confidence" with
      | Ok confidences =>
          group_lines (value_counts confidences) (nrows df) ++
          match too_many_low (count_if (equals_text "low") confidences)
                             (nrows df) with
          | Ok true =>
              [HighLowConfidence (count_if (equals_text "low") confidences)]
          | _ => []
          end
      | _ => []
      end
  | _ => []
  end.
Proof.
  eexists. split; [|reflexivity].
  unfold validate_loaded.
  do 6 out_step.
  destruct (column df "intent") as [intents| |] eqn:Hc; cbn [output fst app];
    rewrite ?app_nil_r; try reflexivity.
  pose proof (counts_in_range intents (nrows df)
                (column_length df "intent" intents Hc)) as Ri.
  do 2 out_step.
  rewrite output_mbind, (print_groups_lines _ _ Ri).
  cbn [outcome output fst snd].
  do 3 out_step.
  destruct (column df "confidence") as [confs| |] eqn:Hf; cbn [output fst app];
    rewrite ?app_nil_r; try reflexivity.
  pose proof (counts_in_range confs (nrows df)
                (column_length df "confidence" confs Hf)) as Rc.
  rewrite output_mbind, (print_groups_lines _ _ Rc).
  cbn [outcome output fst snd]. out_step.
  destruct (too_many_low _ _) as [[|]| |]; cbn [output fst app];
    repeat out_step; cbn [app]; rewrite ?app_nil_r; reflexivity.
Qed.

(** ** Empty values *)

Lemma count_if_bounds {A} (p : A -> bool) l :
  0 <= count_if p l <= Z.of_nat (List.length l).
Proof.
  unfold count_if. pose proof (filter_length_le p l). lia.
Qed.

Lemma null_counts_columns i cols rs :
  map fst (null_counts_from i cols rs) = cols.
Proof.
  revert i. induction cols as [|c cols IH]; intros i; [reflexivity|].
  cbn [null_counts_from map fst]. f_equal. apply IH.
Qed.

Lemma null_counts_bounds i cols rs :
  forall cn, In cn (null_counts_from i cols rs) ->
             0 <= snd cn <= Z.of_nat (List.length rs).
Proof.
  revert i. induction cols as [|c cols IH]; intros i cn H; [contradiction|].
  destruct H as [<-|H]; [|apply (IH (S i) cn H)].
  cbn [snd]. pose proof (count_if_bounds is_null (map (field i) rs)) as B.
  rewrite length_map in B. exact B.
Qed.

Lemma sum_positive_part (l : list (string * Z)) :
  (forall cn, In cn l -> 0 <= snd cn) ->
  series_sum (map snd (filter (fun cn => snd cn >? 0) l)) =
  series_sum (map snd l) /\ 0 <= series_sum (map snd l).
Proof.
  induction l as [|[c n] l IH]; intros H; [cbn; lia|].
  destruct IH as [IH P]; [intros cn I; apply H; right; exact I|].
  pose proof (H (c, n) (or_introl eq_refl)) as N. cbn [snd] in N.
  cbn [filter snd]. rewrite Z.gtb_ltb.
  destruct (Z.ltb_spec 0 n); cbn [map snd series_sum fold_right] in *;
    unfold series_sum in *; lia.
Qed.

Lemma no_positive_part (l : list (string * Z)) :
  (forall cn, In cn l -> 0 <= snd cn) ->
  series_sum (map snd l) <= 0 ->
  filter (fun cn => snd cn >? 0) l = [].
Proof.
  induction l as [|[c n] l IH]; intros H S; [reflexivity|].
  pose proof (H (c, n) (or_introl eq_refl)) as N. cbn [snd] in N.
  assert (Hl : forall cn, In cn l -> 0 <= snd cn)
    by (intros cn I; apply H; right; exact I).
  destruct (sum_positive_part l Hl) as [_ P].
  cbn [map snd series_sum fold_right] in S. unfold series_sum in P.
  cbn [filter snd]. rewrite Z.gtb_ltb.
  destruct (Z.ltb_spec 0 n); [lia|]. apply IH; [exact Hl|].
  unfold series_sum. lia.
Qed.

Lemma printed_empty_columns l :
  printed_empty (map (fun cn => EmptyColumn (fst cn) (snd cn)) l) = l.
Proof.
  induction l as [|[c n] l IH]; [reflexivity|].
  cbn [map printed_empty flat_map app fst snd] in *. f_equal. exact IH.
Qed.

(** X10.  The empty-value check examines every column of the file, not
    only the four required ones: it lists, in the order of the header, the
    columns that have a missing value with the number of them, the numbers
    listed add up to the [empty_values] of the summary, and the line that
    no empty value was found is printed exactly when no column is listed. *)
Theorem X10_empty_values_report df :
  map fst (isnull_sum df) = columns df /\
  printed_empty (output (validate_loaded df)) =
    filter (fun cn => snd cn >? 0) (isnull_sum df) /\
  (forall s, outcome (validate_loaded df) = Ok (Some s) ->
     empty_values s =
     series_sum (map snd (printed_empty (output (validate_loaded df))))) /\
  (In (Text "No empty values found") (output (validate_loaded df)) <->
   printed_empty (output (validate_loaded df)) = []).
Proof.
  assert (N : forall cn, In cn (isnull_sum df) -> 0 <= snd cn).
  { intros cn I. apply (null_counts_bounds O (columns df) (rows df) cn I). }
  destruct (sum_positive_part (isnull_sum df) N) as [Sp S0].
  destruct (output_text df) as (tail & Eo & Et).
  assert (T : forall x, In x tail ->
                match x with
                | EmptyColumn _ _ | Text "No empty values found" => False
                | _ => True
                end).
  { intros x I. subst tail. each_line I; exact Logic.I. }
  assert (P : printed_empty (output (validate_loaded df)) =
              filter (fun cn => snd cn >? 0) (isnull_sum df)).
  { rewrite Eo. unfold printed_empty. rewrite !flat_map_app.
    rewrite (flat_map_none _ tail).
    2:{ intros x I. specialize (T x I). destruct x; try reflexivity.
        contradiction. }
    assert (E : flat_map (fun l => match l with
                                   | EmptyColumn c n => [(c, n)]
                                   | _ => []
                                   end)
            (if series_sum (map snd (isnull_sum df)) >? 0
             then Text "Found empty values:"
                  :: map (fun cn => EmptyColumn (fst cn) (snd cn))
                       (filter (fun cn => snd cn >? 0) (isnull_sum df))
             else [Text "No empty values found"]) =
            filter (fun cn => snd cn >? 0) (isnull_sum df)).
    { rewrite Z.gtb_ltb.
      destruct (Z.ltb_spec 0 (series_sum (map snd (isnull_sum df)))).
      - apply (printed_empty_columns
                 (filter (fun cn => snd cn >? 0) (isnull_sum df))).
      - rewrite (no_positive_part _ N) by lia. reflexivity. }
    rewrite E. unfold rule.
    destruct (missing_cols df); cbn [flat_map app]; rewrite app_nil_r;
      reflexivity. }
  split; [apply null_counts_columns|]. split; [exact P|]. split.
  - intros s Hs. rewrite TextProperties.outcome_text in Hs.
    apply bind_ok in Hs. destruct Hs as (intents & _ & Hs).
    apply bind_ok in Hs. destruct Hs as (confs & _ & Hs).
    apply bind_ok in Hs. destruct Hs as (flag & _ & Hs).
    inversion Hs. cbn [empty_values]. rewrite P, Sp. reflexivity.
  - rewrite P. rewrite Eo. split.
    + intros I. rewrite Z.gtb_ltb in I.
      destruct (Z.ltb_spec 0 (series_sum (map snd (isnull_sum df)))) as [G|G].
      * exfalso. split_in I; try contradiction.
        apply (T _ I).
      * apply no_positive_part; [exact N | lia].
    + intros E. rewrite Z.gtb_ltb.
      destruct (Z.ltb_spec 0 (series_sum (map snd (isnull_sum df)))) as [G|G].
      * rewrite <- Sp, E in G. cbn in G. lia.
      * destruct (missing_cols df); find_in.
Qed.


(** ** The low-confidence flag *)

(** The double [0.1]. *)
Lemma tenth_value : tenth = Fin (3602879701896397 # 36028797018963968).
Proof. vm_compute. reflexivity. Qed.

(** [low > total * 0.1] on a count of at most [total <= 2^51] rows. *)
Lemma too_many_low_spec low n :
  0 <= low <= n -> n <= 2 ^ 51 ->
  too_many_low low n = Ok (n <? 10 * low).
Proof.
  intros [L0 Ln] Hn.
  unfold too_many_low, py_mul. cbn [as_num]. unfold num_mul.
  cbn [to_float bind]. unfold int_to_float.
  rewrite (round_int_exact n) by lia. cbn [bind of_num].
  rewrite tenth_value. cbn [fmul].
  unfold py_gt.
  rewrite (py_cmp_num OpGt (VInt low) (VFloat _) (NInt low) (NFloat _)
             eq_refl eq_refl).
  cbn [num_cmp]. unfold num_lt. cbn [num_float]. f_equal.
  assert (N0 : (0 <= inject_Z n)%Q) by (rewrite <- (Zle_Qle 0); lia).
  assert (N1 : (inject_Z n <= 2251799813685248)%Q).
  { change 2251799813685248%Q with (inject_Z (2 ^ 51)). rewrite <- Zle_Qle.
    exact Hn. }
  destruct (Z.ltb_spec n (10 * low)) as [F|F].
  - assert (A : (inject_Z (n + 1) <= inject_Z (10 * low))%Q)
      by (rewrite <- Zle_Qle; lia).
    rewrite inject_Z_plus, inject_Z_mult in A.
    change (inject_Z 1) with 1%Q in A. change (inject_Z 10) with 10%Q in A.
    assert (P1 : (1 <= inject_Z n)%Q)
      by (change 1%Q with (inject_Z 1); rewrite <- Zle_Qle; lia).
    destruct (round_ratio
                (inject_Z n * (3602879701896397 # 36028797018963968)))
      as (v & -> & _ & U); [lra | lra |].
    cbn [float_lt]. apply negb_true_iff.
    destruct (Qle_bool (inject_Z low) v) eqn:E; [|reflexivity].
    apply Qle_bool_iff in E. lra.
  - apply float_le_not_lt.
    rewrite <- (round_int_exact low) by lia.
    apply round_le.
    assert (A : (inject_Z (10 * low) <= inject_Z n)%Q)
      by (rewrite <- Zle_Qle; lia).
    rewrite inject_Z_mult in A. change (inject_Z 10) with 10%Q in A.
    lra.
Qed.

(** X11.  With at most [2^51] rows, the text validator reports a high
    number of low-confidence annotations exactly when the rows whose
    confidence is the text [low] are more than a tenth of all rows, the
    rounding of [len(df) * 0.1] notwithstanding: exactly one row in ten
    is not reported. *)
Theorem X11_low_confidence_flag df intents confidences :
  column df "intent" = Ok intents ->
  column df "confidence" = Ok confidences ->
  nrows df <= 2 ^ 51 ->
  let low := count_if (equals_text "low") confidences in
  0 <= low <= nrows df /\
  too_many_low low (nrows df) = Ok (nrows df <? 10 * low) /\
  (forall n, In (HighLowConfidence n) (output (validate_loaded df)) <->
             nrows df < 10 * low /\ n = low) /\
  exists s, outcome (validate_loaded df) = Ok (Some s) /\
            low_confidence_count s = low.
Proof.
  intros Hi Hc Hn low.
  assert (B : 0 <= low <= nrows df).
  { unfold low. rewrite <- (column_length df "confidence" confidences Hc).
    apply count_if_bounds. }
  pose proof (too_many_low_spec low (nrows df) B Hn) as T.
  split; [exact B|]. split; [exact T|]. split.
  - intros n. destruct (output_text df) as (tail & -> & ->).
    rewrite Hi, Hc. fold low. rewrite T.
    destruct (Z.ltb_spec (nrows df) (10 * low)) as [F|F]; split.
    + intros I. split_in I; try contradiction.
      all: inversion I; subst; split; [assumption | reflexivity].
    + intros [_ ->].
      destruct (missing_cols df), (series_sum _ >? 0), (imbalanced _); find_in.
    + intros I. split_in I; try contradiction.
    + intros [C _]. lia.
  - rewrite TextProperties.outcome_text, Hi, Hc. cbn [bind]. fold low.
    rewrite T. cbn [bind]. eexists. split; reflexivity.
Qed.

(** ** The imbalance ratio *)

Lemma tally_fold_nil col t :
  forallb is_null col = true ->
  fold_left (fun t c => match c with
                        | Some v => tally_add v t
                        | None => t
                        end) col t = t.
Proof.
  revert t. induction col as [|c col IH]; intros t H; cbn [fold_left].
  - reflexivity.
  - cbn [forallb] in H. apply andb_true_iff in H. destruct H as [Hc H].
    destruct c; [discriminate|]. apply IH. exact H.
Qed.

Lemma value_counts_all_null col :
  forallb is_null col = true -> value_counts col = [].
Proof.
  intros H. unfold value_counts, tally. rewrite (tally_fold_nil col [] H).
  reflexivity.
Qed.

(** X12.  The ratio [max_count / min_count] never divides by zero.  A
    group has at least one row, so that with at most [2^51] rows the ratio
    of a column with a value is a finite number of at least 1; a column
    with no value at all (a record set without rows included) has no group,
    its ratio is NaN, which is not above 3, and it is reported as balanced
    with zero unique intents. *)
Theorem X12_imbalance_ratio_defined df intents :
  column df "intent" = Ok intents ->
  nrows df <= 2 ^ 51 ->
  let counts := value_counts intents in
  (forallb is_null intents = true ->
   counts = [] /\ imbalance_ratio counts = NaN /\
   In (Text "Balanced distribution") (output (validate_loaded df)) /\
   forall s, outcome (validate_loaded df) = Ok (Some s) ->
             unique_intents s = 0) /\
  (existsb (fun c => negb (is_null c)) intents = true ->
   (forall g, In g counts -> 1 <= snd g) /\
   exists v, imbalance_ratio counts = Fin v /\ (1 <= v)%Q).
Proof.
  intros Hc Hn counts. split.
  - intros Hnull.
    assert (E : counts = []) by (apply value_counts_all_null; exact Hnull).
    split; [exact E|]. split; [rewrite E; reflexivity|]. split.
    + destruct (output_text df) as (tail & -> & ->).
      rewrite Hc. fold counts. rewrite E.
      change (imbalanced []) with false. cbv iota.
      destruct (missing_cols df), (series_sum _ >? 0); find_in.
    + intros s Hs. rewrite TextProperties.outcome_text, Hc in Hs.
      cbn [bind] in Hs. fold counts in Hs. rewrite E in Hs.
      apply bind_ok in Hs. destruct Hs as (confs & _ & Hs).
      apply bind_ok in Hs. destruct Hs as (flag & _ & Hs).
      inversion Hs. reflexivity.
  - intros He.
    pose proof (value_counts_nonempty intents He) as NE. fold counts in NE.
    assert (NE' : map snd counts <> []).
    { destruct counts; [contradiction | discriminate]. }
    destruct (series_max_spec _ NE') as (mx & Emx & Imx & Umx).
    destruct (series_min_spec _ NE') as (mn & Emn & Imn & Lmn).
    destruct (value_counts_spec intents) as [S P]. fold counts in S, P.
    pose proof (non_null_le intents) as NL.
    rewrite (column_length df "intent" intents Hc) in NL.
    apply in_map_iff in Imx. destruct Imx as (gx & Egx & Igx).
    apply in_map_iff in Imn. destruct Imn as (gn & Egn & Ign).
    pose proof (positive_counts_le_sum _ P gx Igx) as Bx.
    pose proof (positive_counts_le_sum _ P gn Ign) as Bn.
    assert (Mx : mn <= mx) by (apply Umx; rewrite <- Egn; apply in_map; exact Ign).
    split.
    + intros g Hg. apply (positive_counts_le_sum _ P g Hg).
    + unfold imbalance_ratio. rewrite Emx, Emn.
      rewrite (np_truediv_counts mx mn) by lia.
      assert (Q1 : (1 <= inject_Z mx / inject_Z mn)%Q).
      { apply Qle_shift_div_l.
        - rewrite <- (Zlt_Qlt 0). lia.
        - rewrite Qmult_1_l. rewrite <- Zle_Qle. exact Mx. }
      pose proof (round_le _ _ Q1) as R. rewrite round_one in R.
      destruct (imbalance_threshold mx mn) as (v & Ev & _); try lia.
      rewrite (np_truediv_counts mx mn) in Ev by lia.
      rewrite Ev in *. exists v. split; [reflexivity|].
      cbn [float_le] in R. apply Qle_bool_iff in R. exact R.
Qed.

(** ** Percentages and missing values *)

(** X16.  With at least one row and fewer than [2^53], the percentages
    printed for the groups of a column add up, within the tolerance, to the
    share of the rows that have a value in that column: to 100 when no
    value is missing, and to less when some are, since [value_counts]
    leaves the missing values out and [len(df)] counts their rows. *)
Theorem X16_percentages_sum_to_share df name col :
  column df name = Ok col ->
  0 < nrows df < 2 ^ 53 ->
  exists qs : list Q,
    map (fun g => percentage (snd g) (nrows df)) (value_counts col) =
    map (fun q => Ok (VFloat (Fin q))) qs /\
    (Qabs (qsum qs - inject_Z (non_null col) * (100 / inject_Z (nrows df))) <=
     tolerance)%Q /\
    0 <= non_null col <= nrows df.
Proof.
  intros Hc Ht.
  pose proof (column_length df name col Hc) as Hlen.
  destruct (value_counts_spec col) as [S P].
  pose proof (counts_in_range col (nrows df) Hlen) as R.
  pose proof (non_null_le col) as NL. rewrite Hlen in NL.
  assert (N0 : 0 <= non_null col) by (unfold non_null; apply count_if_bounds).
  destruct (percentages_sum (nrows df) (map snd (value_counts col)))
    as (qs & E & B).
  - lia.
  - intros c Hi. apply in_map_iff in Hi. destruct Hi as (g & <- & Hg). auto.
  - exists qs. split; [|split; [|lia]].
    + transitivity (map (fun g => Ok (VFloat (pct (snd g) (nrows df))))
                        (value_counts col)).
      * apply map_ext_in. intros g Hg. apply percentage_pct. auto.
      * rewrite map_map in E.
        rewrite <- (map_map Fin (fun f => Ok (VFloat f))), <- E, map_map.
        reflexivity.
    + fold (counts_sum (value_counts col)) in B. rewrite S in B.
      set (W := (100 / inject_Z (nrows df))%Q) in *.
      assert (Nq : (0 < inject_Z (nrows df))%Q)
        by (rewrite <- (Zlt_Qlt 0); lia).
      assert (W0 : (0 <= W)%Q).
      { unfold W. apply Qle_shift_div_l; [exact Nq|]. lra. }
      assert (Wn : (inject_Z (nrows df) * W == 100)%Q).
      { unfold W. field. intro C. rewrite C in Nq. apply (Qlt_irrefl 0 Nq). }
      assert (K : (inject_Z (non_null col) * W <= 100)%Q).
      { rewrite <- Wn. apply Qmult_le_compat_r; [|exact W0].
        rewrite <- Zle_Qle. exact NL. }
      assert (K0 : (0 <= inject_Z (non_null col) * W)%Q).
      { apply Qmult_le_0_compat; [|exact W0]. rewrite <- (Zle_Qle 0). exact N0. }
      pose proof pct_error_small as T.
      assert (PE : (0 <= pct_error)%Q) by (vm_compute; discriminate).
      apply Qle_trans with (inject_Z (non_null col) * W * pct_error)%Q;
        [exact B|].
      apply Qle_trans with (100 * pct_error)%Q; [|exact T].
      apply Qmult_le_compat_r; assumption.
Qed.

(** ** The load and the summary *)

Lemma outcome_text_loaded csv_file df :
  outcome (validate_text_annotations csv_file (Loaded df)) =
  outcome (validate_loaded df).
Proof.
  unfold validate_text_annotations. rewrite outcome_mbind.
  cbn [outcome print snd bind]. reflexivity.
Qed.

Lemma output_text_loaded csv_file df :
  output (validate_text_annotations csv_file (Loaded df)) =
  [Text ""; rule; Text "TEXT ANNOTATION VALIDATION"; rule] ++
  output (validate_loaded df).
Proof.
  unfold validate_text_annotations. rewrite output_mbind.
  cbn [outcome output print fst snd]. reflexivity.
Qed.

(** X13.  The outcome of the text validator, case by case.  It returns
    [None], after printing the reason, exactly when the load raised
    ImportError (at the import of pandas or inside [read_csv]) or
    FileNotFoundError; any other exception of the load propagates.  A
    record set that loads, of fewer than [2^1023] rows, gets a summary
    exactly when it has both the intent and the confidence column;
    otherwise the validator raises KeyError on the first of the two that
    is absent, after it has printed the required columns that are
    missing. *)
Theorem X13_text_outcomes csv_file :
  (forall src,
     outcome (validate_text_annotations csv_file src) = Ok None <->
     src = NoPandas \/ src = NotFound) /\
  In (Text "Error: pandas not installed. Run: pip install pandas")
     (output (validate_text_annotations csv_file NoPandas)) /\
  In (ErrFileNotFound csv_file)
     (output (validate_text_annotations csv_file NotFound)) /\
  (forall name,
     outcome (validate_text_annotations csv_file (LoadFails name)) =
     Raise (LoadError name)) /\
  (forall df,
     nrows df < 2 ^ 1023 ->
     ((exists s, outcome (validate_text_annotations csv_file (Loaded df)) =
                 Ok (Some s)) <->
      has_column df "intent" = true /\ has_column df "confidence" = true) /\
     (has_column df "intent" = false ->
      outcome (validate_text_annotations csv_file (Loaded df)) =
      Raise (KeyError "intent")) /\
     (has_column df "intent" = true -> has_column df "confidence" = false ->
      outcome (validate_text_annotations csv_file (Loaded df)) =
      Raise (KeyError "confidence")) /\
     (missing_cols df <> [] ->
      In (MissingColumns (missing_cols df))
         (output (validate_text_annotations csv_file (Loaded df))))).
Proof.
  split; [|split; [|split; [|split]]].
  - intros src. split.
    + intros H. destruct src as [| |name|df]; auto.
      * discriminate H.
      * exfalso. rewrite outcome_text_loaded, TextProperties.outcome_text in H.
        apply bind_ok in H. destruct H as (intents & _ & H).
        apply bind_ok in H. destruct H as (confs & _ & H).
        apply bind_ok in H. destruct H as (flag & _ & H).
        discriminate H.
    + intros [->| ->]; reflexivity.
  - cbn. auto 8.
  - cbn. auto 8.
  - reflexivity.
  - intros df Hn. rewrite outcome_text_loaded.
    destruct (TextProperties.missing_column_fatal df) as (Fi & Fc & Fs).
    split; [|split; [|split]].
    + split.
      * intros (s & Hs).
        destruct (has_column df "intent") eqn:Ei.
        -- destruct (has_column df "confidence") eqn:Ec; [auto|].
           rewrite (Fc eq_refl eq_refl) in Hs. discriminate Hs.
        -- rewrite (Fi eq_refl) in Hs. discriminate Hs.
      * intros [Ei Ec]. apply Fs; assumption.
    + exact Fi.
    + exact Fc.
    + intros M. rewrite output_text_loaded.
      destruct (output_text df) as (tail & -> & _).
      destruct (missing_cols df) as [|c l]; [contradiction M; reflexivity|].
      find_in.
Qed.

Lemma positive_counts_length t :
  positive_counts t -> Z.of_nat (List.length t) <= counts_sum t.
Proof.
  unfold positive_counts, counts_sum, series_sum.
  induction 1 as [|g t Hg Ht IH]; [cbn; lia|].
  cbn [List.length map fold_right]. lia.
Qed.

Lemma null_counts_sum_le i cols rs :
  series_sum (map snd (null_counts_from i cols rs)) <=
  Z.of_nat (List.length rs) * Z.of_nat (List.length cols).
Proof.
  revert i. induction cols as [|c cols IH]; intros i.
  - cbn. lia.
  - cbn [null_counts_from map snd series_sum fold_right List.length].
    pose proof (count_if_bounds is_null (map (field i) rs)) as B.
    rewrite length_map in B. specialize (IH (S i)).
    unfold series_sum in IH. lia.
Qed.

(** X15.  In every summary the text validator returns, the total is the
    number of rows, the unique intents and the low-confidence rows are
    each between 0 and the total, the empty values are at most one per
    cell of the frame, and the number of unique intents is the one printed
    under check 3. *)
Theorem X15_text_summary_bounds df s :
  outcome (validate_loaded df) = Ok (Some s) ->
  total_annotations s = nrows df /\
  0 <= unique_intents s <= total_annotations s /\
  0 <= low_confidence_count s <= total_annotations s /\
  0 <= empty_values s <=
    total_annotations s * Z.of_nat (List.length (columns df)) /\
  In (Count "Intents found" (unique_intents s)) (output (validate_loaded df)).
Proof.
  intros H. pose proof H as H'. rewrite TextProperties.outcome_text in H.
  apply bind_ok in H. destruct H as (intents & Hi & H).
  apply bind_ok in H. destruct H as (confs & Hc & H).
  apply bind_ok in H. destruct H as (flag & Hf & H).
  inversion H; subst s.
  cbn [total_annotations unique_intents low_confidence_count empty_values].
  split; [reflexivity|]. split; [|split; [|split]].
  - destruct (value_counts_spec intents) as [S P].
    pose proof (positive_counts_length _ P) as L.
    pose proof (non_null_le intents) as NL.
    rewrite (column_length df "intent" intents Hi) in NL. lia.
  - rewrite <- (column_length df "confidence" confs Hc).
    apply count_if_bounds.
  - split.
    + apply sum_positive_part. intros cn I.
      apply (null_counts_bounds O (columns df) (rows df) cn I).
    + apply (null_counts_sum_le O (columns df) (rows df)).
  - destruct (output_text df) as (tail & -> & ->). rewrite Hi.
    destruct (missing_cols df), (series_sum _ >? 0); find_in.
Qed.

End TextFurther.

(** ** The distributions of the text validator *)

Module Distributions.

Import Binary64 Binary64Facts RoundingOrder PyFacts VisualFacts PandasFacts.
Import TextFacts LoopFacts TextFurther.
Import Py Pandas Out Text Spec Report.
Local Open Scope string_scope.
Local Open Scope list_scope.
Local Open Scope Z_scope.

(** ** Equality of parsed fields *)

Lemma scalar_eqb_refl v : scalar_eqb v v = true.
Proof.
  destruct v as [s|q|b]; cbn [scalar_eqb].
  - apply String.eqb_refl.
  - apply Qeq_bool_iff. reflexivity.
  - apply Bool.eqb_reflx.
Qed.

Lemma scalar_eqb_sym u v : scalar_eqb u v = scalar_eqb v u.
Proof.
  destruct u as [s|q|b], v as [t|r|c]; cbn [scalar_eqb]; try reflexivity.
  - apply String.eqb_sym.
  - destruct (Qeq_bool q r) eqn:E, (Qeq_bool r q) eqn:F; try reflexivity.
    + apply Qeq_bool_iff in E. symmetry in E. apply Qeq_bool_iff in E. congruence.
    + apply Qeq_bool_iff in F. symmetry in F. apply Qeq_bool_iff in F. congruence.
  - destruct b, c; reflexivity.
Qed.

Lemma scalar_eqb_trans u v w :
  scalar_eqb u v = true -> scalar_eqb v w = true -> scalar_eqb u w = true.
Proof.
  destruct u as [s|q|b], v as [t|r|c], w as [x|y|z]; cbn [scalar_eqb];
    try discriminate.
  - intros E F. apply String.eqb_eq in E, F. subst. apply String.eqb_refl.
  - intros E F. apply Qeq_bool_iff in E, F. apply Qeq_bool_iff.
    transitivity r; assumption.
  - intros E F. apply Bool.eqb_prop in E, F. subst. apply Bool.eqb_reflx.
Qed.

(** Equal values are held by the same cells and have the same groups. *)
Lemma scalar_eqb_left u v w :
  scalar_eqb u v = true -> scalar_eqb u w = scalar_eqb v w.
Proof.
  intros E. destruct (scalar_eqb v w) eqn:F.
  - apply (scalar_eqb_trans u v w); assumption.
  - destruct (scalar_eqb u w) eqn:G; [|reflexivity].
    rewrite scalar_eqb_sym in E.
    rewrite (scalar_eqb_trans v u w E G) in F. discriminate.
Qed.

(** ** The tally *)

Lemma count_if_app {A} (p : A -> bool) l x :
  count_if p (l ++ [x]) = count_if p l + (if p x then 1 else 0).
Proof.
  unfold count_if. rewrite filter_app, length_app. cbn [filter].
  destruct (p x); cbn [List.length]; lia.
Qed.

Lemma count_if_none {A} (p : A -> bool) l :
  (forall x, In x l -> p x = false) -> count_if p l = 0.
Proof.
  intros H. unfold count_if.
  induction l as [|x l IH]; [reflexivity|].
  cbn [filter]. rewrite (H x (or_introl eq_refl)).
  apply IH. intros y Hy. apply H. right. exact Hy.
Qed.

(** A value without a group starts one. *)
Lemma tally_add_new v t :
  groups_of v t = [] -> tally_add v t = t ++ [(v, 1)].
Proof.
  unfold groups_of. induction t as [|[u n] t IH]; intros H; [reflexivity|].
  cbn [filter fst] in H. cbn [tally_add].
  destruct (scalar_eqb u v); [discriminate|].
  cbn [app]. rewrite (IH H). reflexivity.
Qed.

(** A value with a group adds one to the first of them. *)
Lemma tally_add_old v t :
  groups_of v t <> [] ->
  exists pre u n post,
    t = pre ++ (u, n) :: post /\ scalar_eqb u v = true /\
    groups_of v pre = [] /\
    tally_add v t = pre ++ (u, n + 1) :: post.
Proof.
  unfold groups_of. induction t as [|[u n] t IH]; intros H; [contradiction|].
  cbn [filter fst] in H. cbn [tally_add].
  destruct (scalar_eqb u v) eqn:E.
  - exists [], u, n, t. repeat split; assumption.
  - destruct (IH H) as (pre & u' & n' & post & -> & E' & P & T).
    exists ((u, n) :: pre), u', n', post.
    split; [reflexivity|]. split; [assumption|]. split.
    + cbn [filter fst]. rewrite E. exact P.
    + rewrite T. reflexivity.
Qed.

Lemma groups_of_app v l1 l2 :
  groups_of v (l1 ++ l2) = groups_of v l1 ++ groups_of v l2.
Proof. apply filter_app. Qed.

Lemma groups_of_nil v l :
  groups_of v l = [] <-> forall g, In g l -> scalar_eqb (fst g) v = false.
Proof.
  unfold groups_of. split.
  - intros H g Hg. destruct (scalar_eqb (fst g) v) eqn:E; [|reflexivity].
    assert (I : In g (filter (fun g => scalar_eqb (fst g) v) l))
      by (apply filter_In; split; assumption).
    rewrite H in I. contradiction.
  - intros H. induction l as [|g l IH]; [reflexivity|].
    cbn [filter]. rewrite (H g (or_introl eq_refl)).
    apply IH. intros h Hh. apply H. right. exact Hh.
Qed.

(** What the tally is after the cells [seen]: its groups have distinct
    values, each has the number of cells that hold its value, at least one,
    and every value seen has its group. *)

Lemma holds_sym v u : holds v (Some u) = scalar_eqb v u.
Proof. cbn [holds]. apply scalar_eqb_sym. Qed.

Lemma counts_of_none seen t : counts_of seen t -> counts_of (seen ++ [None]) t.
Proof.
  intros (D & C & E). split; [exact D|]. split.
  - intros g Hg. destruct (C g Hg) as [P Q]. split; [exact P|].
    rewrite count_if_app. cbn [holds]. lia.
  - intros u Hu. apply in_app_or in Hu. destruct Hu as [Hu|[Hu|[]]].
    + apply E. exact Hu.
    + discriminate Hu.
Qed.

Lemma counts_of_new seen t v :
  counts_of seen t -> groups_of v t = [] ->
  counts_of (seen ++ [Some v]) (t ++ [(v, 1)]).
Proof.
  intros (D & C & E) G.
  pose proof (proj1 (groups_of_nil v t) G) as G'.
  split; [|split].
  - intros w. rewrite groups_of_app, length_app.
    unfold groups_of at 2. cbn [filter fst].
    destruct (scalar_eqb v w) eqn:Evw; cbn [List.length].
    + assert (N : groups_of w t = []).
      { apply groups_of_nil. intros g Hg.
        rewrite <- (G' g Hg). symmetry.
        rewrite (scalar_eqb_sym (fst g) v), (scalar_eqb_sym (fst g) w).
        apply scalar_eqb_left. exact Evw. }
      rewrite N. cbn. lia.
    + pose proof (D w). lia.
  - intros g Hg. apply in_app_or in Hg. destruct Hg as [Hg|[<-|[]]].
    + destruct (C g Hg) as [P Q]. split; [exact P|].
      rewrite count_if_app, holds_sym, (G' g Hg). lia.
    + cbn [fst snd]. split; [lia|].
      rewrite count_if_app, holds_sym, scalar_eqb_refl.
      rewrite count_if_none; [reflexivity|].
      intros c Hc. destruct c as [u|]; [|reflexivity].
      cbn [holds]. destruct (scalar_eqb u v) eqn:Euv; [|reflexivity].
      destruct (E u Hc) as (g & Hg & Eg).
      pose proof (G' g Hg) as Gg.
      rewrite (scalar_eqb_trans (fst g) u v Eg Euv) in Gg.
      discriminate Gg.
  - intros u Hu. apply in_app_or in Hu. destruct Hu as [Hu|[Hu|[]]].
    + destruct (E u Hu) as (g & Hg & Eg). exists g.
      split; [apply in_or_app; left; exact Hg | exact Eg].
    + inversion Hu; subst u. exists (v, 1).
      split; [apply in_or_app; right; left; reflexivity|].
      apply scalar_eqb_refl.
Qed.

Lemma counts_of_old seen pre u n post v :
  counts_of seen (pre ++ (u, n) :: post) ->
  scalar_eqb u v = true -> groups_of v pre = [] ->
  counts_of (seen ++ [Some v]) (pre ++ (u, n + 1) :: post).
Proof.
  intros (D & C & E) Euv P.
  pose proof (proj1 (groups_of_nil v pre) P) as P'.
  assert (Post : forall g, In g post -> scalar_eqb (fst g) v = false).
  { intros g Hg. destruct (scalar_eqb (fst g) v) eqn:Eg; [|reflexivity].
    exfalso. pose proof (D v) as Dv.
    rewrite groups_of_app, P in Dv. unfold groups_of in Dv.
    cbn [filter fst app] in Dv. rewrite Euv in Dv. cbn [List.length] in Dv.
    assert (I : In g (filter (fun g => scalar_eqb (fst g) v) post))
      by (apply filter_In; split; assumption).
    destruct (filter (fun g => scalar_eqb (fst g) v) post); [contradiction|].
    cbn [List.length] in Dv. lia. }
  split; [|split].
  - intros w. pose proof (D w) as Dw.
    rewrite groups_of_app in *. unfold groups_of at 2 in Dw.
    unfold groups_of at 2. cbn [filter fst] in *.
    destruct (scalar_eqb u w); [|exact Dw].
    rewrite length_app in *. cbn [List.length] in *. exact Dw.
  - intros g Hg. apply in_app_or in Hg. destruct Hg as [Hg|[<-|Hg]].
    + destruct (C g) as [Q R]; [apply in_or_app; left; exact Hg|].
      split; [exact Q|].
      rewrite count_if_app, holds_sym, (P' g Hg). lia.
    + destruct (C (u, n)) as [Q R]; [apply in_or_app; right; left; reflexivity|].
      cbn [fst snd] in *. split; [lia|].
      rewrite count_if_app, holds_sym, Euv. lia.
    + destruct (C g) as [Q R]; [apply in_or_app; right; right; exact Hg|].
      split; [exact Q|].
      rewrite count_if_app, holds_sym, (Post g Hg). lia.
  - intros u' Hu. apply in_app_or in Hu. destruct Hu as [Hu|[Hu|[]]].
    + destruct (E u' Hu) as (g & Hg & Eg).
      apply in_app_or in Hg. destruct Hg as [Hg|[<-|Hg]].
      * exists g. split; [apply in_or_app; left; exact Hg | exact Eg].
      * exists (u, n + 1).
        split; [apply in_or_app; right; left; reflexivity | exact Eg].
      * exists g. split; [apply in_or_app; right; right; exact Hg | exact Eg].
    + inversion Hu; subst u'. exists (u, n + 1).
      split; [apply in_or_app; right; left; reflexivity | exact Euv].
Qed.

Lemma counts_of_some seen t v :
  counts_of seen t -> counts_of (seen ++ [Some v]) (tally_add v t).
Proof.
  intros T. destruct (groups_of v t) as [|g gs] eqn:G.
  - rewrite (tally_add_new v t G). apply counts_of_new; assumption.
  - destruct (tally_add_old v t) as (pre & u & n & post & -> & Euv & P & ->).
    { rewrite G. discriminate. }
    apply counts_of_old; assumption.
Qed.

Lemma counts_of_fold col : forall seen t,
  counts_of seen t ->
  counts_of (seen ++ col)
          (fold_left (fun t c => match c with
                                 | Some v => tally_add v t
                                 | None => t
                                 end) col t).
Proof.
  induction col as [|c col IH]; intros seen t T; cbn [fold_left].
  - rewrite app_nil_r. exact T.
  - replace (seen ++ c :: col) with ((seen ++ [c]) ++ col)
      by (rewrite <- app_assoc; reflexivity).
    apply IH. destruct c as [v|];
      [apply counts_of_some | apply counts_of_none]; exact T.
Qed.

(** The tally of a column. *)
Lemma tally_counts_of col : counts_of col (tally col).
Proof.
  apply (@counts_of_fold col [] []). split; [|split].
  - intros v. cbn. lia.
  - intros g [].
  - intros u [].
Qed.

(** ** The order of the groups *)

Lemma insert_desc_in x l g : In g (insert_desc x l) <-> g = x \/ In g l.
Proof.
  induction l as [|y l IH]; cbn [insert_desc In].
  - split; intros [H|[]]; auto.
  - destruct (snd y <? snd x); cbn [In]; rewrite ?IH; intuition auto.
Qed.

Lemma insert_desc_groups v x l :
  List.length (groups_of v (insert_desc x l)) =
  List.length (groups_of v (x :: l)).
Proof.
  unfold groups_of. induction l as [|y l IH]; [reflexivity|].
  cbn [insert_desc]. destruct (snd y <? snd x); [reflexivity|].
  cbn [filter] in *.
  destruct (scalar_eqb (fst y) v), (scalar_eqb (fst x) v);
    cbn [List.length] in *; lia.
Qed.

Lemma insert_desc_descending x l :
  descending l = true -> descending (insert_desc x l) = true.
Proof.
  induction l as [|y l IH]; intros H; [reflexivity|].
  cbn [insert_desc]. destruct (Z.ltb_spec (snd y) (snd x)) as [L|L].
  - cbn [descending]. cbn [descending] in H. rewrite H.
    rewrite andb_true_r. apply Z.leb_le. lia.
  - cbn [descending] in H.
    assert (Hl : descending l = true).
    { destruct l as [|z l]; [reflexivity|].
      apply andb_true_iff in H. tauto. }
    specialize (IH Hl). cbn [descending].
    destruct l as [|z l].
    + cbn [insert_desc]. rewrite andb_true_r. apply Z.leb_le. exact L.
    + cbn [insert_desc] in *. apply andb_true_iff in H. destruct H as [Hz _].
      destruct (snd z <? snd x).
      * apply andb_true_iff. split; [apply Z.leb_le; exact L | exact IH].
      * apply andb_true_iff. split; [exact Hz | exact IH].
Qed.

Lemma sort_desc_fold l : forall acc,
  descending acc = true ->
  let r := fold_left (fun acc x => insert_desc x acc) l acc in
  descending r = true /\
  (forall g, In g r <-> In g acc \/ In g l) /\
  (forall v, List.length (groups_of v r) =
             (List.length (groups_of v acc) + List.length (groups_of v l))%nat).
Proof.
  induction l as [|x l IH]; intros acc H; cbn [fold_left].
  - split; [exact H|]. split.
    + intros g. split; [auto | intros [I|[]]; exact I].
    + intros v. cbn. lia.
  - destruct (IH (insert_desc x acc) (insert_desc_descending x acc H))
      as (S & I & G).
    split; [exact S|]. split.
    + intros g. rewrite I, insert_desc_in. cbn [In]. intuition auto.
    + intros v. rewrite G, insert_desc_groups. unfold groups_of.
      cbn [filter]. destruct (scalar_eqb (fst x) v); cbn [List.length]; lia.
Qed.

(** The groups of [value_counts]: by decreasing count, with distinct
    values, each with the number of cells that hold its value, and one for
    every value of the column. *)
Lemma value_counts_distribution col : distribution_of col (value_counts col).
Proof.
  destruct (tally_counts_of col) as (D & C & E).
  destruct (sort_desc_fold (tally col) [] eq_refl) as (S & I & G).
  cbv zeta in S, I, G. fold (sort_desc (tally col)) in S, I, G.
  fold (value_counts col) in S, I, G.
  split; [exact S|]. split; [|split].
  - intros v. rewrite G. cbn. apply D.
  - intros g Hg. apply C. apply I in Hg. destruct Hg as [[]|Hg]. exact Hg.
  - intros u Hu. destruct (E u Hu) as (g & Hg & Eg). exists g.
    split; [apply I; right; exact Hg | exact Eg].
Qed.

Lemma printed_group_lines counts total :
  printed_groups (group_lines counts total) = counts.
Proof.
  unfold printed_groups, group_lines.
  induction counts as [|[v n] counts IH]; [reflexivity|].
  cbn [map flat_map app fst snd]. f_equal. exact IH.
Qed.

(** X17.  With an intent and a confidence column, the group lines printed
    are the distribution of the intents followed by the distribution of
    the confidence levels: each value that occurs has one line, with the
    number of rows that hold it, the largest count first, and missing
    values have no line.  The number printed as intents found, and
    returned as [unique_intents], is the number of intent lines. *)
Theorem X17_distribution_lines df intents confidences :
  column df "intent" = Ok intents ->
  column df "confidence" = Ok confidences ->
  exists ic cc,
    printed_groups (output (validate_loaded df)) = ic ++ cc /\
    distribution_of intents ic /\
    distribution_of confidences cc /\
    In (Count "Intents found" (Z.of_nat (List.length ic)))
       (output (validate_loaded df)) /\
    (forall s, outcome (validate_loaded df) = Ok (Some s) ->
               unique_intents s = Z.of_nat (List.length ic)).
Proof.
  intros Hi Hc.
  exists (value_counts intents), (value_counts confidences).
  destruct (output_text df) as (tail & Eo & Et). rewrite Hi, Hc in Et.
  split; [|split; [|split; [|split]]].
  - rewrite Eo, Et. unfold printed_groups. rewrite !flat_map_app.
    fold (printed_groups (group_lines (value_counts intents) (nrows df))).
    fold (printed_groups (group_lines (value_counts confidences) (nrows df))).
    rewrite !printed_group_lines.
    rewrite (flat_map_none _ (if series_sum _ >? 0 then _ else _)).
    2:{ intros x I. destruct (series_sum _ >? 0).
        - destruct I as [<-|I]; [reflexivity|].
          apply in_map_iff in I. destruct I as (cn & <- & _). reflexivity.
        - destruct I as [<-|[]]. reflexivity. }
    unfold rule.
    destruct (missing_cols df), (imbalanced _), (too_many_low _ _) as [[|]| |];
      cbn [flat_map app]; rewrite ?app_nil_r; reflexivity.
  - apply value_counts_distribution.
  - apply value_counts_distribution.
  - rewrite Eo, Et.
    destruct (missing_cols df), (series_sum _ >? 0); find_in.
  - intros s H. rewrite TextProperties.outcome_text in H.
    rewrite Hi in H. cbn [bind] in H. rewrite Hc in H. cbn [bind] in H.
    apply bind_ok in H. destruct H as (flag & _ & H).
    inversion H; subst s. reflexivity.
Qed.

End Distributions.

(** ** The script *)

Module ScriptProperties.

Import Binary64 PyFacts VisualFacts PandasFacts TextFacts LoopFacts.
Import Py Pandas Out Spec Script Report.
Local Open Scope string_scope.
Local Open Scope list_scope.
Local Open Scope Z_scope.

Local Notation "'quiet' m" :=
  (forall l, In l (Out.output m) -> in_report l = false)
  (at level 10, m at level 9).

Lemma quiet_mbind {A B} (m : Out.M A) (k : A -> Out.M B) :
  quiet m -> (forall a, quiet (k a)) -> quiet (Out.mbind m k).
Proof.
  intros Hm Hk l I. rewrite output_mbind in I.
  apply in_app_or in I. destruct I as [I|I]; [apply Hm; exact I|].
  destruct (Out.outcome m); [apply (Hk a); exact I | contradiction I..].
Qed.

Lemma quiet_lift {A} (r : res A) : quiet (Out.lift r).
Proof. intros l I. contradiction I. Qed.

Lemma quiet_ret {A} (a : A) : quiet (Out.ret a).
Proof. intros l I. contradiction I. Qed.

Ltac quiet_steps :=
  repeat first
    [ apply quiet_lift
    | apply quiet_ret
    | apply quiet_mbind; [|intros ?]
    | match goal with
      | |- forall l, In l (Out.output (Out.print _)) -> _ =>
          cbn [Out.output Out.print fst]; intros ? ?I;
          match goal with I : In _ _ |- _ => each_line I end
      | |- forall l, In l (Out.output (if ?b then _ else _)) -> _ => destruct b
      end ].

(** The visual validator prints no line of the final report. *)
Lemma quiet_visual json_file src :
  quiet (Visual.validate_visual_annotations json_file src).
Proof.
  unfold Visual.validate_visual_annotations.
  apply quiet_mbind; [cbn [Out.output Out.print fst]; intros l I; each_line I|].
  intros _.
  destruct src; [quiet_steps..|].
  unfold Visual.validate_loaded. quiet_steps.
Qed.

Lemma quiet_groups counts total : quiet (Text.print_groups counts total).
Proof.
  induction counts as [|g counts IH]; cbn [Text.print_groups].
  - apply quiet_ret.
  - quiet_steps. exact IH.
Qed.

(** Nor does the text validator. *)
Lemma quiet_text csv_file src :
  quiet (Text.validate_text_annotations csv_file src).
Proof.
  unfold Text.validate_text_annotations.
  apply quiet_mbind; [cbn [Out.output Out.print fst]; intros l I; each_line I|].
  intros _.
  destruct src; [quiet_steps..|].
  unfold Text.validate_loaded.
  quiet_steps; try apply quiet_groups.
Qed.

(** The text validator evaluates nothing that is left unmodelled. *)
Lemma text_modelled csv_file src :
  Out.outcome (Text.validate_text_annotations csv_file src) <> Unmodelled.
Proof.
  unfold Text.validate_text_annotations.
  rewrite outcome_mbind. cbn [Out.outcome Out.print snd bind].
  destruct src; try discriminate.
  rewrite TextProperties.outcome_text.
  unfold column.
  destruct (index_of "intent" (columns df)); cbn [bind]; try discriminate.
  destruct (index_of "confidence" (columns df)); cbn [bind]; try discriminate.
  unfold Text.too_many_low, py_mul, num_mul. cbn [as_num to_float bind].
  unfold int_to_float.
  destruct (round (inject_Z (nrows df))); cbn [bind of_num]; discriminate.
Qed.

Lemma filter_quiet o :
  (forall l, In l o -> in_report l = false) ->
  filter is_report (map Line o) = [].
Proof.
  induction o as [|l o IH]; intros H; [reflexivity|].
  cbn [map filter is_report]. rewrite (H l (or_introl eq_refl)).
  apply IH. intros x Hx. apply H. right. exact Hx.
Qed.

Lemma filter_visual_report r :
  filter is_report (visual_report r) = visual_report r.
Proof. destruct r; reflexivity. Qed.

Lemma filter_text_report r : filter is_report (text_report r) = text_report r.
Proof. destruct r; reflexivity. Qed.

Ltac report_in H :=
  repeat match type of H with
  | In _ (_ ++ _) => apply in_app_or in H; destruct H as [H|H]
  | In _ (_ :: _) => destruct H as [H|H]; [try discriminate H|]
  | In _ [] => contradiction H
  | In _ (map _ _) =>
      apply in_map_iff in H; destruct H as (? & H & _); discriminate H
  | In _ (visual_report ?r) => destruct r; cbn [visual_report map] in H
  | In _ (text_report ?r) => destruct r; cbn [text_report map] in H
  end.

(** X14.  The script lets no exception of a validator escape, and a
    validator that raises does not keep the other from running: all that
    either validator printed is in the output, the message of a failure is
    printed exactly for the validator that raised, and the final report
    holds the counts of exactly the validators that returned a summary. *)
Theorem X14_main_isolates_failures visual_src text_src :
  let v := Visual.validate_visual_annotations visual_file visual_src in
  let t := Text.validate_text_annotations text_file text_src in
  (forall e, result (main visual_src text_src) <> Raise e) /\
  (Out.outcome v <> Unmodelled ->
   result (main visual_src text_src) = Ok tt /\
   (forall l, In l (Out.output v) \/ In l (Out.output t) ->
              In (Line l) (printed (main visual_src text_src))) /\
   (forall e, In (VisualFailed e) (printed (main visual_src text_src)) <->
              Out.outcome v = Raise e) /\
   (forall e, In (TextFailed e) (printed (main visual_src text_src)) <->
              Out.outcome t = Raise e) /\
   filter is_report (printed (main visual_src text_src)) =
   visual_report (returned v) ++ text_report (returned t)).
Proof.
  intros v t.
  pose proof (text_modelled text_file text_src) as Tm. fold t in Tm.
  pose proof (quiet_visual visual_file visual_src) as Qv. fold v in Qv.
  pose proof (quiet_text text_file text_src) as Qt. fold t in Qt.
  unfold main. fold v t. clearbody v t.
  destruct v as [ov [rv|ev|]], t as [ot [rt|et|]];
    cbn [Out.outcome Out.output fst snd] in *;
    try (exfalso; apply Tm; reflexivity);
    (split; [intros e; cbn; discriminate|]);
    try (intros C; exfalso; apply C; reflexivity);
    intros _; cbn [and_then emit attempt result printed fst snd app returned
                   Out.outcome];
    (split; [reflexivity|]);
    (split; [intros l [I|I]; apply (in_map Line) in I;
             repeat rewrite in_app_iff; auto 10|]).
  all: split; [|split].
  all: try (intros e; split;
            [ intros I; unfold opening, closing, farewell in I;
              cbn [map app] in I; report_in I; try contradiction;
              try (inversion I; reflexivity)
            | intros E; inversion E; subst; find_in ]).
  all: unfold opening, closing, farewell; cbn [map].
  all: rewrite ?filter_app, ?filter_visual_report, ?filter_text_report,
         ?(filter_quiet ov Qv), ?(filter_quiet ot Qt);
       cbn [filter is_report in_report existsb String.eqb Ascii.eqb Bool.eqb
            orb app];
       rewrite ?app_nil_r; reflexivity.
Qed.

End ScriptProperties.

(** ** The further properties on the samples *)

Module FurtherCases.

Import Binary64 VisualFurther BboxProperties Thresholds TextFurther.
Import Distributions ScriptProperties.
Import Py Pandas Out Spec Report Examples Samples.
Local Open Scope string_scope.
Local Open Scope list_scope.
Local Open Scope Z_scope.

(** Half a percent and one percent of the image of 100 by 100. *)
Lemma X1_witness :
  Visual.relative_area (VInt 50) img_100 = Ok (VFloat (Fin (1 # 2))) /\
  Visual.relative_area (VInt 100) img_100 = Ok (VFloat (Fin 1)) /\
  float_le (Fin (1 # 2)) (Fin 1) = true.
Proof.
  assert (R1 : Visual.relative_area (VInt 50) img_100 =
               Ok (VFloat (Fin (1 # 2)))) by (vm_compute; reflexivity).
  assert (R2 : Visual.relative_area (VInt 100) img_100 = Ok (VFloat (Fin 1)))
    by (vm_compute; reflexivity).
  split; [exact R1|]. split; [exact R2|].
  destruct (X1_relative_area_monotone img_100 100 100 (VInt 50) (VInt 100)
              (Fin (1 # 2)) (Fin 1)) as (L & _);
    try reflexivity; try assumption.
  cbn [area_le]. lia.
Defined.

(** The box that ends at 105 on an image of width 100. *)
Lemma X2_witness :
  exists new,
    Visual.check_bbox (VList [img_100]) (VDict fields_outside) [] =
      Ok ([] ++ new) /\
    In (BboxExceedsBounds (VInt 2)) new.
Proof.
  destruct (X2_integer_box_issues (VList [img_100]) fields_outside 95 95 10 10
              img_100 100 100 [])
    as (new & E & _ & B & _); try reflexivity.
  exists new. split; [exact E|]. apply B. left. lia.
Defined.

(** A box without width. *)
Lemma X3_witness :
  list_of image_ok (VList [img_100]) = true /\
  exists new,
    Visual.check_bbox (VList [img_100]) (VDict fields_flat) [] =
      Ok ([] ++ new) /\
    filter is_dimensions new =
      [InvalidBboxDimensions (VInt 7) (VInt 0) (VInt 5)].
Proof.
  split; [vm_compute; reflexivity|].
  destruct (X3_dimension_issue_once (VList [img_100]) fields_flat
              (VInt 10) (VInt 10) (VInt 0) (VInt 5) [])
    as (bad & new & E & F & B); try reflexivity.
  exists new. split; [exact E|].
  assert (T : bad = true) by (apply B; left; reflexivity).
  rewrite T in F. exact F.
Defined.

Lemma X4_witness :
  exists s,
    outcome (Visual.validate_loaded data_coverage) = Ok (Some s) /\
    0 <= Visual.critical_issues s <= 3 * Visual.total_annotations s.
Proof.
  assert (R : exists s,
             outcome (Visual.validate_loaded data_coverage) = Ok (Some s))
    by (eexists; vm_compute; reflexivity).
  destruct R as (s & Hs). exists s. split; [exact Hs|].
  apply (X4_summary_bounds data_coverage s Hs).
Defined.

(** Six issues: five are listed, and one more is announced. *)
Lemma X5_witness :
  exists s,
    outcome (Visual.validate_loaded data_six_issues) = Ok (Some s) /\
    Visual.critical_issues s = 6 /\
    In (MoreIssues 1) (output (Visual.validate_loaded data_six_issues)).
Proof.
  assert (R : exists s,
             outcome (Visual.validate_loaded data_six_issues) = Ok (Some s) /\
             Visual.critical_issues s = 6)
    by (eexists; split; [vm_compute; reflexivity | reflexivity]).
  destruct R as (s & Hs & C). exists s. split; [exact Hs|]. split; [exact C|].
  destruct (X5_issues_display data_six_issues s Hs)
    as (images & annotations & anns & issues & _ & _ & _ & _ & _ & _ & M & _).
  apply M. rewrite C. split; [lia | reflexivity].
Defined.

Lemma X6_witness :
  exists s,
    outcome (Visual.validate_loaded data_no_area) = Ok (Some s) /\
    In (FoundSmall 1) (output (Visual.validate_loaded data_no_area)).
Proof.
  assert (R : exists s,
             outcome (Visual.validate_loaded data_no_area) = Ok (Some s) /\
             Visual.small_objects s = 1)
    by (eexists; split; [vm_compute; reflexivity | reflexivity]).
  destruct R as (s & Hs & C). exists s. split; [exact Hs|].
  destruct (X6_report_matches_summary data_no_area s Hs) as (_ & _ & S & _).
  apply S. rewrite C. split; [lia | reflexivity].
Defined.

(** An annotation of 0.01% of an image that is not in the dataset. *)
Lemma X7_witness :
  exists s,
    outcome (Visual.validate_loaded data_unresolved) = Ok (Some s) /\
    Visual.small_objects s = 0.
Proof.
  assert (R : exists s,
             outcome (Visual.validate_loaded data_unresolved) = Ok (Some s))
    by (eexists; vm_compute; reflexivity).
  destruct R as (s & Hs). exists s. split; [exact Hs|].
  destruct (X7_unresolved_annotations_skipped data_unresolved s
              (VList [img_100]) (VList [VDict fields_unresolved])
              [VDict fields_unresolved])
    as (S & _); try reflexivity.
  - intros ann img_id [<-|[]] H. inversion H. reflexivity.
  - exact Hs.
  - exact S.
Defined.

Lemma X8_witness :
  lookup "image_id" fields_no_image_id = None /\
  (forall r, outcome (Visual.validate_loaded data_no_image_id) <> Ok r) /\
  Visual.check_coverage (VList [VDict fields_no_image_id]) img_100 [] =
    Raise (KeyError "image_id").
Proof.
  split; [reflexivity|].
  destruct (X8_missing_image_id_no_summary data_no_image_id img_100 []
              (VList [VDict fields_no_image_id]) [VDict fields_no_image_id]
              fields_no_image_id)
    as (N & R & _); try reflexivity.
  - left. reflexivity.
  - split; [exact N|].
    apply (R [] [] (VInt 1)); try reflexivity. intros a [].
Defined.

Lemma X9_witness :
  Visual.find_image (VList [img_no_width]) (VInt 1) = Ok (Some img_no_width) /\
  Visual.check_small (VList [img_no_width]) (VDict fields_one_percent) [] =
    Raise ZeroDivisionError /\
  forall r, outcome (Visual.validate_loaded data_no_width) <> Ok r.
Proof.
  split; [reflexivity|].
  destruct (X9_zero_area_image_raises (VList [img_no_width])
              fields_one_percent img_no_width 0 100)
    as (S & N); try reflexivity.
  split; [exact (S [])|].
  intros r.
  apply (N data_no_width (VList [VDict fields_one_percent])
           [VDict fields_one_percent] r); try reflexivity.
  left. reflexivity.
Defined.

(** One missing intent: the column is listed with 1, and the summary
    counts one empty value. *)
Lemma X10_witness :
  printed_empty (output (Text.validate_loaded df_null_intent)) =
    [("intent", 1)] /\
  exists s,
    outcome (Text.validate_loaded df_null_intent) = Ok (Some s) /\
    Text.empty_values s = 1.
Proof.
  destruct (X10_empty_values_report df_null_intent) as (_ & P & S & _).
  split; [rewrite P; vm_compute; reflexivity|].
  assert (R : exists s,
             outcome (Text.validate_loaded df_null_intent) = Ok (Some s))
    by (eexists; vm_compute; reflexivity).
  destruct R as (s & Hs). exists s. split; [exact Hs|].
  rewrite (S s Hs), P. vm_compute. reflexivity.
Defined.

(** One row in five with a low confidence is more than a tenth. *)
Lemma X11_witness :
  column df_skewed "confidence" =
    Ok [text "high"; text "high"; text "low"; text "high"; text "high"] /\
  In (HighLowConfidence 1) (output (Text.validate_loaded df_skewed)).
Proof.
  split; [reflexivity|].
  destruct (X11_low_confidence_flag df_skewed
              [text "a"; text "a"; text "a"; text "a"; text "b"]
              [text "high"; text "high"; text "low"; text "high"; text "high"])
    as (_ & _ & F & _); try reflexivity.
  - vm_compute. discriminate.
  - apply F. split; [vm_compute; reflexivity | reflexivity].
Defined.

Lemma X12_witness :
  column df_no_intents "intent" = Ok [None; None] /\
  Text.imbalance_ratio (value_counts [None; None]) = NaN /\
  In (Text "Balanced distribution") (output (Text.validate_loaded df_no_intents)).
Proof.
  split; [reflexivity|].
  destruct (X12_imbalance_ratio_defined df_no_intents [None; None])
    as (E & _); try reflexivity.
  - vm_compute. discriminate.
  - destruct (E eq_refl) as (_ & R & B & _). split; [exact R | exact B].
Defined.

(** Without the text column the record set still has the two columns the
    checks read, and gets its summary. *)
Lemma X13_witness :
  nrows df_no_text < 2 ^ 1023 /\
  Text.missing_cols df_no_text = ["text"] /\
  exists s,
    outcome (Text.validate_text_annotations "f" (Text.Loaded df_no_text)) =
    Ok (Some s).
Proof.
  assert (B : nrows df_no_text < 2 ^ 1023) by (vm_compute; reflexivity).
  split; [exact B|]. split; [reflexivity|].
  destruct (X13_text_outcomes "f") as (_ & _ & _ & _ & L).
  destruct (L df_no_text B) as (S & _).
  apply S. split; reflexivity.
Defined.

(** The visual file cannot be read and the text file is not there: the
    script reports the first and still runs the text validator. *)
Lemma X14_witness :
  Script.result
    (Script.main (Visual.LoadFails "PermissionError") Text.NotFound) = Ok tt /\
  In (Script.VisualFailed (LoadError "PermissionError"))
     (Script.printed (Script.main (Visual.LoadFails "PermissionError")
                                 Text.NotFound)) /\
  In (Script.Line (ErrFileNotFound Script.text_file))
     (Script.printed (Script.main (Visual.LoadFails "PermissionError")
                                 Text.NotFound)).
Proof.
  pose proof (X14_main_isolates_failures (Visual.LoadFails "PermissionError")
                Text.NotFound) as H.
  cbv zeta in H. destruct H as (_ & H).
  destruct H as (O & L & V & _); [vm_compute; discriminate|].
  split; [exact O|]. split.
  - apply V. reflexivity.
  - apply L. right. vm_compute. auto 8.
Defined.

(** One intent of two is missing: the one group has 50%. *)
Lemma X16_witness :
  column df_null_intent "intent" = Ok [text "a"; None] /\
  non_null [text "a"; None] = 1 /\
  exists qs : list Q,
    map (fun g => Text.percentage (snd g) (nrows df_null_intent))
        (value_counts [text "a"; None]) =
    map (fun q => Ok (VFloat (Fin q))) qs /\
    (Qabs (qsum qs - inject_Z 1 * (100 / inject_Z 2)) <= tolerance)%Q.
Proof.
  split; [reflexivity|]. split; [reflexivity|].
  destruct (X16_percentages_sum_to_share df_null_intent "intent"
              [text "a"; None]) as (qs & E & B & _).
  - reflexivity.
  - split; reflexivity.
  - exists qs. split; [exact E | exact B].
Defined.

Lemma X15_witness :
  exists s,
    outcome (Text.validate_loaded df_skewed) = Ok (Some s) /\
    Text.total_annotations s = 5 /\
    0 <= Text.unique_intents s <= Text.total_annotations s.
Proof.
  assert (R : exists s,
             outcome (Text.validate_loaded df_skewed) = Ok (Some s))
    by (eexists; vm_compute; reflexivity).
  destruct R as (s & Hs). exists s. split; [exact Hs|].
  destruct (X15_text_summary_bounds df_skewed s Hs) as (T & U & _).
  split; [rewrite T; reflexivity | exact U].
Defined.

(** Four rows of intent a and one of b, one row of low confidence. *)
Lemma X17_witness :
  exists ic cc,
    printed_groups (output (Text.validate_loaded df_skewed)) = ic ++ cc /\
    distribution_of [text "a"; text "a"; text "a"; text "a"; text "b"] ic /\
    distribution_of
      [text "high"; text "high"; text "low"; text "high"; text "high"] cc.
Proof.
  destruct (@X17_distribution_lines df_skewed
              [text "a"; text "a"; text "a"; text "a"; text "b"]
              [text "high"; text "high"; text "low"; text "high"; text "high"])
    as (ic & cc & P & I & C & _); [reflexivity | reflexivity |].
  exists ic, cc. split; [exact P|]. split; [exact I | exact C].
Defined.

(** A bbox of three components is reported, with the id of its
    annotation; one of four components that are not numbers is not. *)
Lemma C5_witness :
  dataset_ok data_short_bbox = true /\
  (exists s issues,
     outcome (Visual.validate_visual_annotations
                "f" (Visual.Loaded data_short_bbox)) = Ok (Some s) /\
     1 <= Visual.critical_issues s /\
     Visual.critical_issues s = Visual.len issues /\
     filter is_format issues = [InvalidBboxFormat (VInt 4)]) /\
  (exists s issues,
     outcome (Visual.validate_loaded data_odd_bbox) = Ok (Some s) /\
     Visual.critical_issues s = Visual.len issues /\
     filter is_format issues = []).
Proof.
  split; [vm_compute; reflexivity|].
  destruct C5_wrong_length_reported as (_ & _ & F & H). split.
  - destruct (H "f" data_short_bbox [ann_short_bbox; ann_one_percent])
      as (s & Hs & L).
    + vm_compute. reflexivity.
    + reflexivity.
    + assert (Hl : outcome (Visual.validate_loaded data_short_bbox) =
                   Ok (Some s)) by exact Hs.
      destruct (F data_short_bbox s Hl)
        as (annotations & anns & issues & Ea & Et & Ec & _ & Ef).
      exists s, issues. split; [exact Hs|]. split; [exact L|].
      split; [exact Ec|].
      vm_compute in Ea. inversion Ea; subst annotations.
      vm_compute in Et. inversion Et; subst anns.
      exact Ef.
  - assert (R : exists s, outcome (Visual.validate_loaded data_odd_bbox) =
                          Ok (Some s)) by (eexists; vm_compute; reflexivity).
    destruct R as (s & Hs).
    destruct (F data_odd_bbox s Hs) as (annotations & anns & issues & Ea & Et &
                                        Ec & _ & Ef).
    exists s, issues. split; [exact Hs|]. split; [exact Ec|].
    vm_compute in Ea. inversion Ea; subst annotations.
    vm_compute in Et. inversion Et; subst anns.
    exact Ef.
Defined.

(** The box above the second image of the dataset is reported, with its
    coordinates; the box on an image that is not in the dataset is not. *)
Lemma C6_witness :
  dataset_ok data_negative = true /\
  exists s issues,
    outcome (Visual.validate_loaded data_negative) = Ok (Some s) /\
    Visual.critical_issues s = Visual.len issues /\
    filter is_negative issues =
      [NegativeCoordinates (VInt 5) (VInt 3) (VInt (-4))].
Proof.
  split; [vm_compute; reflexivity|].
  destruct C6_negative_coordinates as [_ V].
  destruct (V data_negative [img_100; image 2 50 50]
              [VDict (fields 5 2 1 (box 3 (-4) 10 10) 100);
               VDict (fields 6 9 1 (box (-1) (-1) 10 10) 100)])
    as (s & issues & Hs & Ec & _ & En & _).
  - vm_compute. reflexivity.
  - reflexivity.
  - reflexivity.
  - exists s, issues. split; [exact Hs|]. split; [exact Ec|]. exact En.
Defined.

(** An area of exactly 1% is not small and one of 99 pixels of 10000 is;
    a background box of exactly 50% is not large and one of 5001 pixels of
    10000 is. *)
Lemma X18_witness :
  exists s,
    outcome (Visual.validate_loaded data_boundaries) = Ok (Some s) /\
    Visual.small_objects s = 1 /\ Visual.large_backgrounds s = 1.
Proof.
  destruct (X18_exact_thresholds data_boundaries
              [image 1 100 100; image 2 200 50]
              [annotation 1 2 3 (box 0 0 10 10) 100;
               annotation 2 2 3 (box 0 0 9 11) 99;
               annotation 3 1 3 (box 0 0 50 100) 5000;
               annotation 4 2 3 (box 0 0 50 101) 5001;
               annotation 5 2 4 (box 0 0 90 90) 8100]
              [category 4 "object"; category 3 "Sky (BACKGROUND)"])
    as (s & bg & Hs & Hb & Hsm & Hl).
  - vm_compute. reflexivity.
  - reflexivity.
  - reflexivity.
  - reflexivity.
  - intros ann H.
    repeat (destruct H as [<-|H]; [eexists; reflexivity|]). contradiction.
  - intros img H.
    repeat (destruct H as [<-|H];
            [eexists; split; [reflexivity | vm_compute; discriminate]|]).
    contradiction.
  - exists s. split; [exact Hs|].
    vm_compute in Hb. inversion Hb; subst bg.
    split; [exact Hsm | exact Hl].
Defined.

(** The repetition of the text of a width by the height is text, and the
    division by it raises TypeError. *)
Example text_width_raises :
  Visual.image_area img_text_width = Ok (VStr "ababab") /\
  outcome (Visual.validate_loaded data_text_width) = Raise TypeError.
Proof. split; vm_compute; reflexivity. Qed.

End FurtherCases.
